(** * Go-GitHub-API client plumbing: a shallow embedding

    The Go package [github] is embedded as Rocq functions: the client and
    its helpers (src/unnamed/part_001), the issue endpoints
    (src/unnamed/part_000), the pull-request endpoints (src/unnamed/part_002)
    and the repository endpoints (the package part of src/travis-deps.go).
    Go strings are byte strings ([string] of [ascii]), a Go
    [map[string]string] is a [gmap string string], a Go [int] is a [Z].
    The fields of the [*GitHubClient] receiver and the calls made through
    its [*http.Client] are threaded through the endpoints as a [World]; an
    endpoint also returns the [urlData] map of its caller, which it may
    have written to. *)

From Stdlib Require Import ZArith NArith Ascii String List Lia Bool.
From stdpp Require Import base option gmap strings list fin_maps.

Local Open Scope Z_scope.

(** ** Bytes and the parts of the Go standard library the package calls *)

Module Bytes.

Definition code (c : ascii) : N := N_of_ascii c.

Definition between (lo hi : N) (c : ascii) : bool :=
  ((lo <=? code c) && (code c <=? hi))%N.

Definition eqb (a b : ascii) : bool := Ascii.eqb a b.

(** The double quote, byte 34. *)
Definition quote : ascii := "034".

Definition isDigit (c : ascii) : bool := between 48 57 c.
Definition isLower (c : ascii) : bool := between 97 122 c.
Definition isUpper (c : ascii) : bool := between 65 90 c.
Definition isAlnum (c : ascii) : bool := isLower c || isUpper c || isDigit c.

(** [strings.asciiSpace]: tab, line feed, vertical tab, form feed, carriage
    return and space. *)
Definition asciiSpace (c : ascii) : bool :=
  between 9 13 c || (code c =? 32)%N.

(** UTF-8 encodings of the non-ASCII code points of [unicode.IsSpace]:
    U+0085, U+00A0 (two bytes); U+1680, U+2000..U+200A, U+2028, U+2029,
    U+202F, U+205F, U+3000 (three bytes). *)
Definition space2 (c1 c2 : ascii) : bool :=
  (code c1 =? 194)%N && ((code c2 =? 133)%N || (code c2 =? 160)%N).

Definition space3 (c1 c2 c3 : ascii) : bool :=
  ((code c1 =? 225) && (code c2 =? 154) && (code c3 =? 128))%N
  || ((code c1 =? 226)%N && (code c2 =? 128)%N
      && (between 128 138 c3 || between 168 169 c3 || (code c3 =? 175)%N))
  || ((code c1 =? 226) && (code c2 =? 129) && (code c3 =? 159))%N
  || ((code c1 =? 227) && (code c2 =? 128) && (code c3 =? 128))%N.

End Bytes.

Module strings.

Fixpoint rev_onto (s acc : string) : string :=
  match s with
  | EmptyString => acc
  | String c s' => rev_onto s' (String c acc)
  end.

Definition reverse (s : string) : string := rev_onto s EmptyString.

(** Drop white-space runes from the front.  [p2] and [p3] recognise the
    two- and three-byte runes in the order the bytes are met, so that the
    same loop serves [TrimLeftFunc] and, on the reversed string,
    [TrimRightFunc]. *)
Fixpoint dropSpace (p2 : ascii -> ascii -> bool)
    (p3 : ascii -> ascii -> ascii -> bool) (s : string) : string :=
  match s with
  | EmptyString => EmptyString
  | String c1 s1 =>
      if Bytes.asciiSpace c1 then dropSpace p2 p3 s1
      else match s1 with
           | EmptyString => s
           | String c2 s2 =>
               if p2 c1 c2 then dropSpace p2 p3 s2
               else match s2 with
                    | EmptyString => s
                    | String c3 s3 =>
                        if p3 c1 c2 c3 then dropSpace p2 p3 s3 else s
                    end
           end
  end.

Definition TrimLeftSpace (s : string) : string :=
  dropSpace Bytes.space2 Bytes.space3 s.

Definition TrimRightSpace (s : string) : string :=
  reverse (dropSpace (fun a b => Bytes.space2 b a)
                     (fun a b c => Bytes.space3 c b a) (reverse s)).

(** [strings.TrimSpace]. *)
Definition TrimSpace (s : string) : string :=
  TrimRightSpace (TrimLeftSpace s).

(** [strings.HasPrefix s prefix]. *)
Fixpoint HasPrefix (s prefix : string) {struct prefix} : bool :=
  match prefix, s with
  | EmptyString, _ => true
  | String p prefix', String c s' => Bytes.eqb p c && HasPrefix s' prefix'
  | String _ _, EmptyString => false
  end.

Fixpoint indexFrom (i : Z) (s substr : string) : Z :=
  if HasPrefix s substr then i
  else match s with
       | EmptyString => -1
       | String _ s' => indexFrom (i + 1) s' substr
       end.

(** [strings.Index s substr]: the first position of [substr] in [s], or
    [-1]. *)
Definition Index (s substr : string) : Z := indexFrom 0 s substr.

(** [strings.IndexByte s c >= 0]: the byte [c] occurs in [s]. *)
Fixpoint hasByte (c : ascii) (s : string) : bool :=
  match s with
  | EmptyString => false
  | String d s' => Bytes.eqb d c || hasByte c s'
  end.

(** [len(s)]. *)
Definition len (s : string) : Z := Z.of_nat (String.length s).

End strings.

Module url.

(** ["0123456789ABCDEF"[n]]. *)
Definition upperhex (n : N) : ascii :=
  if (n <? 10)%N then ascii_of_N (48 + n) else ascii_of_N (55 + n).

(** [shouldEscape c encodeQueryComponent]. *)
Definition shouldEscape (c : ascii) : bool :=
  if Bytes.isAlnum c then false
  else if Bytes.eqb c "-" || Bytes.eqb c "_" || Bytes.eqb c "."
          || Bytes.eqb c "~" then false
  else true.

(** [url.QueryEscape]. *)
Fixpoint QueryEscape (s : string) : string :=
  match s with
  | EmptyString => EmptyString
  | String c s' =>
      if shouldEscape c then
        if Bytes.eqb c " " then String "+" (QueryEscape s')
        else String "%"
               (String (upperhex (N.shiftr (Bytes.code c) 4))
                  (String (upperhex (N.land (Bytes.code c) 15))
                     (QueryEscape s')))
      else String c (QueryEscape s')
  end.

Definition ishex (c : ascii) : bool :=
  Bytes.isDigit c || Bytes.between 97 102 c || Bytes.between 65 70 c.

Definition unhex (c : ascii) : N :=
  if Bytes.isDigit c then Bytes.code c - 48
  else if Bytes.between 97 102 c then Bytes.code c - 97 + 10
  else if Bytes.between 65 70 c then Bytes.code c - 65 + 10
  else 0.

(** [url.QueryUnescape]: [None] stands for the [EscapeError] result. *)
Fixpoint QueryUnescape (s : string) : option string :=
  match s with
  | EmptyString => Some EmptyString
  | String c s1 =>
      if Bytes.eqb c "%" then
        match s1 with
        | String h (String l s3) =>
            if ishex h && ishex l then
              String (ascii_of_N (N.lor (N.shiftl (unhex h) 4) (unhex l)))
                <$> QueryUnescape s3
            else None
        | _ => None
        end
      else if Bytes.eqb c "+" then String " " <$> QueryUnescape s1
      else String c <$> QueryUnescape s1
  end.

(** [strings.Cut s sep] for a one-byte separator: the text before the
    first [sep] and the text after it; all of [s] and nothing when [sep]
    does not occur. *)
Fixpoint Cut (s : string) (sep : ascii) : string * string :=
  match s with
  | EmptyString => (EmptyString, EmptyString)
  | String c s' =>
      if Bytes.eqb c sep then (EmptyString, s')
      else let '(before, after) := Cut s' sep in (String c before, after)
  end.

(** The pieces the loop of [parseQuery] sees: it cuts the query at each
    ampersand in turn. *)
Fixpoint pieces (s : string) : list string :=
  match s with
  | EmptyString => [EmptyString]
  | String c s' =>
      if Bytes.eqb c "&" then EmptyString :: pieces s'
      else match pieces s' with
           | p :: ps => String c p :: ps
           | [] => [String c EmptyString]
           end
  end.

Inductive queryError := SemicolonSeparator | EscapeError.

(** [url.Values] is [map[string][]string]. *)
Abbreviation Values := (gmap string (list string)).

(** One turn of the loop of [url.parseQuery]: [m[key] = append(m[key],
    value)], the first error kept. *)
Definition parsePiece (acc : Values * option queryError) (piece : string)
    : Values * option queryError :=
  let '(m, err) := acc in
  if strings.hasByte ";" piece then (m, Some SemicolonSeparator)
  else
    match piece with
    | EmptyString => (m, err)
    | _ =>
        let '(key, value) := Cut piece "=" in
        match QueryUnescape key with
        | None => (m, Some (default EscapeError err))
        | Some key =>
            match QueryUnescape value with
            | None => (m, Some (default EscapeError err))
            | Some value =>
                (<[key := default [] (m !! key) ++ [value]]> m, err)
            end
        end
    end.

(** [url.ParseQuery]. *)
Definition ParseQuery (query : string) : Values * option queryError :=
  foldl parsePiece (∅, None) (pieces query).

End url.

Module strconv.

(** [strconv.IntSize] on the 64-bit platforms the package is built for. *)
Definition IntSize : Z := 64.

Inductive NumError := ErrSyntax | ErrRange.

Definition maxUint64 : Z := 2 ^ 64 - 1.

(** The digit loop of [ParseUint s 10 0]: [n] is the value read so far. *)
Fixpoint parseUintLoop (s : string) (n : Z) : Z + NumError :=
  match s with
  | EmptyString => inl n
  | String c s' =>
      if Bytes.isDigit c then
        let d := Z.of_N (Bytes.code c) - 48 in
        if n >=? maxUint64 / 10 + 1 then inr ErrRange
        else
          let n1 := n * 10 + d in
          if n1 >? maxUint64 then inr ErrRange
          else parseUintLoop s' n1
      else inr ErrSyntax
  end.

Definition ParseUint (s : string) : Z + NumError :=
  match s with
  | EmptyString => inr ErrSyntax
  | _ => parseUintLoop s 0
  end.

(** [strconv.ParseInt s 10 0]. *)
Definition ParseInt (s : string) : Z + NumError :=
  match s with
  | EmptyString => inr ErrSyntax
  | String c s' =>
      let neg := Bytes.eqb c "-" in
      let digits := if Bytes.eqb c "+" || neg then s' else s in
      match ParseUint digits with
      | inr ErrSyntax => inr ErrSyntax
      | inr ErrRange => inr ErrRange
      | inl un =>
          let cutoff := 2 ^ (IntSize - 1) in
          if negb neg && (un >=? cutoff) then inr ErrRange
          else if neg && (un >? cutoff) then inr ErrRange
          else inl (if neg then - un else un)
      end
  end.

End strconv.

(** Go [error] values the package makes or passes on. *)
Inductive error :=
| errorString (s : string)              (* errors.New(s) *)
| InvalidUnmarshalError (ty : string)   (* json: destination of type ty is no pointer *)
| SyntaxError                           (* *json.SyntaxError *)
| foreignError (msg : string).          (* made outside the package: transport, I/O, decoding *)

(** [err.Error()].  The text of a [*json.SyntaxError] is made by the
    scanner of encoding/json and is not modelled. *)
Definition Error (e : error) : option string :=
  match e with
  | errorString s => Some s
  | InvalidUnmarshalError ty =>
      Some ("json: Unmarshal(non-pointer " +:+ ty +:+ ")")
  | SyntaxError => None
  | foreignError msg => Some msg
  end.

Module http.

(** [textproto.validHeaderFieldByte]: the token characters of RFC 7230. *)
Definition validHeaderFieldByte (c : ascii) : bool :=
  Bytes.isAlnum c
  || existsb (Bytes.eqb c)
       ["!"; "#"; "$"; "%"; "&"; "'"; "*"; "+"; "-"; "."; "^"; "_"; "`";
        "|"; "~"]%char.

Definition toUpper (c : ascii) : ascii :=
  if Bytes.isLower c then ascii_of_N (Bytes.code c - 32) else c.

Definition toLower (c : ascii) : ascii :=
  if Bytes.isUpper c then ascii_of_N (Bytes.code c + 32) else c.

Fixpoint canonicalLoop (upper : bool) (s : string) : string :=
  match s with
  | EmptyString => EmptyString
  | String c s' =>
      String (if upper then toUpper c else toLower c)
        (canonicalLoop (Bytes.eqb c "-") s')
  end.

Fixpoint allValid (s : string) : bool :=
  match s with
  | EmptyString => true
  | String c s' => validHeaderFieldByte c && allValid s'
  end.

(** [textproto.CanonicalMIMEHeaderKey]. *)
Definition CanonicalMIMEHeaderKey (s : string) : string :=
  if allValid s then canonicalLoop true s else s.

(** [http.Header], a [textproto.MIMEHeader], is [map[string][]string]. *)
Abbreviation MIMEHeader := (gmap string (list string)).

(** [Header.Get]. *)
Definition HeaderGet (h : MIMEHeader) (key : string) : string :=
  match h !! CanonicalMIMEHeaderKey key with
  | Some (v :: _) => v
  | _ => EmptyString
  end.

Record Request := {
  Method : string;
  URL : string;
  ContentType : string;
  Payload : string
}.

(** [Body] is what [ioutil.ReadAll(res.Body)] returns. *)
Record Response := {
  StatusCode : Z;
  Status : string;
  Header : MIMEHeader;
  Body : string + error
}.

(** The [*http.Client]: its answer to a call, given the calls made before. *)
Definition Client : Type := list Request -> Request -> Response + error.

End http.

(** ** encoding/json: the grammar of RFC 8259 as two automata

    [lex] cuts the bytes into tokens, [parse] checks the token sequence with
    a stack of open arrays and objects, as the scanner behind
    [json.checkValid] does.  String tokens keep the bytes between the quotes
    as they are written (escape sequences are checked, not expanded). *)

Module json.

#[local] Unset Elimination Schemes.
Inductive value :=
| Null
| Bool (b : bool)
| Number (lit : string)
| Str (raw : string)
| Array (elems : list value)
| Object (members : list (string * value)).
#[local] Set Elimination Schemes.

Inductive token :=
| TLBrace | TRBrace | TLBracket | TRBracket | TColon | TComma
| TString (raw : string)
| TNumber (lit : string)
| TTrue | TFalse | TNull.

(** Number literals: an optional minus; 0 or a non-zero digit and more
    digits; an optional fraction (a point and digits); an optional exponent
    (e or E, an optional sign, digits). *)
Fixpoint digits1 (seen : bool) (s : string) : bool :=
  match s with
  | EmptyString => seen
  | String c s' => Bytes.isDigit c && digits1 true s'
  end.

Definition exponent (s : string) : bool :=
  match s with
  | String c s' =>
      if Bytes.eqb c "+" || Bytes.eqb c "-" then digits1 false s'
      else digits1 false s
  | EmptyString => false
  end.

Fixpoint fraction (seen : bool) (s : string) : bool :=
  match s with
  | EmptyString => seen
  | String c s' =>
      if Bytes.isDigit c then fraction true s'
      else if Bytes.eqb c "e" || Bytes.eqb c "E" then seen && exponent s'
      else false
  end.

(** After the integer part: end, a fraction, or an exponent. *)
Definition afterInt (s : string) : bool :=
  match s with
  | EmptyString => true
  | String c s' =>
      if Bytes.eqb c "." then fraction false s'
      else if Bytes.eqb c "e" || Bytes.eqb c "E" then exponent s'
      else false
  end.

Fixpoint intDigits (s : string) : bool :=
  match s with
  | String c s' => if Bytes.isDigit c then intDigits s' else afterInt s
  | EmptyString => true
  end.

Definition unsignedNumber (s : string) : bool :=
  match s with
  | String c s' =>
      if Bytes.eqb c "0" then afterInt s'
      else if Bytes.between 49 57 c then intDigits s'
      else false
  | EmptyString => false
  end.

Definition validNumber (s : string) : bool :=
  match s with
  | String c s' => if Bytes.eqb c "-" then unsignedNumber s' else unsignedNumber s
  | EmptyString => false
  end.

Definition numberByte (c : ascii) : bool :=
  Bytes.isDigit c || Bytes.eqb c "-" || Bytes.eqb c "+" || Bytes.eqb c "."
  || Bytes.eqb c "e" || Bytes.eqb c "E".

Definition isSpace (c : ascii) : bool :=
  Bytes.eqb c " " || (Bytes.code c =? 9)%N || (Bytes.code c =? 10)%N
  || (Bytes.code c =? 13)%N.

(** What the lexer is in the middle of.  The accumulators hold the bytes
    read so far, last byte first. *)
Inductive mode :=
| Top
| InString (acc : string)
| InEscape (acc : string)
| InHex (acc : string) (todo : nat)
| InNumber (acc : string)
| InLiteral (rest : string) (t : token).

(** One byte at the top level: an optional token and the next mode. *)
Definition startByte (c : ascii) : option (list token * mode) :=
  if isSpace c then Some ([], Top)
  else if Bytes.eqb c "{" then Some ([TLBrace], Top)
  else if Bytes.eqb c "}" then Some ([TRBrace], Top)
  else if Bytes.eqb c "[" then Some ([TLBracket], Top)
  else if Bytes.eqb c "]" then Some ([TRBracket], Top)
  else if Bytes.eqb c ":" then Some ([TColon], Top)
  else if Bytes.eqb c "," then Some ([TComma], Top)
  else if Bytes.eqb c Bytes.quote then Some ([], InString EmptyString)
  else if Bytes.eqb c "-" || Bytes.isDigit c then
    Some ([], InNumber (String c EmptyString))
  else if Bytes.eqb c "t" then Some ([], InLiteral "rue" TTrue)
  else if Bytes.eqb c "f" then Some ([], InLiteral "alse" TFalse)
  else if Bytes.eqb c "n" then Some ([], InLiteral "ull" TNull)
  else None.

Definition closeNumber (acc : string) : option token :=
  let lit := strings.reverse acc in
  if validNumber lit then Some (TNumber lit) else None.

Definition step (m : mode) (c : ascii) : option (list token * mode) :=
  match m with
  | Top => startByte c
  | InString acc =>
      if Bytes.eqb c Bytes.quote then Some ([TString (strings.reverse acc)], Top)
      else if Bytes.eqb c "\" then Some ([], InEscape (String c acc))
      else if (Bytes.code c <? 32)%N then None
      else Some ([], InString (String c acc))
  | InEscape acc =>
      if existsb (Bytes.eqb c) [Bytes.quote; "\"; "/"; "b"; "f"; "n"; "r"; "t"]%char
      then Some ([], InString (String c acc))
      else if Bytes.eqb c "u" then Some ([], InHex (String c acc) 4)
      else None
  | InHex acc todo =>
      if url.ishex c then
        match todo with
        | S (S k) => Some ([], InHex (String c acc) (S k))
        | _ => Some ([], InString (String c acc))
        end
      else None
  | InNumber acc =>
      if numberByte c then Some ([], InNumber (String c acc))
      else
        match closeNumber acc, startByte c with
        | Some t, Some (ts, m') => Some (t :: ts, m')
        | _, _ => None
        end
  | InLiteral rest t =>
      match rest with
      | String r EmptyString =>
          if Bytes.eqb c r then Some ([t], Top) else None
      | String r rest' =>
          if Bytes.eqb c r then Some ([], InLiteral rest' t) else None
      | EmptyString => None
      end
  end.

Fixpoint lexFrom (m : mode) (s : string) : option (list token) :=
  match s with
  | EmptyString =>
      match m with
      | Top => Some []
      | InNumber acc => (fun t => [t]) <$> closeNumber acc
      | _ => None
      end
  | String c s' =>
      match step m c with
      | Some (ts, m') => (fun rest => ts ++ rest) <$> lexFrom m' s'
      | None => None
      end
  end.

Definition lex (s : string) : option (list token) := lexFrom Top s.

(** An array or object that is still open. *)
Inductive frame :=
| InArray (done : list value)
| InObject (done : list (string * value)) (key : string).

Inductive pstate :=
| WantValue (stack : list frame)
| WantValueOrClose (stack : list frame)
| WantKeyOrClose (stack : list frame)
| WantKey (done : list (string * value)) (stack : list frame)
| WantColon (done : list (string * value)) (key : string) (stack : list frame)
| HaveValue (v : value) (stack : list frame).

(** A token where a value may start. *)
Definition beginValue (t : token) (stack : list frame) : option pstate :=
  match t with
  | TNull => Some (HaveValue Null stack)
  | TTrue => Some (HaveValue (Bool true) stack)
  | TFalse => Some (HaveValue (Bool false) stack)
  | TNumber lit => Some (HaveValue (Number lit) stack)
  | TString raw => Some (HaveValue (Str raw) stack)
  | TLBracket => Some (WantValueOrClose stack)
  | TLBrace => Some (WantKeyOrClose stack)
  | _ => None
  end.

Definition pstep (st : pstate) (t : token) : option pstate :=
  match st with
  | WantValue stack => beginValue t stack
  | WantValueOrClose stack =>
      match t with
      | TRBracket => Some (HaveValue (Array []) stack)
      | _ => beginValue t (InArray [] :: stack)
      end
  | WantKeyOrClose stack =>
      match t with
      | TRBrace => Some (HaveValue (Object []) stack)
      | TString k => Some (WantColon [] k stack)
      | _ => None
      end
  | WantKey done stack =>
      match t with
      | TString k => Some (WantColon done k stack)
      | _ => None
      end
  | WantColon done k stack =>
      match t with
      | TColon => Some (WantValue (InObject done k :: stack))
      | _ => None
      end
  | HaveValue v (InArray done :: stack) =>
      match t with
      | TComma => Some (WantValue (InArray (v :: done) :: stack))
      | TRBracket => Some (HaveValue (Array (rev (v :: done))) stack)
      | _ => None
      end
  | HaveValue v (InObject done k :: stack) =>
      match t with
      | TComma => Some (WantKey ((k, v) :: done) stack)
      | TRBrace => Some (HaveValue (Object (rev ((k, v) :: done))) stack)
      | _ => None
      end
  | HaveValue _ [] => None
  end.

Fixpoint prun (st : pstate) (ts : list token) : option pstate :=
  match ts with
  | [] => Some st
  | t :: ts' =>
      match pstep st t with
      | Some st' => prun st' ts'
      | None => None
      end
  end.

(** The value a text stands for, if it is a JSON text. *)
Definition parse (data : string) : option value :=
  match lex data with
  | Some ts =>
      match prun (WantValue []) ts with
      | Some (HaveValue v []) => Some v
      | _ => None
      end
  | None => None
  end.

(** [json.Valid]. *)
Definition Valid (data : string) : bool :=
  match parse data with Some _ => true | None => false end.

(** The reflection-driven decoding of a JSON value into a Go value of
    type [T], reached through a pointer to it. *)
Class Decodable (T : Type) := decode : value -> T + error.

(** [json.Marshal] of a Go value of type [T]. *)
Class Encodable (T : Type) := Marshal : T -> string + error.

(** The second argument of [json.Unmarshal]: a pointer to a [T], or the
    [T] itself, of the named type. *)
Inductive dest (T : Type) :=
| pointer (d : Decodable T)
| nonPointer (tyname : string).
Arguments pointer {T} d.
Arguments nonPointer {T} tyname.

(** [json.Unmarshal data v]: the text is checked first, then the kind of
    [v]. *)
Definition Unmarshal {T : Type} (data : string) (v : dest T) : T + error :=
  match parse data with
  | None => inr SyntaxError
  | Some j =>
      match v with
      | nonPointer tyname => inr (InvalidUnmarshalError tyname)
      | pointer d => @decode T d j
      end
  end.

End json.

(** ** The client and its helpers (src/unnamed/part_001) *)

Definition APIURL : string := "https://api.github.com".

(** The [Client] field, the [*http.Client], is not part of the record: it
    is the [http.Client] the endpoints take. *)
Record GitHubClient := {
  Type_ : string;
  Token : string;
  Login : string;
  CallsLimit : Z;
  CallsRemaining : Z
}.

Definition NewGitHubClient (token login : string) : GitHubClient :=
  {| Type_ := "oauth";
     Token := token;
     Login := login;
     CallsLimit := 5000;
     CallsRemaining := 5000 |}.

Definition createUrl (github : GitHubClient) (path : string) : string :=
  if strings.Index path "?" =? -1 then
    APIURL +:+ path +:+ "?access_token=" +:+ url.QueryEscape (Token github)
  else
    APIURL +:+ path +:+ "&access_token=" +:+ url.QueryEscape (Token github).

(** [m[key]] on a [map[string]string]: the zero value for a missing key. *)
Definition mapIndex (m : gmap string string) (key : string) : string :=
  default EmptyString (m !! key).

(** The receiver of the validators is not used by them and is left out. *)
Definition AssertMapString (key : string) (m : gmap string string) : bool :=
  match m !! key with
  | Some v => negb (strings.len (strings.TrimSpace v) =? 0)
  | None => false
  end.

Fixpoint AssertMapStrings (s : list string) (m : gmap string string) : bool :=
  match s with
  | [] => true
  | key :: s' =>
      let val := mapIndex m key in
      let ok := bool_decide (is_Some (m !! key)) in
      if negb ok && negb (String.eqb (strings.TrimSpace val) EmptyString)
      then false
      else AssertMapStrings s' m
  end.

(** The body of the loop of [UrlDataConvert]. *)
Definition UrlDataConvertStep (s : string) (kv : string * string) : string :=
  let '(key, val) := kv in
  if strings.len s =? 0 then
    s +:+ url.QueryEscape (strings.TrimSpace key) +:+ "="
      +:+ url.QueryEscape (strings.TrimSpace val)
  else
    s +:+ "&" +:+ url.QueryEscape (strings.TrimSpace key) +:+ "="
      +:+ url.QueryEscape (strings.TrimSpace val).

(** [UrlDataConvert] when [range m] yields the entries in the order
    [order]. *)
Definition UrlDataConvertIn (order : list (string * string)) : string :=
  foldl UrlDataConvertStep EmptyString order.

(** Go ranges over a map in an unspecified order: [UrlDataConvert m] may
    return [s] when some enumeration of [m] makes the loop produce [s]. *)
Definition UrlDataConvert (m : gmap string string) (s : string) : Prop :=
  exists order, order ≡ₚ map_to_list m /\ s = UrlDataConvertIn order.

Definition getLimits (res : http.Response) (github : GitHubClient)
    : GitHubClient :=
  match strconv.ParseInt
          (http.HeaderGet (http.Header res) "X-RateLimit-Remaining") with
  | inr _ => github
  | inl remain =>
      match strconv.ParseInt
              (http.HeaderGet (http.Header res) "X-RateLimit-Limit") with
      | inr _ => github
      | inl limit =>
          {| Type_ := Type_ github;
             Token := Token github;
             Login := Login github;
             CallsLimit := limit;
             CallsRemaining := remain |}
      end
  end.

Definition readResponse {T : Type} (res : http.Response) (v : json.dest T)
    (github : GitHubClient) : (option T * option error) * GitHubClient :=
  match http.Body res with
  | inr err => ((None, Some err), github)
  | inl data =>
      match json.Unmarshal data v with
      | inr err => ((None, Some err), github)
      | inl x => ((Some x, None), getLimits res github)
      end
  end.

(** ** The client and the calls made through it *)

(** [github] holds the fields of the receiver; [calls] lists the calls of
    [Client.Get] and [Client.Post] so far, oldest first, whatever the
    client answered. *)
Record World := {
  github : GitHubClient;
  calls : list http.Request
}.

(** One call of the client: its answer, and the call recorded. *)
Definition Do (client : http.Client) (req : http.Request) (w : World)
    : (http.Response + error) * World :=
  (client (calls w) req,
   {| github := github w; calls := calls w ++ [req] |}).

(** [github.Client.Get(url)]. *)
Definition ClientGet (client : http.Client) (u : string) (w : World) :=
  Do client {| http.Method := "GET"; http.URL := u;
               http.ContentType := EmptyString;
               http.Payload := EmptyString |} w.

(** [github.Client.Post(url, contentType, body)]. *)
Definition ClientPost (client : http.Client) (u contentType body : string)
    (w : World) :=
  Do client {| http.Method := "POST"; http.URL := u;
               http.ContentType := contentType;
               http.Payload := body |} w.

(** [github.getLimits(res)] on the client of the world. *)
Definition withLimits (res : http.Response) (w : World) : World :=
  {| github := getLimits res (github w); calls := calls w |}.

(** The one-byte string that is a double quote, for the quoted parts of
    messages and templates. *)
Definition q : string := String Bytes.quote EmptyString.

(** What an endpoint leaves behind: its two results, the caller's
    [urlData] map as it now is, and the world. *)
Definition Outcome (R : Type) : Type :=
  (R * option error) * gmap string string * World.

(** ** Issue endpoints (src/unnamed/part_000) *)

Definition GetIssue {Issue : Type} {D : json.Decodable Issue}
    (client : http.Client) (urlData : gmap string string) (w : World)
    : Outcome (option Issue) :=
  if negb (AssertMapStrings ["repo"; "number"] urlData) then
    ((None, Some (errorString
        ("The urlData[" +:+ q +:+ "repo" +:+ q +:+ "] value and/or urlData["
         +:+ q +:+ "number" +:+ q
         +:+ "] value is either empty or doesn't contain any non-whitespace content"))),
     urlData, w)
  else
    let urlData :=
      if negb (AssertMapString "owner" urlData)
      then <["owner" := Login (github w)]> urlData else urlData in
    let apiUrl :=
      createUrl (github w)
        ("/repos/" +:+ mapIndex urlData "owner" +:+ "/"
         +:+ mapIndex urlData "repo" +:+ "/issues/"
         +:+ mapIndex urlData "number") in
    let '(res, w) := ClientGet client apiUrl w in
    match res with
    | inr err => ((None, Some err), urlData, w)
    | inl res =>
        if http.StatusCode res =? 200 then
          match http.Body res with
          | inr err => ((None, Some err), urlData, w)
          | inl issueJson =>
              match json.Unmarshal issueJson (json.pointer _) with
              | inr err => ((None, Some err), urlData, w)
              | inl issue =>
                  ((Some issue, None), urlData, withLimits res w)
              end
          end
        else
          ((None, Some (errorString
              ("Didn't receive 200 status from Github: " +:+ http.Status res))),
           urlData, w)
    end.

Definition CheckAssignees (client : http.Client)
    (urlData : gmap string string) (w : World) : Outcome bool :=
  if negb (AssertMapStrings ["repo"; "assignee"] urlData) then
    ((false, Some (errorString
        ("The urlData[" +:+ q +:+ "repo" +:+ q +:+ "] value and/or urlData["
         +:+ q +:+ "assignee" +:+ q
         +:+ "] value is either empty or doesn't contain any non-whitespace content"))),
     urlData, w)
  else
    let urlData :=
      if negb (AssertMapString "owner" urlData)
      then <["owner" := Login (github w)]> urlData else urlData in
    let apiUrl :=
      createUrl (github w)
        ("/repos/" +:+ mapIndex urlData "owner" +:+ "/"
         +:+ mapIndex urlData "repo" +:+ "/assignees/"
         +:+ mapIndex urlData "assignee") in
    let '(res, w) := ClientGet client apiUrl w in
    match res with
    | inr err => ((false, Some err), urlData, w)
    | inl res =>
        if http.StatusCode res =? 204 then
          ((true, None), urlData, withLimits res w)
        else if http.StatusCode res =? 404 then
          ((false, None), urlData, withLimits res w)
        else
          ((false, Some (errorString
              ("Didn't receive 204/404 status from Github: "
               +:+ http.Status res))),
           urlData, w)
    end.

Definition ListIssueComments {Comments : Type} {D : json.Decodable Comments}
    (client : http.Client) (urlData : gmap string string) (w : World)
    : Outcome (option Comments) :=
  if negb (AssertMapStrings ["repo"; "number"] urlData) then
    ((None, Some (errorString
        ("The urlData[" +:+ q +:+ "repo" +:+ q +:+ "] value and/org urlData["
         +:+ q +:+ "number" +:+ q
         +:+ "] value is either empty or doesn't contain any non-whitespace content"))),
     urlData, w)
  else
    let urlData :=
      if negb (AssertMapString "owner" urlData)
      then <["owner" := Login (github w)]> urlData else urlData in
    let apiUrl :=
      createUrl (github w)
        ("/repos/" +:+ mapIndex urlData EmptyString +:+ "/"
         +:+ mapIndex urlData "repo" +:+ "/issues/"
         +:+ mapIndex urlData "number" +:+ "/comments") in
    let '(res, w) := ClientGet client apiUrl w in
    match res with
    | inr err => ((None, Some err), urlData, w)
    | inl res =>
        if http.StatusCode res =? 200 then
          match http.Body res with
          | inr err => ((None, Some err), urlData, w)
          | inl commentsJson =>
              match json.Unmarshal commentsJson (json.pointer _) with
              | inr err => ((None, Some err), urlData, w)
              | inl comments =>
                  ((Some comments, None), urlData, withLimits res w)
              end
          end
        else
          ((None, Some (errorString
              ("Didn't receive 200 status from Github: " +:+ http.Status res))),
           urlData, w)
    end.

(** The JSON text [CreateIssueComment] posts. *)
Definition commentJsonText (commentBody : string) : string :=
  "{ " +:+ q +:+ "body" +:+ q +:+ ": " +:+ q +:+ commentBody +:+ q +:+ " }".

Definition CreateIssueComment {Comment : Type} {D : json.Decodable Comment}
    (client : http.Client) (urlData : gmap string string)
    (commentBody : string) (w : World) : Outcome (option Comment) :=
  let commentBody := strings.TrimSpace commentBody in
  if strings.len commentBody =? 0 then
    ((None, Some (errorString
        "The comment body does not contain any non-whitespace content.")),
     urlData, w)
  else if negb (AssertMapStrings ["repo"; "number"] urlData) then
    ((None, Some (errorString
        ("The urlData[" +:+ q +:+ "repo" +:+ q +:+ "] value and/org urlData["
         +:+ q +:+ "number" +:+ q
         +:+ "] value is either empty or doesn't contain any non-whitespace content"))),
     urlData, w)
  else
    let urlData :=
      if negb (AssertMapString "owner" urlData)
      then <["owner" := Login (github w)]> urlData else urlData in
    let jsonText := commentJsonText commentBody in
    let apiUrl :=
      createUrl (github w)
        ("/repos/" +:+ mapIndex urlData "owner" +:+ "/"
         +:+ mapIndex urlData "repo" +:+ "/issues/"
         +:+ mapIndex urlData "number" +:+ "/comments") in
    let '(res, w) := ClientPost client apiUrl "application/json" jsonText w in
    match res with
    | inr err => ((None, Some err), urlData, w)
    | inl res =>
        if http.StatusCode res =? 200 then
          match http.Body res with
          | inr err => ((None, Some err), urlData, w)
          | inl commentJson =>
              match json.Unmarshal commentJson (json.pointer _) with
              | inr err => ((None, Some err), urlData, w)
              | inl comment =>
                  ((Some comment, None), urlData, withLimits res w)
              end
          end
        else
          ((None, Some (errorString
              ("Didn't receive 200 status from Github: " +:+ http.Status res))),
           urlData, w)
    end.

(** ** Pull-request endpoints (src/unnamed/part_002) *)

Definition HasPullMerged (client : http.Client)
    (urlData : gmap string string) (w : World) : Outcome bool :=
  if negb (AssertMapStrings ["repo"; "number"] urlData) then
    ((false, Some (errorString
        "One or more fields are missing and/or do not have content.")),
     urlData, w)
  else
    let urlData :=
      if negb (AssertMapString "owner" urlData)
      then <["owner" := Login (github w)]> urlData else urlData in
    let apiUrl :=
      createUrl (github w)
        ("/repos/" +:+ mapIndex urlData "owner" +:+ "/"
         +:+ mapIndex urlData "repo" +:+ "/pulls/"
         +:+ mapIndex urlData "number" +:+ "/merge") in
    let '(res, w) := ClientGet client apiUrl w in
    match res with
    | inr err => ((false, Some err), urlData, w)
    | inl res =>
        if http.StatusCode res =? 204 then
          match http.Body res with
          | inr err => ((false, Some err), urlData, w)
          | inl filesJson =>
              match json.Unmarshal (T := list json.value) filesJson
                      (json.nonPointer "[]github.CommitFile") with
              | inr err => ((false, Some err), urlData, w)
              | inl _ => ((true, None), urlData, withLimits res w)
              end
          end
        else if http.StatusCode res =? 404 then
          ((false, None), urlData, w)
        else
          ((false, Some (errorString
              ("Didn't receive 204/404 status from Github: "
               +:+ http.Status res))),
           urlData, w)
    end.

(** ** Repository endpoints (src/travis-deps.go, package github) *)

Record Message := { Message_ : string }.

Definition IsCollab (client : http.Client) (urlData : gmap string string)
    (w : World) : Outcome bool :=
  if negb (AssertMapStrings ["repo"; "user"] urlData) then
    ((false, Some (errorString "There is missing data in urlData")),
     urlData, w)
  else
    let urlData :=
      if negb (AssertMapString "owner" urlData)
      then <["owner" := Login (github w)]> urlData else urlData in
    let apiUrl :=
      createUrl (github w)
        ("/repos/" +:+ mapIndex urlData "owner" +:+ "/"
         +:+ mapIndex urlData "repo" +:+ "/collaborators/"
         +:+ mapIndex urlData "user") in
    let '(res, w) := ClientGet client apiUrl w in
    match res with
    | inr err => ((false, Some err), urlData, w)
    | inl res =>
        if http.StatusCode res =? 204 then
          ((true, None), urlData, withLimits res w)
        else if http.StatusCode res =? 404 then
          ((false, None), urlData, withLimits res w)
        else
          ((false, Some (errorString
              ("Didn't receive 204 or 404 status from Github: "
               +:+ http.Status res))),
           urlData, withLimits res w)
    end.

(** The JSON text [CreateRepoKey] posts. *)
Definition keyJsonText (key : gmap string string) : string :=
  "{ " +:+ q +:+ "key" +:+ q +:+ ": " +:+ q +:+ mapIndex key "key" +:+ q
  +:+ ", " +:+ q +:+ "title" +:+ q +:+ ": " +:+ q +:+ mapIndex key "title"
  +:+ q +:+ " }".

Definition CreateRepoKey {Key : Type} {D : json.Decodable Key}
    (client : http.Client) (urlData : gmap string string)
    (key : gmap string string) (w : World) : Outcome (option Key) :=
  if negb (AssertMapStrings ["repo"; "id"] urlData) then
    ((None, Some (errorString "There is missing data in urlData")),
     urlData, w)
  else
    let urlData :=
      if negb (AssertMapString "owner" urlData)
      then <["owner" := Login (github w)]> urlData else urlData in
    let apiUrl :=
      createUrl (github w)
        ("/repos/" +:+ mapIndex urlData "owner" +:+ "/"
         +:+ mapIndex urlData "repo" +:+ "/keys") in
    let '(res, w) :=
      ClientPost client apiUrl "application/json" (keyJsonText key) w in
    match res with
    | inr err => ((None, Some err), urlData, w)
    | inl res =>
        if http.StatusCode res =? 201 then
          match http.Body res with
          | inr err => ((None, Some err), urlData, w)
          | inl keyJson =>
              match json.Unmarshal keyJson (json.pointer _) with
              | inr err => ((None, Some err), urlData, w)
              | inl key => ((Some key, None), urlData, withLimits res w)
              end
          end
        else
          ((None, Some (errorString
              ("Didn't receive 201 status from Github: " +:+ http.Status res))),
           urlData, w)
    end.

Definition Merge {Commit : Type} {D : json.Decodable Commit}
    {E : json.Encodable (gmap string string)}
    (client : http.Client) (urlData postData : gmap string string)
    (w : World) : Outcome (option Commit) :=
  if negb (AssertMapString "repo" urlData) then
    ((None, Some (errorString "There is missing data in urlData")),
     urlData, w)
  else
    let urlData :=
      if negb (AssertMapString "owner" urlData)
      then <["owner" := Login (github w)]> urlData else urlData in
    if negb (AssertMapStrings ["head"; "base"] urlData) then
      ((None, Some (errorString "There is missing data in postData")),
       urlData, w)
    else
      match json.Marshal postData with
      | inr err => ((None, Some err), urlData, w)
      | inl apiReader =>
          let apiUrl :=
            createUrl (github w)
              ("/repos/" +:+ mapIndex urlData "owner" +:+ "/"
               +:+ mapIndex urlData "repo" +:+ "/merges") in
          let '(res, w) :=
            ClientPost client apiUrl "application/json" apiReader w in
          match res with
          | inr err => ((None, Some err), urlData, w)
          | inl res =>
              if http.StatusCode res =? 201 then
                match http.Body res with
                | inr err => ((None, Some err), urlData, w)
                | inl commitJson =>
                    match json.Unmarshal commitJson (json.pointer _) with
                    | inr err => ((None, Some err), urlData, w)
                    | inl commit =>
                        ((Some commit, None), urlData, withLimits res w)
                    end
                end
              else if http.StatusCode res =? 204 then
                ((None, None), urlData, withLimits res w)
              else if (http.StatusCode res =? 409)
                      || (http.StatusCode res =? 404) then
                let msg := {| Message_ := EmptyString |} in
                match http.Body res with
                | inr err => ((None, Some err), urlData, w)
                | inl msgJson =>
                    match json.Unmarshal (T := Message) msgJson
                            (json.nonPointer "github.Message") with
                    | inr err => ((None, Some err), urlData, w)
                    | inl _ =>
                        ((None, Some (errorString (Message_ msg))),
                         urlData, withLimits res w)
                    end
                end
              else
                ((None, Some (errorString
                    ("Didn't receive 201 status from Github: "
                     +:+ http.Status res))),
                 urlData, withLimits res w)
          end
      end.

(** * More of the package *)

(** ** More of the Go library *)

Module utf8.

(** [utf8.RuneError], U+FFFD. *)
Definition RuneError : Z := 65533.

Definition byteOf (z : Z) : ascii := ascii_of_N (Z.to_N z).

(** [runtime.encoderune]: the UTF-8 bytes of the code point [r], those of
    [RuneError] for a negative value, a surrogate or a value above
    U+10FFFF. *)
Definition encoderune (r : Z) : string :=
  if (0 <=? r) && (r <=? 127) then String (byteOf r) EmptyString
  else if (0 <=? r) && (r <=? 2047) then
    String (byteOf (Z.lor 192 (Z.shiftr r 6)))
      (String (byteOf (Z.lor 128 (Z.land r 63))) EmptyString)
  else if (r <? 0) || (r >? 1114111) || ((55296 <=? r) && (r <=? 57343)) then
    String (byteOf 239) (String (byteOf 191) (String (byteOf 189) EmptyString))
  else if r <=? 65535 then
    String (byteOf (Z.lor 224 (Z.shiftr r 12)))
      (String (byteOf (Z.lor 128 (Z.land (Z.shiftr r 6) 63)))
         (String (byteOf (Z.lor 128 (Z.land r 63))) EmptyString))
  else
    String (byteOf (Z.lor 240 (Z.shiftr r 18)))
      (String (byteOf (Z.lor 128 (Z.land (Z.shiftr r 12) 63)))
         (String (byteOf (Z.lor 128 (Z.land (Z.shiftr r 6) 63)))
            (String (byteOf (Z.lor 128 (Z.land r 63))) EmptyString))).

(** The conversion [string(v)] of an [int]: [runtime.intstring].  A value
    that does not fit a [rune] is replaced by [RuneError]. *)
Definition intstring (v : Z) : string :=
  if (- 2 ^ 31 <=? v) && (v <? 2 ^ 31) then encoderune v
  else encoderune RuneError.

End utf8.

(** [strings.SplitN s sep n] for a one-byte separator and [n >= 0]: at
    most [n] pieces, the last one the unsplit rest. *)
Fixpoint SplitN (s : string) (sep : ascii) (n : nat) : list string :=
  match n with
  | O => []
  | S O => [s]
  | S n' =>
      if strings.hasByte sep s
      then let '(before, after) := url.Cut s sep in before :: SplitN after sep n'
      else [s]
  end.

(** [http.NewRequest(method, url, body)] followed by
    [github.Client.Do(request)].  The code returns the error of either in
    the same way; the two are one call of the client, recorded also when
    it is [NewRequest] that refuses the request.  [NewRequest] sets no
    content type. *)
Definition ClientDo (client : http.Client) (method u body : string)
    (w : World) :=
  Do client {| http.Method := method; http.URL := u;
               http.ContentType := EmptyString;
               http.Payload := body |} w.

(** What an endpoint that takes no [urlData] leaves behind. *)
Definition Result (R : Type) : Type := (R * option error) * World.

(** ** More of the client and its helpers (src/unnamed/part_001) *)

(** The values of a [map[string]interface{}] are of any type [V]. *)
Definition AssertMapValue {V : Type} (key : string) (m : gmap string V)
    : bool :=
  match m !! key with
  | Some _ => true
  | None => false
  end.

Fixpoint AssertMapValues {V : Type} (s : list string) (m : gmap string V)
    : bool :=
  match s with
  | [] => true
  | v :: s' =>
      match m !! v with
      | None => false
      | Some _ => AssertMapValues s' m
      end
  end.

Record Markdown := {
  Mode : string;
  Context : string;
  Markdown_ : string
}.

(** [encode] is [json.Marshal] on a [*Markdown]: three strings, which
    [json.Marshal] never refuses, so that [CreateReader] has no error
    here. *)
Definition RenderMarkdown (encode : Markdown -> string)
    (client : http.Client) (markdown : Markdown) (w : World)
    : Result string :=
  if String.eqb (Markdown_ markdown) EmptyString then
    ((EmptyString,
      Some (errorString
              "You must not send an empty string as the markdown contents.")),
     w)
  else
    let apiUrl := createUrl (github w) "/markdown" in
    let reader := encode markdown in
    let '(res, w) := ClientPost client apiUrl "application/json" reader w in
    match res with
    | inr err => ((EmptyString, Some err), w)
    | inl res =>
        if http.StatusCode res =? 200 then
          match http.Body res with
          | inr err => ((EmptyString, Some err), w)
          | inl htmlBytes => ((htmlBytes, None), withLimits res w)
          end
        else
          ((EmptyString,
            Some (errorString
                    ("Didn't receive 200 status from Github: "
                     +:+ http.Status res))),
           w)
    end.

(** ** More issue endpoints (src/unnamed/part_000) *)

(** [order] is the order in which [range getData] yields the entries
    inside [UrlDataConvert]. *)
Definition ListAllIssues {Issues : Type} {D : json.Decodable Issues}
    (client : http.Client) (getData : gmap string string)
    (order : list (string * string)) (w : World) : Result (option Issues) :=
  if negb (AssertMapString "filter" getData) then
    ((None, Some (errorString
        (mapIndex getData "filter" +:+ "The getData[" +:+ q +:+ "filter" +:+ q
         +:+ "] value is either empty or doesn't contain any non-whitespace content"))),
     w)
  else
    let urlStr := UrlDataConvertIn order in
    let apiUrl := createUrl (github w) ("/issues?" +:+ urlStr) in
    let '(res, w) := ClientGet client apiUrl w in
    match res with
    | inr err => ((None, Some err), w)
    | inl res =>
        if http.StatusCode res =? 200 then
          match http.Body res with
          | inr err => ((None, Some err), w)
          | inl issuesJson =>
              match json.Unmarshal issuesJson (json.pointer _) with
              | inr err => ((None, Some err), w)
              | inl issues => ((Some issues, None), withLimits res w)
              end
          end
        else
          ((None, Some (errorString
              ("Didn't receive 200 status from Github: " +:+ http.Status res))),
           w)
    end.

Definition ListUserIssues {Issues : Type} {D : json.Decodable Issues}
    (client : http.Client) (getData : gmap string string)
    (order : list (string * string)) (w : World) : Result (option Issues) :=
  if negb (AssertMapString "filter" getData) then
    ((None, Some (errorString
        ("The getData[" +:+ q +:+ "filter" +:+ q
         +:+ "] value is either empty or doesn't contain any non-whitespace content"))),
     w)
  else
    let urlStr := UrlDataConvertIn order in
    let apiUrl := createUrl (github w) ("/user/issues?" +:+ urlStr) in
    let '(res, w) := ClientGet client apiUrl w in
    match res with
    | inr err => ((None, Some err), w)
    | inl res =>
        if http.StatusCode res =? 200 then
          match http.Body res with
          | inr err => ((None, Some err), w)
          | inl issuesJson =>
              match json.Unmarshal issuesJson (json.pointer _) with
              | inr err => ((None, Some err), w)
              | inl issues => ((Some issues, None), withLimits res w)
              end
          end
        else
          ((None, Some (errorString
              ("Didn't receive 200 status from Github: " +:+ http.Status res))),
           w)
    end.

Definition ListIssueEvents {Events : Type} {D : json.Decodable Events}
    (client : http.Client) (urlData : gmap string string) (page : Z)
    (w : World) : Outcome (option Events) :=
  if negb (AssertMapStrings ["repo"; "issueNumber"] urlData) then
    ((None, Some (errorString
        ("The urlData[" +:+ q +:+ "repo" +:+ q +:+ "] value and/org urlData["
         +:+ q +:+ "issueNumber" +:+ q
         +:+ "] value is either empty or doesn't contain any non-whitespace content"))),
     urlData, w)
  else
    let urlData :=
      if negb (AssertMapString "owner" urlData)
      then <["owner" := Login (github w)]> urlData else urlData in
    let apiUrl :=
      createUrl (github w)
        ("/repos/" +:+ mapIndex urlData "owner" +:+ "/"
         +:+ mapIndex urlData "repo" +:+ "/issues/"
         +:+ mapIndex urlData "issueNumber" +:+ "/events?page="
         +:+ utf8.intstring page) in
    let '(res, w) := ClientGet client apiUrl w in
    match res with
    | inr err => ((None, Some err), urlData, w)
    | inl res =>
        if http.StatusCode res =? 200 then
          match http.Body res with
          | inr err => ((None, Some err), urlData, w)
          | inl eventsJson =>
              match json.Unmarshal eventsJson (json.pointer _) with
              | inr err => ((None, Some err), urlData, w)
              | inl events => ((Some events, None), urlData, withLimits res w)
              end
          end
        else
          ((None, Some (errorString
              ("Didn't receive 200 status from Github: " +:+ http.Status res))),
           urlData, w)
    end.

(** ** More pull-request endpoints (src/unnamed/part_002) *)


(** ** Organization endpoints (src/unnamed/part_003) *)

Definition CheckOrgMembership (client : http.Client) (org user : string)
    (w : World) : Result string :=
  let org := strings.TrimSpace org in
  if strings.len org =? 0 then
    ((EmptyString,
      Some (errorString
              "The org given does not contain any non-whitespace content")),
     w)
  else
    let user := strings.TrimSpace user in
    let user := if strings.len user =? 0 then Login (github w) else user in
    let apiUrl :=
      createUrl (github w) ("/orgs/" +:+ org +:+ "/members/" +:+ user) in
    let '(res, w) := ClientGet client apiUrl w in
    match res with
    | inr err => ((EmptyString, Some err), w)
    | inl res =>
        if http.StatusCode res =? 204 then (("member", None), w)
        else if http.StatusCode res =? 404 then (("non-member", None), w)
        else if http.StatusCode res =? 302 then
          let '(res, w) :=
            ClientGet client (http.HeaderGet (http.Header res) "Location") w in
          match res with
          | inr err => (("unconfirmed", Some err), w)
          | inl res =>
              if http.StatusCode res =? 200 then (("member", None), w)
              else if http.StatusCode res =? 404 then (("unconfirmed", None), w)
              else
                ((EmptyString,
                  Some (errorString
                          ("Didn't receive 200 status from Github: "
                           +:+ http.Status res))),
                 w)
          end
        else
          ((EmptyString,
            Some (errorString
                    ("Didn't receive 200 status from Github: "
                     +:+ http.Status res))),
           w)
    end.

(** ** More repository endpoints (src/travis-deps.go, package github) *)

Definition BASEPATH : string := EmptyString.


(** [DeleteRepo] returns an error only. *)
Definition DeleteRepo (client : http.Client) (urlData : gmap string string)
    (w : World) : option error * gmap string string * World :=
  if negb (AssertMapString "repo" urlData) then
    (Some (errorString "There is missing data in urlData"), urlData, w)
  else
    let urlData :=
      if negb (AssertMapString "owner" urlData)
      then <["owner" := Login (github w)]> urlData else urlData in
    let apiUrl :=
      createUrl (github w)
        ("/repos/" +:+ mapIndex urlData "owner" +:+ "/"
         +:+ mapIndex urlData "repo") in
    let '(res, w) := ClientDo client "DELETE" apiUrl EmptyString w in
    match res with
    | inr err => (Some err, urlData, w)
    | inl res =>
        if http.StatusCode res =? 204 then (None, urlData, withLimits res w)
        else
          (Some (errorString
                   ("Didn't receive 204 status from Github: "
                    +:+ http.Status res)),
           urlData, withLimits res w)
    end.

(** The file system as [GetZip] meets it: [create path] is the error of
    [os.Create], [write path data] the error of writing [data] to the file
    in [io.Copy]. *)
Record FileSystem := {
  create : string -> option error;
  write : string -> string -> option error
}.

(** What [GetZip] did to the file system: a file created (or truncated),
    and a body copied to it in full. *)
Inductive FileEvent :=
| Created (path : string)
| Copied (path : string) (data : string).

Definition GetZip (fs : FileSystem) (client : http.Client)
    (urlData : gmap string string) (w : World)
    : Outcome bool * list FileEvent :=
  if negb (AssertMapString "repo" urlData) then
    (((false, Some (errorString "There is missing data in urlData")),
      urlData, w), [])
  else
    let urlData :=
      if negb (AssertMapString "owner" urlData)
      then <["owner" := Login (github w)]> urlData else urlData in
    let urlData :=
      if strings.len (mapIndex urlData "format") =? 0
      then <["format" := "zipball"]> urlData else urlData in
    let ext :=
      if String.eqb (mapIndex urlData "format") "tarball"
      then ".tar.gz" else ".zip" in
    let zipOut :=
      BASEPATH +:+ "github/zip/" +:+ mapIndex urlData "owner" +:+ "-"
      +:+ mapIndex urlData "repo" +:+ "-" +:+ mapIndex urlData "branch"
      +:+ ext in
    match create fs zipOut with
    | Some err => (((false, Some err), urlData, w), [])
    | None =>
        let apiUrl :=
          createUrl (github w)
            ("/repos/" +:+ mapIndex urlData "owner" +:+ "/"
             +:+ mapIndex urlData "repo" +:+ "/"
             +:+ mapIndex urlData "format" +:+ "/"
             +:+ mapIndex urlData "branch") in
        let '(res, w) := ClientGet client apiUrl w in
        match res with
        | inr err => (((false, Some err), urlData, w), [Created zipOut])
        | inl res =>
            match http.Body res with
            | inr err =>
                (((false, Some err), urlData, withLimits res w),
                 [Created zipOut])
            | inl data =>
                match write fs zipOut data with
                | Some err =>
                    (((false, Some err), urlData, withLimits res w),
                     [Created zipOut])
                | None =>
                    (((true, None), urlData, withLimits res w),
                     [Created zipOut; Copied zipOut data])
                end
            end
        end
    end.

(** How a call ends: it returns, or it panics. *)
Inductive Run (A : Type) :=
| Returns (a : A)
| Panics.
Arguments Returns {A} a.
Arguments Panics {A}.

(** [encode] is [json.Marshal] on a [map[string]string], which it never
    refuses.  With an organization, the error of [Client.Post] is assigned
    to the [err] that the block declares with [apiReader], not to the
    [err] tested after the block; an [inr] answer of the client stands for
    no response and an error, and then [defer res.Body.Close()] meets a
    nil response. *)
Definition CreateFork {Fork : Type} {D : json.Decodable Fork}
    (encode : gmap string string -> string) (client : http.Client)
    (urlData : gmap string string) (org : string) (w : World)
    : Run (Outcome (option Fork)) :=
  if negb (AssertMapString "repo" urlData) then
    Returns ((None, Some (errorString "There is missing data in urlData")),
             urlData, w)
  else
    let urlData :=
      if negb (AssertMapString "owner" urlData)
      then <["owner" := Login (github w)]> urlData else urlData in
    let apiUrl :=
      createUrl (github w)
        ("/repos/" +:+ mapIndex urlData "owner" +:+ "/"
         +:+ mapIndex urlData "repo" +:+ "/forks") in
    let '(res, err, w) :=
      if negb (String.eqb org EmptyString) then
        let apiReader := encode {["organization" := "org"]} in
        let '(r, w) :=
          ClientPost client apiUrl "application/json" apiReader w in
        (match r with inl res => Some res | inr _ => None end, None, w)
      else
        let '(r, w) :=
          ClientPost client apiUrl "application/json" EmptyString w in
        (match r with inl res => Some res | inr _ => None end,
         match r with inl _ => None | inr err => Some err end, w) in
    match err with
    | Some err => Returns ((None, Some err), urlData, w)
    | None =>
        match res with
        | None => Panics
        | Some res =>
            if http.StatusCode res =? 202 then
              match http.Body res with
              | inr err => Returns ((None, Some err), urlData, w)
              | inl forkJson =>
                  match json.Unmarshal forkJson (json.pointer _) with
                  | inr err => Returns ((None, Some err), urlData, w)
                  | inl fork =>
                      Returns ((Some fork, None), urlData, withLimits res w)
                  end
              end
            else
              Returns ((None, Some (errorString
                          ("Didn't receive 202 status from Github: "
                           +:+ http.Status res))),
                       urlData, w)
        end
    end.

Definition GetRepoKeys {Keys : Type} {D : json.Decodable Keys}
    (client : http.Client) (urlData : gmap string string) (w : World)
    : Outcome (option Keys) :=
  if negb (AssertMapString "repo" urlData) then
    ((None, Some (errorString "There is missing data in urlData")),
     urlData, w)
  else
    let urlData :=
      if negb (AssertMapString "owner" urlData)
      then <["owner" := Login (github w)]> urlData else urlData in
    let apiUrl :=
      createUrl (github w)
        ("/repos/" +:+ mapIndex urlData "owner" +:+ "/"
         +:+ mapIndex urlData "repo" +:+ "/keys") in
    let '(res, w) := ClientGet client apiUrl w in
    match res with
    | inr err => ((None, Some err), urlData, w)
    | inl res =>
        if http.StatusCode res =? 200 then
          match http.Body res with
          | inr err => ((None, Some err), urlData, w)
          | inl keyJson =>
              match json.Unmarshal keyJson (json.pointer _) with
              | inr err => ((None, Some err), urlData, w)
              | inl keys => ((Some keys, None), urlData, withLimits res w)
              end
          end
        else
          ((None, Some (errorString
              ("Didn't receive 200 status from Github: " +:+ http.Status res))),
           urlData, w)
    end.

(** ** The command (src/travis-deps.go, package main) *)

Module travis_deps.

Record Config := {
  Token : string;
  Deps : list string
}.

(** The lines [main] logs, with their arguments. *)
Inductive LogLine (Keys : Type) :=
| InfoRepo (repo : string) (parts : list string)
| WarnInvalidRepo (repo : string)
| WarnGetRepoKeysFailed (err : option error)
| InfoGetRepoKeys (keys : option Keys).
Arguments InfoRepo {Keys} repo parts.
Arguments WarnInvalidRepo {Keys} repo.
Arguments WarnGetRepoKeysFailed {Keys} err.
Arguments InfoGetRepoKeys {Keys} keys.

(** The loop of [main] over the dependencies still to do: [continue] goes
    on with the rest, [return] stops. *)
Fixpoint download {Keys : Type} {D : json.Decodable Keys}
    (client : http.Client) (deps : list string) (w : World)
    (log : list (LogLine Keys)) : World * list (LogLine Keys) :=
  match deps with
  | [] => (w, log)
  | repo :: deps' =>
      let parts := SplitN repo "/" 2 in
      let log := log ++ [InfoRepo repo parts] in
      match parts with
      | [owner; name] =>
          let '(ret, _, w) :=
            GetRepoKeys client (<["owner" := owner]> (<["repo" := name]> ∅)) w in
          match ret with
          | (_, Some err) => (w, log ++ [WarnGetRepoKeysFailed (Some err)])
          | (keys, None) =>
              download client deps' w (log ++ [InfoGetRepoKeys keys])
          end
      | _ => download client deps' w (log ++ [WarnInvalidRepo repo])
      end
  end.

(** [main] once the configuration file is read into [conf]; [client] is
    the [http.Client] that [NewGitHubClient] makes. *)
Definition main {Keys : Type} {D : json.Decodable Keys}
    (client : http.Client) (conf : Config)
    : World * list (LogLine Keys) :=
  let w := {| github := NewGitHubClient (Token conf) "qiniu"; calls := [] |} in
  download client (Deps conf) w [].

End travis_deps.

(** * The vocabulary of the properties *)

(** The value a response carries for a header, if it has one: the first
    value stored under the canonical form of the name. *)
Definition headerValue (res : http.Response) (name : string)
    : option string :=
  match http.Header res !! http.CanonicalMIMEHeaderKey name with
  | Some (v :: _) => Some v
  | _ => None
  end.

(** The number a string of decimal digits stands for, read after [n]. *)
Fixpoint horner (n : Z) (s : string) : Z :=
  match s with
  | EmptyString => n
  | String c s' => horner (n * 10 + (Z.of_N (Bytes.code c) - 48)) s'
  end.

Fixpoint allDigits (s : string) : bool :=
  match s with
  | EmptyString => true
  | String c s' => Bytes.isDigit c && allDigits s'
  end.

(** A response with both headers, as the server sends them. *)
Definition limitsResponse : http.Response :=
  {| http.StatusCode := 200;
     http.Status := "200 OK";
     http.Header :=
       insert "X-Ratelimit-Limit" ["5000"]
         (insert "X-Ratelimit-Remaining" ["4987"] ∅);
     http.Body := inl "{}" |}.

Definition returned {R : Type} (o : Outcome R) : R * option error := o.1.1.
Definition urlDataAfter {R : Type} (o : Outcome R) : gmap string string := o.1.2.
Definition worldAfter {R : Type} (o : Outcome R) : World := o.2.

(** A GET request as [Client.Get] makes it. *)
Definition GET (u : string) : http.Request :=
  {| http.Method := "GET"; http.URL := u;
     http.ContentType := EmptyString; http.Payload := EmptyString |}.

(** A client that answers every call with [res]. *)
Definition stub (res : http.Response) : http.Client := fun _ _ => inl res.

(** [sub] occurs in [s]. *)
Definition Contains (s sub : string) : Prop :=
  exists pre post, s = pre +:+ sub +:+ post.

(** The answer of the server to a check that holds: no content. *)
Definition noContent : http.Response :=
  {| http.StatusCode := 204;
     http.Status := "204 No Content";
     http.Header := ∅;
     http.Body := inl EmptyString |}.

(** The request went through: the repo is given and the body marshals. *)
Definition sendable {E : json.Encodable (gmap string string)}
    (urlData postData : gmap string string) : Prop :=
  AssertMapString "repo" urlData = true
  /\ exists body, json.Marshal postData = inl body.

(** The conflict answer of the server. *)
Definition conflict : http.Response :=
  {| http.StatusCode := 409;
     http.Status := "409 Conflict";
     http.Header := ∅;
     http.Body :=
       inl ("{" +:+ q +:+ "message" +:+ q +:+ ":" +:+ q +:+ "Merge conflict"
            +:+ q +:+ "}") |}.

(** A POST request as [Client.Post] makes it. *)
Definition POST (u contentType body : string) : http.Request :=
  {| http.Method := "POST"; http.URL := u;
     http.ContentType := contentType; http.Payload := body |}.

(** A comment that is one double quote. *)
Definition quoteComment : string := q.

(** A comment of two lines: a line feed, byte 10, between two letters. *)
Definition twoLines : string :=
  String "a" (String (ascii_of_N 10) (String "b" EmptyString)).

(** A comment that closes its own string and goes on with a field. *)
Definition injecting : string :=
  "hi" +:+ q +:+ ", " +:+ q +:+ "locked" +:+ q +:+ ": " +:+ q +:+ "yes".

(** The body of the last call made. *)
Definition lastPayload (w : World) : option string :=
  http.Payload <$> last (calls w).

(** The text is no JSON. *)
Definition malformed (body : option string) : Prop :=
  exists text, body = Some text /\ json.Valid text = false.

(** The text is the JSON object with these members. *)
Definition carries (body : option string)
    (members : list (string * json.value)) : Prop :=
  exists text, body = Some text /\ json.parse text = Some (json.Object members).

(** The bytes [QueryEscape] writes: unreserved ones, the percent sign and
    the plus sign. *)
Definition escapedByte (c : ascii) : bool :=
  negb (url.shouldEscape c) || Bytes.eqb c "%" || Bytes.eqb c "+".

Ltac each_byte c := destruct c as [[] [] [] [] [] [] [] []].

(** How often [sub] occurs in [s]: the number of positions of [s] at
    which [sub] starts. *)
Fixpoint occurrences (sub s : string) : nat :=
  ((if strings.HasPrefix s sub then 1 else 0)
   + match s with
     | EmptyString => 0
     | String _ s' => occurrences sub s'
     end)%nat.

(** One entry as the encoder writes it. *)
Definition encodePair (kv : string * string) : string :=
  url.QueryEscape (strings.TrimSpace kv.1) +:+ "="
  +:+ url.QueryEscape (strings.TrimSpace kv.2).

(** The entries after the first: each behind an ampersand. *)
Fixpoint encodeMore (l : list (string * string)) : string :=
  match l with
  | [] => EmptyString
  | kv :: l' => "&" +:+ encodePair kv +:+ encodeMore l'
  end.

Definition trimPair (kv : string * string) : string * string :=
  (strings.TrimSpace kv.1, strings.TrimSpace kv.2).

(** [m[key] = append(m[key], value)]. *)
Definition addValue (m : url.Values) (kv : string * string) : url.Values :=
  <[kv.1 := default [] (m !! kv.1) ++ [kv.2]]> m.

(** The [url.Values] a parser builds from pairs met in this order. *)
Definition collect (l : list (string * string)) : url.Values :=
  foldl addValue ∅ l.

(** * The vocabulary of the further properties *)

(** The limit and the remaining quota a response carries, when both
    headers are there and [ParseInt] reads both. *)
Definition rateLimit (res : http.Response) : option (Z * Z) :=
  match headerValue res "X-RateLimit-Limit",
        headerValue res "X-RateLimit-Remaining" with
  | Some sl, Some sr =>
      match strconv.ParseInt sl, strconv.ParseInt sr with
      | inl limit, inl remaining => Some (limit, remaining)
      | _, _ => None
      end
  | _, _ => None
  end.

(** The client with its two counters replaced. *)
Definition withCounters (lr : Z * Z) (gh : GitHubClient) : GitHubClient :=
  {| Type_ := Type_ gh; Token := Token gh; Login := Login gh;
     CallsLimit := lr.1; CallsRemaining := lr.2 |}.

(** The text of a URL after its first question mark. *)
Definition queryOf (u : string) : string := (url.Cut u "?").2.

(** A text with no double quote, no backslash and no control byte. *)
Fixpoint plainText (s : string) : bool :=
  match s with
  | EmptyString => true
  | String c s' =>
      negb (Bytes.eqb c Bytes.quote) && negb (Bytes.eqb c "\")
      && negb (Bytes.code c <? 32)%N && plainText s'
  end.

(** The lexer run over a part of the text: the tokens it gives and what
    it is then in the middle of. *)
Fixpoint lexRun (m : json.mode) (s : string)
    : option (list json.token * json.mode) :=
  match s with
  | EmptyString => Some ([], m)
  | String c s' =>
      match json.step m c with
      | Some (ts, m') =>
          match lexRun m' s' with
          | Some (ts', m'') => Some (ts ++ ts', m'')
          | None => None
          end
      | None => None
      end
  end.

(** The request [main] makes for the dependency [dep], owner/name, with
    the token of the configuration: the keys of the repository, under the
    login qiniu when the owner part is blank. *)
Definition keysRequest (token dep : string) : http.Request :=
  let '(owner, name) := url.Cut dep "/" in
  let owner :=
    if strings.len (strings.TrimSpace owner) =? 0 then "qiniu" else owner in
  GET (createUrl (NewGitHubClient token "qiniu")
         ("/repos/" +:+ owner +:+ "/" +:+ name +:+ "/keys")).

(** The repository part of a dependency is not blank. *)
Definition named (dep : string) : bool :=
  negb (strings.len (strings.TrimSpace (url.Cut dep "/").2) =? 0).

(** What an endpoint that expects status 200 and a body to decode returns
    for an answer of the client. *)
Definition decoded200 {T : Type} {D : json.Decodable T}
    (answer : http.Response + error) : option T * option error :=
  match answer with
  | inr err => (None, Some err)
  | inl res =>
      if http.StatusCode res =? 200 then
        match http.Body res with
        | inr err => (None, Some err)
        | inl data =>
            match json.Unmarshal data (json.pointer D) with
            | inr err => (None, Some err)
            | inl v => (Some v, None)
            end
        end
      else
        (None, Some (errorString
                 ("Didn't receive 200 status from Github: " +:+ http.Status res)))
  end.


(** The answer of the server that sends the caller elsewhere. *)
Definition redirect (location : string) : http.Response :=
  {| http.StatusCode := 302;
     http.Status := "302 Found";
     http.Header := {["Location" := [location]]};
     http.Body := inl EmptyString |}.

(** A client that answers its first call with [first] and every later
    call with [later]. *)
Definition firstThen (first later : http.Response) : http.Client :=
  fun past _ =>
    match past with
    | [] => inl first
    | _ :: _ => inl later
    end.

(** The answer of the server for what is not there, with a page. *)
Definition notFound : http.Response :=
  {| http.StatusCode := 404;
     http.Status := "404 Not Found";
     http.Header := ∅;
     http.Body := inl "Not Found" |}.

(** A file system that refuses nothing. *)
Definition willing : FileSystem :=
  {| create := fun _ => None; write := fun _ _ => None |}.

(** The client cannot reach the server. *)
Definition unreachable (err : error) : http.Client := fun _ _ => inr err.

(** * Properties *)

(** ** The library functions on sample inputs *)

Example TrimSpace_examples :
  map strings.TrimSpace
    [EmptyString; "   "; " x y  "; "x";
     String (ascii_of_N 9) (String "a" (String (ascii_of_N 10) EmptyString));
     String (ascii_of_N 194) (String (ascii_of_N 160) "nbsp ");
     String "z" (String (ascii_of_N 226) (String (ascii_of_N 128)
       (String (ascii_of_N 168) EmptyString)));
     String (ascii_of_N 160) " raw"]
  = [EmptyString; EmptyString; "x y"; "x"; "a"; "nbsp"; "z";
     String (ascii_of_N 160) " raw"].
Proof. reflexivity. Qed.

Example QueryEscape_examples :
  map url.QueryEscape ["a b/c"; "t~1_-."; "k=v&x"; "100%"]
  = ["a+b%2Fc"; "t~1_-."; "k%3Dv%26x"; "100%25"].
Proof. reflexivity. Qed.

Example QueryUnescape_examples :
  map url.QueryUnescape ["a+b%2Fc"; "%zz"; "%4"; "%41%6a"]
  = [Some "a b/c"; None; None; Some "Aj"].
Proof. reflexivity. Qed.

Example CanonicalMIMEHeaderKey_examples :
  map http.CanonicalMIMEHeaderKey
    ["X-RateLimit-Remaining"; "X-RateLimit-Limit"; "content-type"; "a b"]
  = ["X-Ratelimit-Remaining"; "X-Ratelimit-Limit"; "Content-Type"; "a b"].
Proof. reflexivity. Qed.

Example json_examples :
  map json.Valid
    ["0"; "-0.5e+3"; "[[],[]]"; "{}"; " [1, true, null] "; "01"; "1.";
     "[1,]"; EmptyString; "1 2"; "tru"; "-"; "1e"; "[[]"; "{1:2}"]
  = [true; true; true; true; true; false; false;
     false; false; false; false; false; false; false; false].
Proof. reflexivity. Qed.

Example json_parse_example :
  json.parse ("{" +:+ q +:+ "a" +:+ q +:+ ": [1, {" +:+ q +:+ "b\n" +:+ q
              +:+ ": null}], " +:+ q +:+ "c" +:+ q +:+ ": " +:+ q +:+ "x"
              +:+ q +:+ "}")
  = Some (json.Object
            [("a", json.Array
                     [json.Number "1"; json.Object [("b\n", json.Null)]]);
             ("c", json.Str "x")]).
Proof. reflexivity. Qed.

Example createUrl_examples :
  createUrl (NewGitHubClient "a b/c" "me") "/user"
  = "https://api.github.com/user?access_token=a+b%2Fc"
  /\ createUrl (NewGitHubClient "t~1" "me") "/user/repos?page=2"
     = "https://api.github.com/user/repos?page=2&access_token=t~1".
Proof. split; reflexivity. Qed.

(** ** The constructor *)

(** C10: a new client has both rate-limit counters at 5000, which is not
    zero, and the type oauth, whatever the token and the login are; the
    token and the login are stored as given. *)
Theorem NewGitHubClient_counters (token login : string) :
  CallsLimit (NewGitHubClient token login) = 5000
  /\ CallsRemaining (NewGitHubClient token login) = 5000
  /\ CallsLimit (NewGitHubClient token login) <> 0
  /\ CallsRemaining (NewGitHubClient token login) <> 0
  /\ Type_ (NewGitHubClient token login) = "oauth"
  /\ Token (NewGitHubClient token login) = token
  /\ Login (NewGitHubClient token login) = login.
Proof. cbn. repeat split; lia. Qed.

(** ** The validators *)

Lemma len_zero (s : string) : strings.len s = 0 <-> s = EmptyString.
Proof.
  unfold strings.len. destruct s as [|c s]; cbn [String.length].
  - split; reflexivity.
  - split; [lia | discriminate].
Qed.

(** The single-key validator is right: it holds exactly when the key is
    there with a value that is not blank. *)
Lemma AssertMapString_spec (key : string) (m : gmap string string) :
  AssertMapString key m = true
  <-> exists v, m !! key = Some v /\ strings.TrimSpace v <> EmptyString.
Proof.
  unfold AssertMapString. destruct (m !! key) as [v|] eqn:E.
  - rewrite negb_true_iff, Z.eqb_neq, len_zero. split.
    + intros H. exists v. split; [reflexivity | exact H].
    + intros (v' & Hv & H). congruence.
  - split; [discriminate | intros (v & Hv & _); discriminate].
Qed.

(** The multi-key validator never fails: its test asks for a missing key
    whose value is not blank, and the value read at a missing key is the
    empty string. *)
Lemma AssertMapStrings_true (s : list string) (m : gmap string string) :
  AssertMapStrings s m = true.
Proof.
  induction s as [|key s IH]; cbn [AssertMapStrings]; [reflexivity|].
  unfold mapIndex. destruct (m !! key) as [v|] eqn:E.
  - rewrite bool_decide_eq_true_2 by eauto. cbn. exact IH.
  - cbn [default]. rewrite andb_false_r. exact IH.
Qed.

(** C1, at the failing input: the empty map has neither key, and the
    multi-key validator accepts it. *)
Theorem AssertMapStrings_accepts_missing_keys :
  AssertMapStrings ["repo"; "number"] (∅ : gmap string string) = true
  /\ ~ (forall key, key ∈ ["repo"; "number"] ->
        exists v, (∅ : gmap string string) !! key = Some v
                  /\ strings.TrimSpace v <> EmptyString).
Proof.
  split; [apply AssertMapStrings_true|].
  intros H. destruct (H "repo") as (v & Hv & _).
  - apply list_elem_of_here.
  - rewrite lookup_empty in Hv. discriminate.
Qed.

(** ** Rate-limit counters *)

Lemma HeaderGet_headerValue (res : http.Response) (name : string) :
  http.HeaderGet (http.Header res) name
  = default EmptyString (headerValue res name).
Proof.
  unfold http.HeaderGet, headerValue.
  destruct (http.Header res !! http.CanonicalMIMEHeaderKey name) as [[|v l]|];
    reflexivity.
Qed.

Lemma isDigit_range (c : ascii) :
  Bytes.isDigit c = true -> 0 <= Z.of_N (Bytes.code c) - 48 <= 9.
Proof.
  unfold Bytes.isDigit, Bytes.between.
  rewrite andb_true_iff, !N.leb_le. lia.
Qed.

Lemma horner_ge (s : string) (n : Z) :
  allDigits s = true -> 0 <= n -> n <= horner n s.
Proof.
  revert n. induction s as [|c s IH]; cbn [horner allDigits]; intros n Hd Hn.
  - lia.
  - apply andb_true_iff in Hd as [Hc Hs]. apply isDigit_range in Hc.
    specialize (IH (n * 10 + (Z.of_N (Bytes.code c) - 48)) Hs). lia.
Qed.

Lemma parseUintLoop_horner (s : string) (n : Z) :
  allDigits s = true -> 0 <= n -> horner n s <= strconv.maxUint64 ->
  strconv.parseUintLoop s n = inl (horner n s).
Proof.
  revert n. induction s as [|c s IH]; cbn [horner allDigits strconv.parseUintLoop];
    intros n Hd Hn Hmax; [reflexivity|].
  apply andb_true_iff in Hd as [Hc Hs]. rewrite Hc.
  pose proof (isDigit_range c Hc) as Hr.
  pose proof (horner_ge s (n * 10 + (Z.of_N (Bytes.code c) - 48)) Hs ltac:(lia)) as Hge.
  assert (Hcut : n < strconv.maxUint64 / 10 + 1).
  { apply Z.lt_succ_r. apply Z.div_le_lower_bound; lia. }
  destruct (Z.geb_spec n (strconv.maxUint64 / 10 + 1)) as [?|_]; [lia|].
  destruct (Z.gtb_spec (n * 10 + (Z.of_N (Bytes.code c) - 48)) strconv.maxUint64)
    as [?|_]; [lia|].
  apply IH; [exact Hs | lia | exact Hmax].
Qed.

(** [ParseInt] reads a non-empty string of decimal digits as the number
    they stand for, as long as it fits an [int]. *)
Lemma ParseInt_digits (s : string) :
  s <> EmptyString -> allDigits s = true -> horner 0 s < 2 ^ 63 ->
  strconv.ParseInt s = inl (horner 0 s).
Proof.
  intros Hne Hd Hlt. destruct s as [|c s]; [congruence|].
  unfold strconv.ParseInt.
  assert (Hc : Bytes.isDigit c = true).
  { cbn [allDigits] in Hd. apply andb_true_iff in Hd. tauto. }
  assert (Hsign : Bytes.eqb c "-" = false /\ Bytes.eqb c "+" = false).
  { unfold Bytes.eqb. split; apply Ascii.eqb_neq; intros ->; discriminate Hc. }
  destruct Hsign as [-> ->]. cbn [orb negb andb].
  unfold strconv.ParseUint.
  rewrite parseUintLoop_horner; [|exact Hd|lia|unfold strconv.maxUint64; lia].
  unfold strconv.IntSize.
  destruct (Z.geb_spec (horner 0 (String c s)) (2 ^ (64 - 1))) as [H|_];
    [change (2 ^ (64 - 1)) with (2 ^ 63) in H; lia | reflexivity].
Qed.

(** Signs, and what [ParseInt] does not read. *)
Example ParseInt_examples :
  map strconv.ParseInt
    [EmptyString; "60"; "+60"; "-1"; "0x10"; "4 999"; "12a"; "-";
     "9223372036854775807"; "9223372036854775808"; "-9223372036854775808"]
  = [inr strconv.ErrSyntax; inl 60; inl 60; inl (-1); inr strconv.ErrSyntax;
     inr strconv.ErrSyntax; inr strconv.ErrSyntax; inr strconv.ErrSyntax;
     inl 9223372036854775807; inr strconv.ErrRange;
     inl (-9223372036854775808)].
Proof. reflexivity. Qed.

(** [readResponse], on a body that decodes, updates the counters as
    [getLimits] does; on a body that does not, it leaves the client as it
    was. *)
Lemma readResponse_limits {T : Type} (res : http.Response) (v : json.dest T)
    (gh : GitHubClient) :
  (readResponse res v gh).2
  = match (readResponse res v gh).1 with
    | (Some _, _) => getLimits res gh
    | (None, _) => gh
    end.
Proof.
  unfold readResponse. destruct (http.Body res) as [data|err]; [|reflexivity].
  destruct (json.Unmarshal data v); reflexivity.
Qed.

(** C4: when both rate-limit headers are there and [ParseInt] reads them,
    the two counters become the numbers read and nothing else changes;
    when either header is absent or is not read by [ParseInt], the client
    is left as it was. *)
Theorem getLimits_counters (res : http.Response) (gh : GitHubClient) :
  (forall sl sr limit remaining,
      headerValue res "X-RateLimit-Limit" = Some sl ->
      headerValue res "X-RateLimit-Remaining" = Some sr ->
      strconv.ParseInt sl = inl limit ->
      strconv.ParseInt sr = inl remaining ->
      CallsLimit (getLimits res gh) = limit
      /\ CallsRemaining (getLimits res gh) = remaining
      /\ Type_ (getLimits res gh) = Type_ gh
      /\ Token (getLimits res gh) = Token gh
      /\ Login (getLimits res gh) = Login gh)
  /\ (forall name,
      name = "X-RateLimit-Limit" \/ name = "X-RateLimit-Remaining" ->
      headerValue res name = None
      \/ (exists sv e, headerValue res name = Some sv
                       /\ strconv.ParseInt sv = inr e) ->
      getLimits res gh = gh).
Proof.
  split.
  - intros sl sr limit remaining Hl Hr Pl Pr. unfold getLimits.
    rewrite !HeaderGet_headerValue, Hl, Hr. cbn [default from_option id].
    rewrite Pl, Pr. cbn. repeat split.
  - intros name Hname Hbad.
    assert (Herr : exists e,
      strconv.ParseInt (http.HeaderGet (http.Header res) name) = inr e).
    { rewrite HeaderGet_headerValue.
      destruct Hbad as [-> | (sv & e & -> & He)]; cbn [default from_option id];
        eauto. }
    destruct Herr as [e He]. unfold getLimits.
    destruct Hname as [-> | ->].
    + destruct (strconv.ParseInt (http.HeaderGet _ "X-RateLimit-Remaining"));
        [|reflexivity].
      rewrite He. reflexivity.
    + rewrite He. reflexivity.
Qed.

(** Both headers given: the counters are read.  No header given: the
    counters stay. *)
Lemma getLimits_counters_witness :
  (CallsLimit (getLimits limitsResponse (NewGitHubClient "t" "me")) = 5000
   /\ CallsRemaining (getLimits limitsResponse (NewGitHubClient "t" "me")) = 4987
   /\ Type_ (getLimits limitsResponse (NewGitHubClient "t" "me")) = "oauth"
   /\ Token (getLimits limitsResponse (NewGitHubClient "t" "me")) = "t"
   /\ Login (getLimits limitsResponse (NewGitHubClient "t" "me")) = "me")
  /\ getLimits noContent (NewGitHubClient "t" "me") = NewGitHubClient "t" "me".
Proof.
  split.
  - destruct (getLimits_counters limitsResponse (NewGitHubClient "t" "me"))
      as [H _].
    apply (H "5000" "4987" 5000 4987); reflexivity.
  - destruct (getLimits_counters noContent (NewGitHubClient "t" "me"))
      as [_ H].
    apply (H "X-RateLimit-Limit"); [left | left]; reflexivity.
Defined.

(** ** Endpoints *)

Lemma mapIndex_insert_ne (m : gmap string string) (k k' v : string) :
  k <> k' -> mapIndex (<[k := v]> m) k' = mapIndex m k'.
Proof. intros H. unfold mapIndex. rewrite lookup_insert_ne; done. Qed.

(** [ListIssueComments] always makes one call, and the owner segment of
    its path is what the map holds at the empty key. *)
Lemma ListIssueComments_call {Comments : Type}
    {D : json.Decodable Comments} (client : http.Client)
    (urlData : gmap string string) (w : World) :
  calls (worldAfter (ListIssueComments (Comments := Comments) client urlData w))
  = calls w
    ++ [GET (createUrl (github w)
               ("/repos/" +:+ mapIndex urlData EmptyString +:+ "/"
                +:+ mapIndex urlData "repo" +:+ "/issues/"
                +:+ mapIndex urlData "number" +:+ "/comments"))].
Proof.
  unfold ListIssueComments, worldAfter.
  rewrite AssertMapStrings_true. cbn [negb].
  set (urlData' := if negb (AssertMapString "owner" urlData)
                   then <["owner" := Login (github w)]> urlData else urlData).
  assert (Hsame : forall k, k <> "owner" -> mapIndex urlData' k = mapIndex urlData k).
  { intros k Hk. subst urlData'. destruct (negb _); [|reflexivity].
    apply mapIndex_insert_ne. congruence. }
  rewrite !Hsame by discriminate.
  unfold ClientGet, Do. cbn [github calls].
  destruct (client _ _) as [res|err]; [|reflexivity].
  destruct (http.StatusCode res =? 200); [|reflexivity].
  destruct (http.Body res) as [data|err]; [|reflexivity].
  destruct (json.Unmarshal data _); reflexivity.
Qed.

(** C8: with no entry at the empty key, the one request of
    [ListIssueComments] goes to a path that starts with /repos// : the
    owner segment is empty, whatever the map holds at the key owner. *)
Theorem ListIssueComments_owner_segment {Comments : Type}
    {D : json.Decodable Comments} (client : http.Client)
    (urlData : gmap string string) (w : World) :
  urlData !! EmptyString = None ->
  calls (worldAfter (ListIssueComments (Comments := Comments) client urlData w))
  = calls w
    ++ [GET (createUrl (github w)
               ("/repos//" +:+ mapIndex urlData "repo" +:+ "/issues/"
                +:+ mapIndex urlData "number" +:+ "/comments"))].
Proof.
  intros Hempty. rewrite ListIssueComments_call.
  unfold mapIndex at 1. rewrite Hempty. reflexivity.
Qed.

(** An owner that is given and not blank does not reach the path. *)
Lemma ListIssueComments_owner_segment_witness :
  let urlData : gmap string string :=
    <["owner" := "octocat"]> (<["repo" := "hello"]> (<["number" := "7"]> ∅)) in
  let w := {| github := NewGitHubClient "t" "me"; calls := [] |} in
  calls (worldAfter (ListIssueComments (Comments := json.value)
                       (D := inl)
                       (fun _ _ => inr (foreignError "down")) urlData w))
  = [GET "https://api.github.com/repos//hello/issues/7/comments?access_token=t"].
Proof.
  intros urlData w.
  exact (ListIssueComments_owner_segment (Comments := json.value)
           (D := inl) (fun _ _ => inr (foreignError "down"))
           urlData w eq_refl).
Defined.

Lemma append_cons (c : ascii) (s t : string) :
  String c s +:+ t = String c (s +:+ t).
Proof. reflexivity. Qed.

Lemma append_nil_l (s : string) : EmptyString +:+ s = s.
Proof. reflexivity. Qed.

Lemma append_nil_r (s : string) : s +:+ EmptyString = s.
Proof.
  induction s as [|c s IH]; [reflexivity|]. rewrite append_cons, IH. reflexivity.
Qed.

Lemma append_assoc (s t u : string) : (s +:+ t) +:+ u = s +:+ t +:+ u.
Proof.
  induction s as [|c s IH]; [reflexivity|]. rewrite !append_cons, IH. reflexivity.
Qed.

Lemma Contains_suffix (pre sub : string) : Contains (pre +:+ sub) sub.
Proof. exists pre, EmptyString. rewrite append_nil_r. reflexivity. Qed.

(** [CheckAssignees] on a stubbed response: 204 is yes, 404 is no, any
    other status is an error that carries the status line. *)
Lemma CheckAssignees_status (res : http.Response)
    (urlData : gmap string string) (w : World) :
  returned (CheckAssignees (stub res) urlData w)
  = if http.StatusCode res =? 204 then (true, None)
    else if http.StatusCode res =? 404 then (false, None)
    else (false, Some (errorString
            ("Didn't receive 204/404 status from Github: " +:+ http.Status res))).
Proof.
  unfold CheckAssignees, returned. rewrite AssertMapStrings_true. cbn [negb].
  unfold ClientGet, Do, stub.
  destruct (http.StatusCode res =? 204); [reflexivity|].
  destruct (http.StatusCode res =? 404); reflexivity.
Qed.

(** [IsCollab] on a stubbed response, likewise. *)
Lemma IsCollab_status (res : http.Response)
    (urlData : gmap string string) (w : World) :
  returned (IsCollab (stub res) urlData w)
  = if http.StatusCode res =? 204 then (true, None)
    else if http.StatusCode res =? 404 then (false, None)
    else (false, Some (errorString
            ("Didn't receive 204 or 404 status from Github: "
             +:+ http.Status res))).
Proof.
  unfold IsCollab, returned. rewrite AssertMapStrings_true. cbn [negb].
  unfold ClientGet, Do, stub.
  destruct (http.StatusCode res =? 204); [reflexivity|].
  destruct (http.StatusCode res =? 404); reflexivity.
Qed.

(** The existence checks named by the claim behave as it says. *)
Lemma existence_checks_three_way (res : http.Response)
    (urlData : gmap string string) (w : World) :
  (http.StatusCode res = 204 ->
     returned (CheckAssignees (stub res) urlData w) = (true, None)
     /\ returned (IsCollab (stub res) urlData w) = (true, None))
  /\ (http.StatusCode res = 404 ->
     returned (CheckAssignees (stub res) urlData w) = (false, None)
     /\ returned (IsCollab (stub res) urlData w) = (false, None))
  /\ (http.StatusCode res <> 204 -> http.StatusCode res <> 404 ->
     exists e1 e2 msg1 msg2,
       returned (CheckAssignees (stub res) urlData w) = (false, Some e1)
       /\ returned (IsCollab (stub res) urlData w) = (false, Some e2)
       /\ Error e1 = Some msg1 /\ Contains msg1 (http.Status res)
       /\ Error e2 = Some msg2 /\ Contains msg2 (http.Status res)).
Proof.
  rewrite CheckAssignees_status, IsCollab_status. split; [|split].
  - intros ->. split; reflexivity.
  - intros ->. split; reflexivity.
  - intros H204 H404.
    apply Z.eqb_neq in H204, H404. rewrite H204, H404.
    do 4 eexists. repeat split; apply Contains_suffix.
Qed.

(** On 204 [HasPullMerged] hands [json.Unmarshal] a slice, not a pointer
    to one, so the call fails whatever the body is and the answer is never
    yes. *)
Lemma HasPullMerged_204 (res : http.Response)
    (urlData : gmap string string) (w : World) :
  http.StatusCode res = 204 ->
  exists err, returned (HasPullMerged (stub res) urlData w) = (false, Some err).
Proof.
  intros H. unfold HasPullMerged, returned.
  rewrite AssertMapStrings_true. cbn [negb]. unfold ClientGet, Do, stub.
  rewrite H. cbn [Z.eqb Pos.eqb].
  destruct (http.Body res) as [data|err]; [|eauto].
  unfold json.Unmarshal. destruct (json.parse data); eauto.
Qed.

(** C6, at the failing input: the pull request is merged, the server
    answers 204, and [HasPullMerged] returns false with an error, where the
    other existence checks return true and no error. *)
Theorem HasPullMerged_204_is_an_error :
  let urlData : gmap string string :=
    <["owner" := "octocat"]> (<["repo" := "hello"]> (<["number" := "7"]> ∅)) in
  let w := {| github := NewGitHubClient "t" "me"; calls := [] |} in
  returned (HasPullMerged (stub noContent) urlData w) = (false, Some SyntaxError)
  /\ returned (CheckAssignees (stub noContent) urlData w) = (true, None)
  /\ returned (IsCollab (stub noContent) urlData w) = (true, None).
Proof.
  intros urlData w. split; [|split].
  - destruct (HasPullMerged_204 noContent urlData w eq_refl) as [err Herr].
    rewrite Herr. vm_compute in Herr. congruence.
  - rewrite CheckAssignees_status. reflexivity.
  - rewrite IsCollab_status. reflexivity.
Qed.

(** ** The validation gate *)

(** An owner that is missing or blank is replaced by the login of the
    client, in the map of the caller. *)
Lemma GetIssue_default_owner {Issue : Type} {D : json.Decodable Issue}
    (client : http.Client) (urlData : gmap string string) (w : World) :
  urlDataAfter (GetIssue (Issue := Issue) client urlData w)
  = if AssertMapString "owner" urlData then urlData
    else <["owner" := Login (github w)]> urlData.
Proof.
  unfold GetIssue, urlDataAfter. rewrite AssertMapStrings_true. cbn [negb].
  unfold ClientGet, Do. cbn [github calls].
  destruct (client _ _) as [res|err].
  - destruct (http.StatusCode res =? 200).
    + destruct (http.Body res) as [data|err].
      * destruct (json.Unmarshal data _);
          destruct (AssertMapString "owner" urlData); reflexivity.
      * destruct (AssertMapString "owner" urlData); reflexivity.
    + destruct (AssertMapString "owner" urlData); reflexivity.
  - destruct (AssertMapString "owner" urlData); reflexivity.
Qed.

(** [GetIssue] never stops at its gate: whatever [urlData] holds, exactly
    one call goes through the client. *)
Lemma GetIssue_calls_client {Issue : Type} {D : json.Decodable Issue}
    (client : http.Client) (urlData : gmap string string) (w : World) :
  exists u,
    calls (worldAfter (GetIssue (Issue := Issue) client urlData w))
    = calls w ++ [GET u].
Proof.
  unfold GetIssue, worldAfter. rewrite AssertMapStrings_true. cbn [negb].
  unfold ClientGet, Do. cbn [github calls]. eexists.
  destruct (client _ _) as [res|err]; [|reflexivity].
  destruct (http.StatusCode res =? 200); [|reflexivity].
  destruct (http.Body res) as [data|err]; [|reflexivity].
  destruct (json.Unmarshal data _); reflexivity.
Qed.

(** Where the gate is the single-key validator it does hold: [Merge]
    without a repo returns the validation error and calls nothing. *)
Lemma Merge_gate {Commit : Type} {D : json.Decodable Commit}
    {E : json.Encodable (gmap string string)} (client : http.Client)
    (urlData postData : gmap string string) (w : World) :
  AssertMapString "repo" urlData = false ->
  Merge (Commit := Commit) client urlData postData w
  = ((None, Some (errorString "There is missing data in urlData")),
     urlData, w).
Proof. intros H. unfold Merge. rewrite H. reflexivity. Qed.

(** C3, at the failing input: [GetIssue] needs repo and number; called
    with a map that has neither, it returns no validation error but calls
    the client, with an empty repo and number in the path, and returns the
    error of the client. *)
Theorem GetIssue_missing_fields_reach_the_network {Issue : Type}
    {D : json.Decodable Issue} :
  let w := {| github := NewGitHubClient "t" "me"; calls := [] |} in
  let down : http.Client := fun _ _ => inr (foreignError "connection refused") in
  AssertMapString "repo" ∅ = false
  /\ AssertMapString "number" ∅ = false
  /\ returned (GetIssue (Issue := Issue) down ∅ w)
     = (None, Some (foreignError "connection refused"))
  /\ calls (worldAfter (GetIssue (Issue := Issue) down ∅ w))
     = [GET "https://api.github.com/repos/me//issues/?access_token=t"].
Proof. repeat split. Qed.

(** ** Merge *)

Lemma Merge_created {Commit : Type} {D : json.Decodable Commit}
    {E : json.Encodable (gmap string string)} (res : http.Response)
    (urlData postData : gmap string string) (w : World)
    (data : string) (commit : Commit) :
  sendable urlData postData ->
  http.StatusCode res = 201 ->
  http.Body res = inl data ->
  json.Unmarshal data (json.pointer D) = inl commit ->
  returned (Merge (stub res) urlData postData w) = (Some commit, None).
Proof.
  intros [Hrepo [body Hbody]] Hst Hdata Hdec. unfold Merge, returned.
  rewrite Hrepo, AssertMapStrings_true, Hbody. cbn [negb].
  unfold ClientPost, Do, stub. rewrite Hst, Hdata, Hdec. reflexivity.
Qed.

Lemma Merge_nothing_to_merge {Commit : Type} {D : json.Decodable Commit}
    {E : json.Encodable (gmap string string)} (res : http.Response)
    (urlData postData : gmap string string) (w : World) :
  sendable urlData postData ->
  http.StatusCode res = 204 ->
  returned (Merge (Commit := Commit) (stub res) urlData postData w)
  = (None, None).
Proof.
  intros [Hrepo [body Hbody]] Hst. unfold Merge, returned.
  rewrite Hrepo, AssertMapStrings_true, Hbody. cbn [negb].
  unfold ClientPost, Do, stub. rewrite Hst. reflexivity.
Qed.

(** On 409 and 404 the message is decoded into a [Message], not through a
    pointer to one: a body that is JSON gives the error of [json.Unmarshal]
    about its destination, never the text the server sent. *)
Lemma Merge_conflict {Commit : Type} {D : json.Decodable Commit}
    {E : json.Encodable (gmap string string)} (res : http.Response)
    (urlData postData : gmap string string) (w : World) (data : string) :
  sendable urlData postData ->
  http.StatusCode res = 409 \/ http.StatusCode res = 404 ->
  http.Body res = inl data ->
  json.Valid data = true ->
  returned (Merge (Commit := Commit) (stub res) urlData postData w)
  = (None, Some (InvalidUnmarshalError "github.Message")).
Proof.
  intros [Hrepo [body Hbody]] Hst Hdata Hvalid. unfold Merge, returned.
  rewrite Hrepo, AssertMapStrings_true, Hbody. cbn [negb].
  unfold ClientPost, Do, stub. rewrite Hdata.
  unfold json.Unmarshal. unfold json.Valid in Hvalid.
  destruct (json.parse data); [|discriminate].
  destruct Hst as [-> | ->]; reflexivity.
Qed.

(** The first two outcomes on sample responses. *)
Example Merge_created_and_nothing_to_merge :
  let urlData : gmap string string := {["repo" := "hello"]} in
  let w := {| github := NewGitHubClient "t" "me"; calls := [] |} in
  let E : json.Encodable (gmap string string) := fun _ => inl "{}" in
  let D : json.Decodable json.value := inl in
  let created :=
    {| http.StatusCode := 201; http.Status := "201 Created";
       http.Header := ∅; http.Body := inl "{}" |} in
  returned (Merge (D := D) (stub created) urlData ∅ w)
  = (Some (json.Object []), None)
  /\ returned (Merge (D := D) (stub noContent) urlData ∅ w) = (None, None)
  /\ calls (worldAfter (Merge (D := D) (stub noContent) urlData ∅ w))
     = [POST "https://api.github.com/repos/me/hello/merges?access_token=t"
          "application/json" "{}"].
Proof.
  intros urlData w E D created. split; [|split].
  - apply Merge_created with (data := "{}"); try reflexivity.
    split; [reflexivity | eexists; reflexivity].
  - apply Merge_nothing_to_merge; [|reflexivity].
    split; [reflexivity | eexists; reflexivity].
  - reflexivity.
Qed.

(** C2, at the failing input: on a 409 whose body is the JSON object with
    the message Merge conflict, [Merge] returns no commit and an error
    whose text is that of [json.Unmarshal], not the message. *)
Theorem Merge_conflict_loses_the_message {Commit : Type}
    {D : json.Decodable Commit} :
  let urlData : gmap string string :=
    <["owner" := "octocat"]> (<["repo" := "hello"]> ∅) in
  let postData : gmap string string :=
    <["base" := "master"]> (<["head" := "topic"]> ∅) in
  let w := {| github := NewGitHubClient "t" "me"; calls := [] |} in
  let E : json.Encodable (gmap string string) := fun _ => inl "{}" in
  exists err,
    returned (Merge (Commit := Commit) (stub conflict) urlData postData w)
    = (None, Some err)
    /\ Error err = Some "json: Unmarshal(non-pointer github.Message)"
    /\ Error err <> Some "Merge conflict".
Proof.
  intros urlData postData w E. eexists. split; [|split].
  - apply Merge_conflict with (data := "{" +:+ q +:+ "message" +:+ q +:+ ":" +:+ q +:+ "Merge conflict"
            +:+ q +:+ "}").
    + split; [reflexivity | eexists; reflexivity].
    + left. reflexivity.
    + reflexivity.
    + reflexivity.
  - reflexivity.
  - discriminate.
Qed.

(** ** Hand-built request bodies *)

(** The text [CreateIssueComment] sends is the template around the
    trimmed comment, byte for byte. *)
Lemma CreateIssueComment_posts {Comment : Type} {D : json.Decodable Comment}
    (client : http.Client) (urlData : gmap string string)
    (commentBody : string) (w : World) :
  strings.TrimSpace commentBody <> EmptyString ->
  exists u,
    calls (worldAfter
             (CreateIssueComment (Comment := Comment) client urlData commentBody w))
    = calls w
      ++ [POST u "application/json"
            (commentJsonText (strings.TrimSpace commentBody))].
Proof.
  intros Hne. unfold CreateIssueComment, worldAfter.
  destruct (Z.eqb_spec (strings.len (strings.TrimSpace commentBody)) 0) as [H0|_].
  { apply len_zero in H0. contradiction. }
  rewrite AssertMapStrings_true. cbn [negb].
  unfold ClientPost, Do. cbn [github calls]. eexists.
  destruct (client _ _) as [res|err]; [|reflexivity].
  destruct (http.StatusCode res =? 200); [|reflexivity].
  destruct (http.Body res) as [data|err]; [|reflexivity].
  destruct (json.Unmarshal data _); reflexivity.
Qed.

(** The text [CreateRepoKey] sends is the template around the two values
    of the key map, byte for byte. *)
Lemma CreateRepoKey_posts {Key : Type} {D : json.Decodable Key}
    (client : http.Client) (urlData key : gmap string string) (w : World) :
  exists u,
    calls (worldAfter (CreateRepoKey (Key := Key) client urlData key w))
    = calls w ++ [POST u "application/json" (keyJsonText key)].
Proof.
  unfold CreateRepoKey, worldAfter.
  rewrite AssertMapStrings_true. cbn [negb].
  unfold ClientPost, Do. cbn [github calls]. eexists.
  destruct (client _ _) as [res|err]; [|reflexivity].
  destruct (http.StatusCode res =? 201); [|reflexivity].
  destruct (http.Body res) as [data|err]; [|reflexivity].
  destruct (json.Unmarshal data _); reflexivity.
Qed.

Lemma lastPayload_comment {Comment : Type} {D : json.Decodable Comment}
    (client : http.Client) (urlData : gmap string string)
    (commentBody : string) (w : World) :
  strings.TrimSpace commentBody <> EmptyString ->
  lastPayload (worldAfter
    (CreateIssueComment (Comment := Comment) client urlData commentBody w))
  = Some (commentJsonText (strings.TrimSpace commentBody)).
Proof.
  intros Hne.
  destruct (CreateIssueComment_posts (Comment := Comment) client urlData
              commentBody w Hne) as [u Hu].
  unfold lastPayload. rewrite Hu, last_snoc. reflexivity.
Qed.

Lemma lastPayload_key {Key : Type} {D : json.Decodable Key}
    (client : http.Client) (urlData key : gmap string string) (w : World) :
  lastPayload (worldAfter (CreateRepoKey (Key := Key) client urlData key w))
  = Some (keyJsonText key).
Proof.
  destruct (CreateRepoKey_posts (Key := Key) client urlData key w) as [u Hu].
  unfold lastPayload. rewrite Hu, last_snoc. reflexivity.
Qed.

(** C9: the bodies of [CreateIssueComment] and [CreateRepoKey] are the
    field values pasted into a template.  There is a comment that is not
    blank and holds a quote, and one that holds a line feed, for which the
    body posted is not JSON, whatever the client, the map and the world
    are; there is a comment that adds a member of its own to the object
    posted; and the same holds for the key and the title of
    [CreateRepoKey]. *)
Theorem hand_built_bodies_are_not_escaped {Comment Key : Type}
    {DC : json.Decodable Comment} {DK : json.Decodable Key} :
  (exists commentBody,
      strings.TrimSpace commentBody <> EmptyString
      /\ strings.hasByte Bytes.quote commentBody = true
      /\ forall client urlData w,
           malformed (lastPayload (worldAfter
             (CreateIssueComment (Comment := Comment) client urlData
                commentBody w))))
  /\ (exists commentBody,
      strings.TrimSpace commentBody <> EmptyString
      /\ strings.hasByte (ascii_of_N 10) commentBody = true
      /\ forall client urlData w,
           malformed (lastPayload (worldAfter
             (CreateIssueComment (Comment := Comment) client urlData
                commentBody w))))
  /\ (exists commentBody,
      strings.TrimSpace commentBody <> EmptyString
      /\ forall client urlData w,
           carries (lastPayload (worldAfter
             (CreateIssueComment (Comment := Comment) client urlData
                commentBody w)))
             [("body", json.Str "hi"); ("locked", json.Str "yes")])
  /\ (exists key : gmap string string,
      strings.TrimSpace (mapIndex key "key") <> EmptyString
      /\ strings.hasByte Bytes.quote (mapIndex key "key") = true
      /\ forall client urlData w,
           malformed (lastPayload (worldAfter
             (CreateRepoKey (Key := Key) client urlData key w))))
  /\ (exists key : gmap string string,
      strings.TrimSpace (mapIndex key "title") <> EmptyString
      /\ forall client urlData w,
           carries (lastPayload (worldAfter
             (CreateRepoKey (Key := Key) client urlData key w)))
             [("key", json.Str "ssh-rsa AAAA"); ("title", json.Str "hi");
              ("locked", json.Str "yes")]).
Proof.
  split; [|split; [|split; [|split]]].
  - exists quoteComment. split; [discriminate | split; [reflexivity|]].
    intros client urlData w. eexists. split.
    + apply lastPayload_comment. discriminate.
    + reflexivity.
  - exists twoLines. split; [discriminate | split; [reflexivity|]].
    intros client urlData w. eexists. split.
    + apply lastPayload_comment. discriminate.
    + reflexivity.
  - exists injecting. split; [discriminate|].
    intros client urlData w. eexists. split.
    + apply lastPayload_comment. discriminate.
    + reflexivity.
  - exists (<["key" := q]> (<["title" := "laptop"]> ∅)).
    split; [discriminate | split; [reflexivity|]].
    intros client urlData w. eexists. split.
    + apply lastPayload_key.
    + reflexivity.
  - exists (<["key" := "ssh-rsa AAAA"]> (<["title" := injecting]> ∅)).
    split; [discriminate|].
    intros client urlData w. eexists. split.
    + apply lastPayload_key.
    + reflexivity.
Qed.

(** ** Percent-encoding *)

Lemma hex_digits_escaped (c : ascii) :
  escapedByte (url.upperhex (N.shiftr (Bytes.code c) 4)) = true
  /\ escapedByte (url.upperhex (N.land (Bytes.code c) 15)) = true.
Proof. each_byte c; vm_compute; split; reflexivity. Qed.

Lemma hex_digits_decode (c : ascii) :
  let h := url.upperhex (N.shiftr (Bytes.code c) 4) in
  let l := url.upperhex (N.land (Bytes.code c) 15) in
  url.ishex h && url.ishex l = true
  /\ ascii_of_N (N.lor (N.shiftl (url.unhex h) 4) (url.unhex l)) = c.
Proof. each_byte c; vm_compute; split; reflexivity. Qed.

Lemma unreserved_plain (c : ascii) :
  url.shouldEscape c = false ->
  Bytes.eqb c "%" = false /\ Bytes.eqb c "+" = false.
Proof. each_byte c; vm_compute; intros H; split; congruence. Qed.

Lemma escapedByte_not_separator (c : ascii) :
  escapedByte c = true ->
  Bytes.eqb c "&" = false /\ Bytes.eqb c "=" = false
  /\ Bytes.eqb c ";" = false /\ Bytes.eqb c "?" = false.
Proof. each_byte c; vm_compute; intros H; repeat split; congruence. Qed.

Lemma QueryEscape_bytes (s : string) (c : ascii) :
  strings.hasByte c (url.QueryEscape s) = true -> escapedByte c = true.
Proof.
  induction s as [|d s IH]; cbn [url.QueryEscape strings.hasByte];
    [discriminate|].
  destruct (url.shouldEscape d) eqn:Hd.
  - destruct (Bytes.eqb d " ").
    + cbn [strings.hasByte]. rewrite orb_true_iff. intros [H|H]; [|auto].
      apply Ascii.eqb_eq in H. subst c. reflexivity.
    + cbn [strings.hasByte]. rewrite !orb_true_iff.
      destruct (hex_digits_escaped d) as [Hh Hl].
      intros [H|[H|[H|H]]]; [| | |auto];
        apply Ascii.eqb_eq in H; subst c; auto.
  - cbn [strings.hasByte]. rewrite orb_true_iff. intros [H|H]; [|auto].
    apply Ascii.eqb_eq in H. subst c. unfold escapedByte. rewrite Hd.
    reflexivity.
Qed.

(** Decoding undoes encoding. *)
Lemma QueryUnescape_QueryEscape (s : string) :
  url.QueryUnescape (url.QueryEscape s) = Some s.
Proof.
  induction s as [|d s IH]; [reflexivity|]. cbn [url.QueryEscape].
  destruct (url.shouldEscape d) eqn:Hd.
  - destruct (Bytes.eqb d " ") eqn:Hsp.
    + apply Ascii.eqb_eq in Hsp. subst d. cbn [url.QueryUnescape].
      change (Bytes.eqb "+" "%") with false. change (Bytes.eqb "+" "+") with true.
      cbn match. rewrite IH. reflexivity.
    + cbn [url.QueryUnescape]. change (Bytes.eqb "%" "%") with true. cbn match.
      destruct (hex_digits_decode d) as [Hhex Hc]. cbn zeta in Hhex, Hc.
      rewrite Hhex, Hc, IH. reflexivity.
  - destruct (unreserved_plain d Hd) as [Hp Hq]. cbn [url.QueryUnescape].
    rewrite Hp, Hq, IH. reflexivity.
Qed.

Lemma indexFrom_hasByte (c : ascii) (s : string) (i : Z) :
  0 <= i ->
  (strings.indexFrom i s (String c EmptyString) =? -1)
  = negb (strings.hasByte c s).
Proof.
  revert i. induction s as [|d s IH]; intros i Hi.
  - reflexivity.
  - cbn [strings.indexFrom strings.HasPrefix strings.hasByte].
    rewrite andb_true_r. unfold Bytes.eqb. rewrite (Ascii.eqb_sym c d).
    destruct (Ascii.eqb d c); cbn [orb negb].
    + apply Z.eqb_neq. lia.
    + apply IH. lia.
Qed.

(** [strings.Index path "?" == -1] says that [path] holds no question
    mark. *)
Lemma Index_hasByte (c : ascii) (s : string) :
  (strings.Index s (String c EmptyString) =? -1) = negb (strings.hasByte c s).
Proof. apply indexFrom_hasByte. lia. Qed.

(** C5 as stated fails: the encoded token a occurs three times in the URL
    built for the path /user, in api, in access_token and as the token. *)
Lemma createUrl_token_occurs_thrice :
  createUrl (NewGitHubClient "a" "me") "/user"
  = "https://api.github.com/user?access_token=a"
  /\ occurrences (url.QueryEscape "a")
       (createUrl (NewGitHubClient "a" "me") "/user") = 3%nat
  /\ ~ (forall path token,
          occurrences (url.QueryEscape token)
            (createUrl (NewGitHubClient token "me") path) = 1%nat).
Proof.
  split; [reflexivity | split; [reflexivity|]].
  intros H. specialize (H "/user" "a"). vm_compute in H. discriminate.
Qed.

(** C5, amended: the URL is the base, the path as given, a question mark
    if the path holds none and an ampersand otherwise, the name
    access_token, an equals sign and the encoded token, which ends the
    URL.  The encoded token is made of unreserved bytes, percent signs and
    plus signs only, so none of its bytes is a separator, and it decodes
    to the token. *)
Theorem createUrl_shape (github : GitHubClient) (path : string) :
  createUrl github path
  = APIURL +:+ path
    +:+ (if strings.hasByte "?" path then "&" else "?")
    +:+ "access_token=" +:+ url.QueryEscape (Token github)
  /\ (forall c, strings.hasByte c (url.QueryEscape (Token github)) = true ->
        escapedByte c = true
        /\ Bytes.eqb c "&" = false /\ Bytes.eqb c "=" = false
        /\ Bytes.eqb c ";" = false /\ Bytes.eqb c "?" = false)
  /\ url.QueryUnescape (url.QueryEscape (Token github)) = Some (Token github).
Proof.
  split; [|split].
  - unfold createUrl. rewrite Index_hasByte.
    destruct (strings.hasByte "?" path); reflexivity.
  - intros c Hc. apply QueryEscape_bytes in Hc.
    split; [exact Hc | apply escapedByte_not_separator; exact Hc].
  - apply QueryUnescape_QueryEscape.
Qed.

Lemma createUrl_shape_witness :
  createUrl (NewGitHubClient "a b/c" "me") "/user/repos?page=2"
  = "https://api.github.com/user/repos?page=2&access_token=a+b%2Fc"
  /\ escapedByte "%" = true.
Proof.
  destruct (createUrl_shape (NewGitHubClient "a b/c" "me") "/user/repos?page=2")
    as (Hurl & Hbytes & _).
  split; [exact Hurl|]. exact (proj1 (Hbytes "%"%char eq_refl)).
Defined.

(** ** The query-string encoder *)

Lemma hasByte_app (c : ascii) (s t : string) :
  strings.hasByte c (s +:+ t) = strings.hasByte c s || strings.hasByte c t.
Proof.
  induction s as [|d s IH]; [reflexivity|].
  rewrite append_cons. cbn [strings.hasByte]. rewrite IH, orb_assoc.
  reflexivity.
Qed.

Lemma QueryEscape_no_separator (s : string) :
  strings.hasByte "&" (url.QueryEscape s) = false
  /\ strings.hasByte "=" (url.QueryEscape s) = false
  /\ strings.hasByte ";" (url.QueryEscape s) = false.
Proof.
  repeat split; apply not_true_is_false; intros H;
    apply QueryEscape_bytes, escapedByte_not_separator in H; cbn in H;
    destruct H as (? & ? & ? & ?); discriminate.
Qed.

Lemma encodePair_no_separator (kv : string * string) :
  strings.hasByte "&" (encodePair kv) = false
  /\ strings.hasByte ";" (encodePair kv) = false.
Proof.
  unfold encodePair. rewrite !hasByte_app.
  destruct (QueryEscape_no_separator (strings.TrimSpace kv.1)) as (-> & _ & ->).
  destruct (QueryEscape_no_separator (strings.TrimSpace kv.2)) as (-> & _ & ->).
  split; reflexivity.
Qed.

Lemma len_app_pos (s t : string) :
  t <> EmptyString -> (strings.len (s +:+ t) =? 0) = false.
Proof.
  intros Ht. apply Z.eqb_neq. rewrite len_zero.
  destruct s as [|c s]; [exact Ht | rewrite append_cons; discriminate].
Qed.

Lemma UrlDataConvert_more (acc : string) (l : list (string * string)) :
  acc <> EmptyString ->
  foldl UrlDataConvertStep acc l = acc +:+ encodeMore l.
Proof.
  revert acc. induction l as [|[k v] l IH]; intros acc Hacc; cbn [foldl encodeMore].
  - rewrite append_nil_r. reflexivity.
  - unfold UrlDataConvertStep at 2.
    destruct (Z.eqb_spec (strings.len acc) 0) as [H0|_].
    { apply len_zero in H0. contradiction. }
    rewrite IH.
    + unfold encodePair. cbn [fst snd]. rewrite !append_assoc. reflexivity.
    + destruct acc; [contradiction | rewrite append_cons; discriminate].
Qed.

(** The loop writes the entries in the order it meets them, with an
    ampersand between two of them. *)
Lemma UrlDataConvertIn_cons (kv : string * string)
    (l : list (string * string)) :
  UrlDataConvertIn (kv :: l) = encodePair kv +:+ encodeMore l.
Proof.
  unfold UrlDataConvertIn. cbn [foldl]. destruct kv as [k v].
  unfold UrlDataConvertStep at 2. cbn [strings.len String.length Z.of_nat Z.eqb].
  rewrite append_nil_l. apply UrlDataConvert_more.
  unfold encodePair. cbn [fst snd].
  destruct (url.QueryEscape (strings.TrimSpace k));
    [rewrite append_nil_l | rewrite append_cons]; discriminate.
Qed.

Lemma pieces_no_separator (s : string) :
  strings.hasByte "&" s = false -> url.pieces s = [s].
Proof.
  induction s as [|c s IH]; cbn [strings.hasByte url.pieces]; [reflexivity|].
  intros H. apply orb_false_iff in H as [Hc Hs]. rewrite Hc, (IH Hs).
  reflexivity.
Qed.

Lemma pieces_app (s t : string) :
  strings.hasByte "&" s = false ->
  url.pieces (s +:+ "&" +:+ t) = s :: url.pieces t.
Proof.
  induction s as [|c s IH]; [reflexivity|].
  cbn [strings.hasByte]. intros H. apply orb_false_iff in H as [Hc Hs].
  rewrite append_cons. cbn [url.pieces]. rewrite Hc, (IH Hs). reflexivity.
Qed.

Lemma pieces_encode (kv : string * string) (l : list (string * string)) :
  url.pieces (encodePair kv +:+ encodeMore l) = encodePair <$> (kv :: l).
Proof.
  revert kv. induction l as [|kv' l IH]; intros kv; cbn [encodeMore].
  - rewrite append_nil_r. apply pieces_no_separator, encodePair_no_separator.
  - rewrite pieces_app by apply encodePair_no_separator.
    rewrite IH. reflexivity.
Qed.

Lemma Cut_app (sep : ascii) (s t : string) :
  strings.hasByte sep s = false ->
  url.Cut (s +:+ String sep t) sep = (s, t).
Proof.
  induction s as [|c s IH]; cbn [strings.hasByte].
  - intros _. rewrite append_nil_l. cbn [url.Cut]. unfold Bytes.eqb.
    rewrite Ascii.eqb_refl. reflexivity.
  - intros H. apply orb_false_iff in H as [Hc Hs].
    rewrite append_cons. cbn [url.Cut]. rewrite Hc, (IH Hs). reflexivity.
Qed.

(** The parser reads an encoded entry back as the trimmed key and the
    trimmed value. *)
Lemma parsePiece_encodePair (m : url.Values) (err : option url.queryError)
    (kv : string * string) :
  url.parsePiece (m, err) (encodePair kv) = (addValue m (trimPair kv), err).
Proof.
  unfold url.parsePiece.
  destruct (encodePair_no_separator kv) as [_ ->].
  assert (Hcut : url.Cut (encodePair kv) "="
                 = (url.QueryEscape (strings.TrimSpace kv.1),
                    url.QueryEscape (strings.TrimSpace kv.2))).
  { apply Cut_app, QueryEscape_no_separator. }
  destruct (encodePair kv) as [|c rest] eqn:E.
  - unfold encodePair in E.
    destruct (url.QueryEscape (strings.TrimSpace kv.1)); discriminate E.
  - rewrite Hcut, !QueryUnescape_QueryEscape. reflexivity.
Qed.

Lemma parse_encoded (m : url.Values) (err : option url.queryError)
    (l : list (string * string)) :
  foldl url.parsePiece (m, err) (encodePair <$> l)
  = (foldl addValue m (trimPair <$> l), err).
Proof.
  revert m. induction l as [|kv l IH]; intros m; [reflexivity|].
  cbn [fmap list_fmap foldl]. rewrite parsePiece_encodePair. apply IH.
Qed.

(** Whatever the order of the entries, the query string reads back as the
    trimmed keys with their trimmed values, collected in that order. *)
Lemma ParseQuery_UrlDataConvertIn (order : list (string * string)) :
  url.ParseQuery (UrlDataConvertIn order)
  = (collect (trimPair <$> order), None).
Proof.
  destruct order as [|kv l]; [reflexivity|].
  unfold url.ParseQuery. rewrite UrlDataConvertIn_cons, pieces_encode.
  apply parse_encoded.
Qed.

Lemma collect_distinct (l : list (string * string)) (m0 : url.Values) :
  NoDup l.*1 ->
  (forall k, k ∈ l.*1 -> m0 !! k = None) ->
  foldl addValue m0 l
  = ((fun v => [v]) <$> (list_to_map l : gmap string string)) ∪ m0.
Proof.
  revert m0. induction l as [|[k v] l IH]; intros m0 Hnd Hfresh.
  - cbn. rewrite fmap_empty, (left_id_L ∅ (∪)). reflexivity.
  - cbn [fmap list_fmap fst] in Hnd, Hfresh. apply NoDup_cons in Hnd as [Hk Hnd].
    cbn [foldl list_to_map foldr]. 
    assert (Hadd : addValue m0 (k, v) = <[k := [v]]> m0).
    { unfold addValue. cbn [fst snd]. rewrite Hfresh by apply list_elem_of_here.
      reflexivity. }
    rewrite Hadd, IH; [|exact Hnd|].
    + change (uncurry ?f (k, v) ?acc) with (f k v acc). 
      rewrite fmap_insert, <- insert_union_l, <- insert_union_r; [reflexivity|].
      rewrite lookup_fmap, (not_elem_of_list_to_map_1 _ _ Hk). reflexivity.
    + intros k' Hk'. rewrite lookup_insert_ne.
      * apply Hfresh. apply list_elem_of_further. exact Hk'.
      * intros ->. contradiction.
Qed.

(** Keys that carry no surrounding white space come back as they are,
    each with its one trimmed value, whatever the order was. *)
Lemma collect_trimmed_keys (m : gmap string string)
    (order : list (string * string)) :
  order ≡ₚ map_to_list m ->
  (forall k, is_Some (m !! k) -> strings.TrimSpace k = k) ->
  collect (trimPair <$> order) = (fun v => [strings.TrimSpace v]) <$> m.
Proof.
  intros Hperm Hkeys.
  assert (Hmap : trimPair <$> order
                 = prod_map id strings.TrimSpace <$> order).
  { apply list_fmap_ext. intros i [k v] Hi.
    unfold trimPair, prod_map. cbn [fst snd id]. f_equal.
    apply Hkeys. exists v. apply elem_of_map_to_list. rewrite <- Hperm.
    eapply list_elem_of_lookup_2. exact Hi. }
  assert (Hnd : NoDup order.*1).
  { rewrite Hperm. apply NoDup_fst_map_to_list. }
  unfold collect. rewrite Hmap, collect_distinct.
  - rewrite (right_id_L ∅ (∪)), list_to_map_fmap.
    rewrite (list_to_map_proper _ _ Hnd Hperm), list_to_map_to_list.
    rewrite <- map_fmap_compose. reflexivity.
  - rewrite <- list_fmap_compose.
    erewrite list_fmap_ext; [exact Hnd|]. intros i [k v] _. reflexivity.
  - intros k _. apply lookup_empty.
Qed.

(** C7 as stated fails: a key that starts with a space is not empty, and
    it comes back without the space. *)
Lemma UrlDataConvert_trims_keys :
  let m : gmap string string := {[" a" := "b"]} in
  (forall k v, m !! k = Some v -> k <> EmptyString /\ v <> EmptyString)
  /\ UrlDataConvert m "a=b"
  /\ url.ParseQuery "a=b" = (<["a" := ["b"]]> ∅, None)
  /\ url.ParseQuery "a=b" <> ((fun v => [strings.TrimSpace v]) <$> m, None).
Proof.
  intros m. split; [|split; [|split]].
  - intros k v H. subst m. apply lookup_singleton_Some in H as [<- <-].
    split; discriminate.
  - exists [(" a", "b")]. split; [|reflexivity].
    subst m. rewrite map_to_list_singleton. reflexivity.
  - reflexivity.
  - intros H. apply (f_equal (fun r => r.1 !! "a")) in H.
    vm_compute in H. discriminate.
Qed.

(** C7, amended: the encoder trims keys as well as values.  Whatever
    order the map is ranged over, the string it returns is read back by
    [url.ParseQuery], with no error, as the trimmed keys with their
    trimmed values; when no key carries surrounding white space, that is
    every key of the map with its one trimmed value, whatever the order
    was; and the empty map gives the empty string. *)
Theorem UrlDataConvert_round_trip (m : gmap string string) (s : string) :
  UrlDataConvert m s ->
  (exists order, order ≡ₚ map_to_list m
     /\ url.ParseQuery s = (collect (trimPair <$> order), None))
  /\ ((forall k, is_Some (m !! k) -> strings.TrimSpace k = k) ->
      url.ParseQuery s = ((fun v => [strings.TrimSpace v]) <$> m, None))
  /\ (m = ∅ -> s = EmptyString).
Proof.
  intros (order & Hperm & ->). split; [|split].
  - exists order. split; [exact Hperm | apply ParseQuery_UrlDataConvertIn].
  - intros Hkeys. rewrite ParseQuery_UrlDataConvertIn.
    rewrite (collect_trimmed_keys m order Hperm Hkeys). reflexivity.
  - intros ->. rewrite map_to_list_empty in Hperm.
    apply Permutation_nil_r in Hperm. subst order. reflexivity.
Qed.

Lemma UrlDataConvert_round_trip_witness :
  let m : gmap string string := <["state" := " open "]> {["page" := "2"]} in
  UrlDataConvert m "state=open&page=2"
  /\ url.ParseQuery "state=open&page=2"
     = ((fun v => [strings.TrimSpace v]) <$> m, None).
Proof.
  intros m.
  assert (H : UrlDataConvert m "state=open&page=2").
  { exists [("state", " open "); ("page", "2")]. split; [|reflexivity].
    vm_compute. first [apply Permutation_refl | apply perm_swap]. }
  split; [exact H|].
  refine (proj1 (proj2 (UrlDataConvert_round_trip m _ H)) _).
  intros k [v Hv]. subst m.
  apply lookup_insert_Some in Hv as [[<- _]|[_ Hv]]; [reflexivity|].
  apply lookup_singleton_Some in Hv as [<- _]. reflexivity.
Defined.

(** * Further properties *)

(** ** The validators of untyped maps *)

(** X1: [AssertMapValues] holds exactly when the map has every key of the
    list, and [AssertMapValue] exactly when it has the key; the values do
    not matter. *)
Theorem AssertMapValues_spec {V : Type} (s : list string) (m : gmap string V) :
  (AssertMapValues s m = true <-> forall key, key ∈ s -> is_Some (m !! key))
  /\ (forall key, AssertMapValue key m = true <-> is_Some (m !! key)).
Proof.
  split.
  - induction s as [|k s IH]; cbn [AssertMapValues].
    + split; [|reflexivity]. intros _ key Hkey.
      apply elem_of_nil in Hkey. contradiction.
    + destruct (m !! k) as [v|] eqn:Hk.
      * rewrite IH. split.
        -- intros H key Hkey. apply elem_of_cons in Hkey as [->|Hkey].
           ++ rewrite Hk. eauto.
           ++ apply H, Hkey.
        -- intros H key Hkey. apply H. apply list_elem_of_further, Hkey.
      * split; [discriminate|]. intros H.
        destruct (H k) as [v Hv]; [apply list_elem_of_here|]. congruence.
  - intros key. unfold AssertMapValue. destruct (m !! key) as [v|].
    + split; eauto.
    + split; [discriminate | intros [v Hv]; discriminate].
Qed.

(** ** The counters over several responses *)

Lemma getLimits_rateLimit (res : http.Response) (gh : GitHubClient) :
  getLimits res gh
  = match rateLimit res with
    | Some lr => withCounters lr gh
    | None => gh
    end.
Proof.
  unfold getLimits, rateLimit. rewrite !HeaderGet_headerValue.
  destruct (headerValue res "X-RateLimit-Remaining") as [sr|];
    destruct (headerValue res "X-RateLimit-Limit") as [sl|];
    cbn [default from_option id].
  - destruct (strconv.ParseInt sr), (strconv.ParseInt sl); reflexivity.
  - destruct (strconv.ParseInt sr); reflexivity.
  - reflexivity.
  - reflexivity.
Qed.

(** X2: after any sequence of responses the two counters are those of the
    last response that carried both headers in a form [ParseInt] reads,
    and the client is as it was if there was none; the type, the token
    and the login never change. *)
Theorem getLimits_last_wins (rs : list http.Response) (gh : GitHubClient) :
  foldl (fun g res => getLimits res g) gh rs
  = match last (omap rateLimit rs) with
    | Some lr => withCounters lr gh
    | None => gh
    end.
Proof.
  induction rs as [|res rs IH] using rev_ind; [reflexivity|].
  rewrite foldl_app. cbn [foldl]. rewrite getLimits_rateLimit, IH.
  rewrite omap_app. cbn [omap list_omap].
  destruct (rateLimit res) as [lr|].
  - rewrite last_snoc. destruct (last (omap rateLimit rs)); reflexivity.
  - rewrite app_nil_r. reflexivity.
Qed.

(** ** Reading the token back from a URL *)

Lemma Cut_app_found (sep : ascii) (s t : string) :
  strings.hasByte sep s = true ->
  url.Cut (s +:+ t) sep = ((url.Cut s sep).1, (url.Cut s sep).2 +:+ t).
Proof.
  induction s as [|c s IH]; cbn [strings.hasByte]; [discriminate|].
  rewrite append_cons. cbn [url.Cut].
  destruct (Bytes.eqb c sep); cbn [orb]; [reflexivity|].
  intros H. rewrite (IH H). destruct (url.Cut s sep). reflexivity.
Qed.

Lemma Cut_app_not_found (sep : ascii) (s t : string) :
  strings.hasByte sep s = false ->
  url.Cut (s +:+ t) sep = (s +:+ (url.Cut t sep).1, (url.Cut t sep).2).
Proof.
  induction s as [|c s IH]; cbn [strings.hasByte].
  - intros _. rewrite !append_nil_l. destruct (url.Cut t sep). reflexivity.
  - intros H. apply orb_false_iff in H as [Hc Hs].
    rewrite !append_cons. cbn [url.Cut]. rewrite Hc, (IH Hs). reflexivity.
Qed.

Lemma pieces_not_nil (s : string) : url.pieces s <> [].
Proof.
  destruct s as [|c s]; cbn [url.pieces]; [discriminate|].
  destruct (Bytes.eqb c "&"); [discriminate|].
  destruct (url.pieces s); discriminate.
Qed.

(** Cutting at an ampersand cuts the list of pieces. *)
Lemma pieces_app_any (s t : string) :
  url.pieces (s +:+ "&" +:+ t) = url.pieces s ++ url.pieces t.
Proof.
  induction s as [|c s IH]; [reflexivity|].
  rewrite append_cons. cbn [url.pieces]. rewrite IH.
  destruct (Bytes.eqb c "&"); [reflexivity|].
  pose proof (pieces_not_nil s) as Hs.
  destruct (url.pieces s) as [|p ps]; [contradiction | reflexivity].
Qed.

(** The parser reads an encoded key and value back as they were. *)
Lemma parsePiece_escaped (m : url.Values) (err : option url.queryError)
    (k v : string) :
  url.parsePiece (m, err) (url.QueryEscape k +:+ "=" +:+ url.QueryEscape v)
  = (addValue m (k, v), err).
Proof.
  unfold url.parsePiece. rewrite !hasByte_app.
  destruct (QueryEscape_no_separator k) as (_ & Hk & ->).
  destruct (QueryEscape_no_separator v) as (_ & _ & ->). cbn [strings.hasByte orb].
  change (Bytes.eqb "=" ";") with false. cbn [orb].
  assert (Hcut : url.Cut (url.QueryEscape k +:+ "=" +:+ url.QueryEscape v) "="
                 = (url.QueryEscape k, url.QueryEscape v)).
  { apply Cut_app, Hk. }
  destruct (url.QueryEscape k +:+ "=" +:+ url.QueryEscape v) as [|c rest] eqn:E.
  - destruct (url.QueryEscape k); discriminate E.
  - rewrite Hcut, !QueryUnescape_QueryEscape. reflexivity.
Qed.

(** A last parameter, written with its key and value encoded, is read
    after all that comes before it. *)
Lemma ParseQuery_last_parameter (qs k v : string) :
  url.ParseQuery (qs +:+ "&" +:+ url.QueryEscape k +:+ "="
                  +:+ url.QueryEscape v)
  = (addValue (url.ParseQuery qs).1 (k, v), (url.ParseQuery qs).2).
Proof.
  unfold url.ParseQuery. rewrite pieces_app_any, foldl_app.
  rewrite (pieces_no_separator
             (url.QueryEscape k +:+ "=" +:+ url.QueryEscape v)).
  - cbn [foldl]. destruct (foldl url.parsePiece (∅, None) (url.pieces qs)).
    apply parsePiece_escaped.
  - rewrite !hasByte_app.
    destruct (QueryEscape_no_separator k) as (-> & _).
    destruct (QueryEscape_no_separator v) as (-> & _). reflexivity.
Qed.

Lemma ParseQuery_one_parameter (k v : string) :
  url.ParseQuery (url.QueryEscape k +:+ "=" +:+ url.QueryEscape v)
  = (addValue ∅ (k, v), None).
Proof.
  unfold url.ParseQuery. rewrite pieces_no_separator.
  - cbn [foldl]. apply parsePiece_escaped.
  - rewrite !hasByte_app.
    destruct (QueryEscape_no_separator k) as (-> & _).
    destruct (QueryEscape_no_separator v) as (-> & _). reflexivity.
Qed.

Lemma addValue_last (m : url.Values) (k v : string) :
  last (default [] (addValue m (k, v) !! k)) = Some v.
Proof.
  unfold addValue. cbn [fst snd]. rewrite lookup_insert_eq. cbn.
  apply last_snoc.
Qed.

(** The query of the URL [createUrl] builds. *)
Lemma queryOf_createUrl (github : GitHubClient) (path : string) :
  queryOf (createUrl github path)
  = if strings.hasByte "?" path
    then queryOf path +:+ "&access_token=" +:+ url.QueryEscape (Token github)
    else "access_token=" +:+ url.QueryEscape (Token github).
Proof.
  unfold queryOf, createUrl. rewrite Index_hasByte.
  destruct (strings.hasByte "?" path) eqn:Hq; cbn [negb];
    rewrite Cut_app_not_found by reflexivity; cbn [snd].
  - rewrite Cut_app_found by exact Hq. reflexivity.
  - rewrite Cut_app_not_found by exact Hq. reflexivity.
Qed.

Lemma ParseQuery_with_token (qs token : string) :
  url.ParseQuery (qs +:+ "&access_token=" +:+ url.QueryEscape token)
  = (addValue (url.ParseQuery qs).1 ("access_token", token),
     (url.ParseQuery qs).2).
Proof. exact (ParseQuery_last_parameter qs "access_token" token). Qed.

Lemma ParseQuery_token_only (token : string) :
  url.ParseQuery ("access_token=" +:+ url.QueryEscape token)
  = (addValue ∅ ("access_token", token), None).
Proof. exact (ParseQuery_one_parameter "access_token" token). Qed.

(** X3: whatever the path and the token are, the query of the URL that
    [createUrl] builds (the text after its first question mark), read by
    [url.ParseQuery], has the token as the last value of access_token,
    unchanged. *)
Theorem createUrl_token_read_back (github : GitHubClient) (path : string) :
  last (default []
          ((url.ParseQuery (queryOf (createUrl github path))).1
             !! "access_token"))
  = Some (Token github).
Proof.
  rewrite queryOf_createUrl.
  destruct (strings.hasByte "?" path).
  - rewrite ParseQuery_with_token. cbn [fst]. apply addValue_last.
  - rewrite ParseQuery_token_only. cbn [fst]. apply addValue_last.
Qed.

(** ** The text of the query-string encoder *)

Lemma encodeMore_bytes (l : list (string * string)) (c : ascii) :
  strings.hasByte c (encodeMore l) = true ->
  escapedByte c = true \/ c = "="%char \/ c = "&"%char.
Proof.
  induction l as [|kv l IH]; cbn [encodeMore]; [discriminate|].
  unfold encodePair. rewrite !hasByte_app, !orb_true_iff.
  cbn [strings.hasByte]. rewrite !orb_false_r.
  intros [H|[[H|[H|H]]|H]].
  - right; right. apply Ascii.eqb_eq in H. congruence.
  - left. eapply QueryEscape_bytes, H.
  - right; left. apply Ascii.eqb_eq in H. congruence.
  - left. eapply QueryEscape_bytes, H.
  - apply IH, H.
Qed.

(** X4: the string [UrlDataConvert] returns is empty exactly when the map
    is empty; its bytes are unreserved bytes, percent signs, plus signs,
    equals signs and ampersands, nothing else; and a map that is not empty
    gives as many ampersand-separated pieces as it has entries. *)
Theorem UrlDataConvert_text (m : gmap string string) (s : string) :
  UrlDataConvert m s ->
  (s = EmptyString <-> m = ∅)
  /\ (forall c, strings.hasByte c s = true ->
        escapedByte c = true \/ c = "="%char \/ c = "&"%char)
  /\ (m <> ∅ -> length (url.pieces s) = size m).
Proof.
  intros (order & Hperm & ->).
  assert (Hlen : length order = size m).
  { rewrite Hperm. apply length_map_to_list. }
  destruct order as [|kv l].
  - assert (Hm : m = ∅).
    { apply map_size_empty_iff. cbn in Hlen. congruence. }
    split; [|split].
    + split; [intros _; exact Hm | reflexivity].
    + discriminate.
    + intros Hne. contradiction.
  - assert (Hm : m <> ∅).
    { intros ->. rewrite map_size_empty in Hlen. discriminate. }
    rewrite UrlDataConvertIn_cons. split; [|split].
    + split; [|intros ->; contradiction].
      unfold encodePair. destruct (url.QueryEscape (strings.TrimSpace kv.1));
        discriminate.
    + intros c. rewrite hasByte_app, orb_true_iff. intros [H|H].
      * unfold encodePair in H. rewrite !hasByte_app, !orb_true_iff in H.
        cbn [strings.hasByte] in H. rewrite orb_false_r in H.
        destruct H as [H|[H|H]].
        -- left. eapply QueryEscape_bytes, H.
        -- right; left. apply Ascii.eqb_eq in H. congruence.
        -- left. eapply QueryEscape_bytes, H.
      * eapply encodeMore_bytes, H.
    + intros _. rewrite pieces_encode.
      rewrite (length_fmap encodePair (kv :: l)). exact Hlen.
Qed.

(** Two entries, one of them with white space and reserved bytes. *)
Lemma UrlDataConvert_text_witness :
  let m : gmap string string := <["q" := " a&b "]> {["page" := "2"]} in
  UrlDataConvert m "q=a%26b&page=2"
  /\ length (url.pieces "q=a%26b&page=2") = size m.
Proof.
  intros m.
  assert (H : UrlDataConvert m "q=a%26b&page=2").
  { exists [("q", " a&b "); ("page", "2")]. split; [|reflexivity].
    vm_compute. first [apply Permutation_refl | apply perm_swap]. }
  split; [exact H|].
  refine (proj2 (proj2 (UrlDataConvert_text m _ H)) _).
  intros Hm. apply (f_equal (fun x : gmap string string => x !! "q")) in Hm.
  vm_compute in Hm. discriminate.
Defined.

(** ** Markdown rendering *)

Lemma calls_grow (l : list http.Request) (r : http.Request) : l ++ [r] <> l.
Proof.
  intros H. apply (f_equal length) in H. rewrite length_app in H.
  cbn in H. lia.
Qed.

(** X5: [RenderMarkdown] stops only at the empty text: it then returns its
    own error and calls nothing.  Any other text, white space included, is
    posted once, encoded, to /markdown; on status 200 the body comes back
    byte for byte, nothing in it is decoded, and on any other status the
    error carries the status line. *)
Theorem RenderMarkdown_outcomes (encode : Markdown -> string)
    (client : http.Client) (markdown : Markdown) (w : World) :
  let post :=
    POST (APIURL +:+ "/markdown?access_token="
          +:+ url.QueryEscape (Token (github w)))
      "application/json" (encode markdown) in
  (Markdown_ markdown = EmptyString ->
     RenderMarkdown encode client markdown w
     = ((EmptyString,
         Some (errorString
                 "You must not send an empty string as the markdown contents.")),
        w))
  /\ (Markdown_ markdown <> EmptyString ->
      calls (RenderMarkdown encode client markdown w).2 = calls w ++ [post]
      /\ (forall res, client (calls w) post = inl res ->
            (RenderMarkdown encode client markdown w).1
            = if http.StatusCode res =? 200 then
                match http.Body res with
                | inl html => (html, None)
                | inr err => (EmptyString, Some err)
                end
              else
                (EmptyString,
                 Some (errorString
                         ("Didn't receive 200 status from Github: "
                          +:+ http.Status res))))
      /\ (forall err, client (calls w) post = inr err ->
            (RenderMarkdown encode client markdown w).1
            = (EmptyString, Some err))).
Proof.
  intros post. unfold RenderMarkdown. split.
  - intros ->. reflexivity.
  - intros Hne. apply String.eqb_neq in Hne. rewrite Hne.
    unfold ClientPost, Do. cbn [github calls].
    change (createUrl (github w) "/markdown") with (http.URL post).
    fold post.
    change {| http.Method := "POST"; http.URL := http.URL post;
              http.ContentType := "application/json";
              http.Payload := encode markdown |} with post.
    split; [|split].
    + destruct (client (calls w) post) as [res|err]; [|reflexivity].
      destruct (http.StatusCode res =? 200); [|reflexivity].
      destruct (http.Body res); reflexivity.
    + intros res ->. destruct (http.StatusCode res =? 200); [|reflexivity].
      destruct (http.Body res); reflexivity.
    + intros err ->. reflexivity.
Qed.

(** A text of one space is sent, and what a 200 answers is returned as it
    is, here a text that is no JSON. *)
Lemma RenderMarkdown_outcomes_witness :
  let markdown := {| Mode := "gfm"; Context := EmptyString; Markdown_ := " " |} in
  let w := {| github := NewGitHubClient "t" "me"; calls := [] |} in
  let page :=
    {| http.StatusCode := 200; http.Status := "200 OK"; http.Header := ∅;
       http.Body := inl "<p>" |} in
  (RenderMarkdown (fun _ => "{}") (stub page) markdown w).1 = ("<p>", None)
  /\ calls (RenderMarkdown (fun _ => "{}") (stub page) markdown w).2
     = [POST "https://api.github.com/markdown?access_token=t"
          "application/json" "{}"].
Proof.
  intros markdown w page.
  destruct (RenderMarkdown_outcomes (fun _ => "{}") (stub page) markdown w)
    as [_ H].
  destruct H as (Hcalls & Hres & _); [discriminate|].
  split; [exact (Hres page eq_refl) | exact Hcalls].
Defined.

(** ** Listing issues *)

(** X6: [ListUserIssues] and [ListAllIssues] reach the client exactly when
    the map has a filter that is not blank.  Otherwise they return their
    validation error and leave the world as it is; the message of
    [ListAllIssues] starts with the blank filter it was given. *)
Theorem list_issues_filter_gate {Issues : Type} {D : json.Decodable Issues}
    (client : http.Client) (getData : gmap string string)
    (order : list (string * string)) (w : World) :
  let filtered :=
    exists v, getData !! "filter" = Some v
              /\ strings.TrimSpace v <> EmptyString in
  let message :=
    "The getData[" +:+ q +:+ "filter" +:+ q
    +:+ "] value is either empty or doesn't contain any non-whitespace content" in
  (calls (ListUserIssues (Issues := Issues) client getData order w).2 = calls w
     <-> ~ filtered)
  /\ (calls (ListAllIssues (Issues := Issues) client getData order w).2 = calls w
     <-> ~ filtered)
  /\ (~ filtered ->
      ListUserIssues (Issues := Issues) client getData order w
      = ((None, Some (errorString message)), w)
      /\ ListAllIssues (Issues := Issues) client getData order w
         = ((None, Some (errorString (mapIndex getData "filter" +:+ message))),
            w)).
Proof.
  intros filtered message.
  assert (Hgate : AssertMapString "filter" getData = true <-> filtered).
  { apply AssertMapString_spec. }
  unfold ListUserIssues, ListAllIssues.
  destruct (AssertMapString "filter" getData) eqn:Hf; cbn [negb].
  - assert (Hyes : filtered) by (apply Hgate; reflexivity).
    unfold ClientGet, Do. cbn [github calls].
    split; [|split].
    + split; [|intros Hno; contradiction].
      intros H. exfalso. revert H.
      destruct (client _ _) as [res|err]; [|apply calls_grow].
      destruct (http.StatusCode res =? 200); [|apply calls_grow].
      destruct (http.Body res) as [data|err]; [|apply calls_grow].
      destruct (json.Unmarshal data _); apply calls_grow.
    + split; [|intros Hno; contradiction].
      intros H. exfalso. revert H.
      destruct (client _ _) as [res|err]; [|apply calls_grow].
      destruct (http.StatusCode res =? 200); [|apply calls_grow].
      destruct (http.Body res) as [data|err]; [|apply calls_grow].
      destruct (json.Unmarshal data _); apply calls_grow.
    + intros Hno. contradiction.
  - assert (Hno : ~ filtered).
    { intros H. apply Hgate in H. discriminate. }
    split; [|split].
    + split; [intros _; exact Hno | reflexivity].
    + split; [intros _; exact Hno | reflexivity].
    + intros _. split; reflexivity.
Qed.

(** A filter of white space stops both; the message of [ListAllIssues]
    starts with it. *)
Lemma list_issues_filter_gate_witness :
  let getData : gmap string string := {["filter" := "  "]} in
  let w := {| github := NewGitHubClient "t" "me"; calls := [] |} in
  ListUserIssues (Issues := json.value) (D := inl) (stub noContent)
    getData [("filter", "  ")] w
  = ((None,
      Some (errorString
              ("The getData[" +:+ q +:+ "filter" +:+ q
               +:+ "] value is either empty or doesn't contain any non-whitespace content"))),
     w)
  /\ ListAllIssues (Issues := json.value) (D := inl) (stub noContent)
       getData [("filter", "  ")] w
     = ((None,
         Some (errorString
                 ("  The getData[" +:+ q +:+ "filter" +:+ q
                  +:+ "] value is either empty or doesn't contain any non-whitespace content"))),
        w).
Proof.
  intros getData w.
  refine (proj2 (proj2 (list_issues_filter_gate (Issues := json.value)
                          (D := inl) (stub noContent) getData
                          [("filter", "  ")] w)) _).
  intros (v & Hv & Hne). subst getData.
  apply lookup_singleton_Some in Hv as [_ <-]. apply Hne. reflexivity.
Defined.

Lemma addValue_fresh (m : url.Values) (k v : string) :
  m !! k = None -> addValue m (k, v) = insert k [v] m.
Proof. intros H. unfold addValue. cbn [fst snd]. rewrite H. reflexivity. Qed.

(** X7: with a filter that is not blank, [ListUserIssues] makes one GET
    whose query, read by [url.ParseQuery], is the trimmed keys and values
    of the map in the order ranged over, then the token at access_token,
    with no error.  When no key carries surrounding white space and none
    is access_token, that is every entry of the map with its trimmed value
    and the token, whatever the order was. *)
Theorem ListUserIssues_query_round_trip {Issues : Type}
    {D : json.Decodable Issues} (client : http.Client)
    (getData : gmap string string) (order : list (string * string))
    (w : World) :
  AssertMapString "filter" getData = true ->
  order ≡ₚ map_to_list getData ->
  exists u,
    calls (ListUserIssues (Issues := Issues) client getData order w).2
    = calls w ++ [GET u]
    /\ url.ParseQuery (queryOf u)
       = (addValue (collect (trimPair <$> order))
            ("access_token", Token (github w)), None)
    /\ ((forall k, is_Some (getData !! k) -> strings.TrimSpace k = k) ->
        getData !! "access_token" = None ->
        url.ParseQuery (queryOf u)
        = (insert "access_token" [Token (github w)]
             ((fun v => [strings.TrimSpace v]) <$> getData), None)).
Proof.
  intros Hf Hperm. unfold ListUserIssues. rewrite Hf. cbn [negb].
  unfold ClientGet, Do. cbn [github calls].
  exists (createUrl (github w) ("/user/issues?" +:+ UrlDataConvertIn order)).
  assert (Hquery :
    url.ParseQuery
      (queryOf (createUrl (github w)
                  ("/user/issues?" +:+ UrlDataConvertIn order)))
    = (addValue (collect (trimPair <$> order))
         ("access_token", Token (github w)), None)).
  { rewrite queryOf_createUrl, hasByte_app. cbn [orb].
    change (strings.hasByte "?" "/user/issues?") with true. cbn [orb].
    unfold queryOf. rewrite Cut_app_found by reflexivity.
    change (url.Cut "/user/issues?" "?").2 with EmptyString.
    cbn [snd]. rewrite append_nil_l, ParseQuery_with_token.
    rewrite ParseQuery_UrlDataConvertIn. reflexivity. }
  split; [|split].
  - destruct (client _ _) as [res|err]; [|reflexivity].
    destruct (http.StatusCode res =? 200); [|reflexivity].
    destruct (http.Body res) as [data|err]; [|reflexivity].
    destruct (json.Unmarshal data _); reflexivity.
  - exact Hquery.
  - intros Hkeys Hfree. rewrite Hquery.
    rewrite (collect_trimmed_keys getData order Hperm Hkeys).
    rewrite addValue_fresh; [reflexivity|].
    rewrite lookup_fmap, Hfree. reflexivity.
Qed.

(** A filter and a state, the state with white space around it. *)
Lemma ListUserIssues_query_round_trip_witness :
  let getData : gmap string string :=
    <["filter" := "all"]> {["state" := " open "]} in
  let w := {| github := NewGitHubClient "s3 cr&t" "me"; calls := [] |} in
  exists u,
    calls (ListUserIssues (Issues := json.value) (D := inl) (stub noContent)
             getData [("filter", "all"); ("state", " open ")] w).2
    = [GET u]
    /\ url.ParseQuery (queryOf u)
       = (insert "access_token" ["s3 cr&t"]
            ((fun v => [strings.TrimSpace v]) <$> getData), None).
Proof.
  intros getData w.
  assert (Hperm : [("filter", "all"); ("state", " open ")]
                  ≡ₚ map_to_list getData).
  { vm_compute. first [apply Permutation_refl | apply perm_swap]. }
  destruct (ListUserIssues_query_round_trip (Issues := json.value) (D := inl)
              (stub noContent) getData _ w eq_refl Hperm)
    as (u & Hcalls & _ & Hmap).
  exists u. split; [exact Hcalls|]. apply Hmap.
  - intros k [v Hv]. subst getData.
    apply lookup_insert_Some in Hv as [[<- _]|[_ Hv]]; [reflexivity|].
    apply lookup_singleton_Some in Hv as [<- _]. reflexivity.
  - reflexivity.
Defined.

(** ** The page of the issue events *)

Lemma code_byteOf (z : Z) :
  0 <= z < 256 -> Z.of_N (Bytes.code (utf8.byteOf z)) = z.
Proof.
  intros H. unfold Bytes.code, utf8.byteOf.
  rewrite N_ascii_embedding by lia. lia.
Qed.

Lemma isDigit_byteOf (z : Z) :
  0 <= z < 256 -> Bytes.isDigit (utf8.byteOf z) = true -> 48 <= z <= 57.
Proof.
  intros Hz Hd. apply isDigit_range in Hd. rewrite code_byteOf in Hd; lia.
Qed.

Lemma checked_below (P : Z -> bool) (n : nat) :
  forallb P (seqZ 0 (Z.of_nat n)) = true ->
  forall y, 0 <= y < Z.of_nat n -> P y = true.
Proof.
  intros H y Hy. rewrite forallb_forall in H. apply H.
  apply list_elem_of_In, elem_of_seqZ. lia.
Qed.

(** A lead byte of a sequence of two, three or four bytes is no digit. *)
Lemma lead_byte_no_digit (y : Z) :
  0 <= y < 32 ->
  Bytes.isDigit (utf8.byteOf (Z.lor 192 y)) = false
  /\ Bytes.isDigit (utf8.byteOf (Z.lor 224 y)) = false
  /\ Bytes.isDigit (utf8.byteOf (Z.lor 240 y)) = false.
Proof.
  intros Hy.
  pose proof (checked_below
    (fun y => negb (Bytes.isDigit (utf8.byteOf (Z.lor 192 y)))
              && negb (Bytes.isDigit (utf8.byteOf (Z.lor 224 y)))
              && negb (Bytes.isDigit (utf8.byteOf (Z.lor 240 y))))
    32 eq_refl y Hy) as H.
  cbn beta in H. rewrite !andb_true_iff, !negb_true_iff in H. tauto.
Qed.

(** The page as [ListIssueEvents] writes it is a string of digits only
    for the pages 48 to 57, and it is then one digit. *)
Lemma intstring_digits (page : Z) :
  allDigits (utf8.intstring page) = true ->
  48 <= page <= 57
  /\ utf8.intstring page = String (utf8.byteOf page) EmptyString.
Proof.
  unfold utf8.intstring.
  assert (Herr : allDigits (utf8.encoderune utf8.RuneError) = false)
    by reflexivity.
  destruct ((- 2 ^ 31 <=? page) && (page <? 2 ^ 31)) eqn:Hfit;
    [|rewrite Herr; discriminate].
  unfold utf8.encoderune.
  destruct (Z.leb_spec 0 page) as [H0|H0]; cbn [andb].
  - destruct (Z.leb_spec page 127) as [H1|H1].
    + cbn [allDigits]. rewrite andb_true_r. intros Hd.
      split; [apply isDigit_byteOf; [lia | exact Hd] | reflexivity].
    + destruct (Z.leb_spec page 2047) as [H2|H2].
      * cbn [allDigits]. rewrite andb_true_iff. intros [Hd _].
        rewrite Z.shiftr_div_pow2 in Hd by lia. change (2 ^ 6) with 64 in Hd.
        assert (Hy : 0 <= page / 64 < 32).
        { split; [apply Z.div_pos; lia | apply Z.div_lt_upper_bound; lia]. }
        rewrite (proj1 (lead_byte_no_digit (page / 64) Hy)) in Hd.
        discriminate.
      * destruct (Z.ltb_spec page 0) as [?|_]; [lia|]. cbn [orb].
        destruct (Z.gtb_spec page 1114111) as [H3|H3]; cbn [orb];
          [discriminate|].
        destruct ((55296 <=? page) && (page <=? 57343)); [discriminate|].
        destruct (Z.leb_spec page 65535) as [H4|H4].
        -- cbn [allDigits]. rewrite andb_true_iff. intros [Hd _].
           rewrite Z.shiftr_div_pow2 in Hd by lia.
           change (2 ^ 12) with 4096 in Hd.
           assert (Hy : 0 <= page / 4096 < 32).
           { split; [apply Z.div_pos; lia | apply Z.div_lt_upper_bound; lia]. }
           rewrite (proj1 (proj2 (lead_byte_no_digit (page / 4096) Hy))) in Hd.
           discriminate.
        -- cbn [allDigits]. rewrite andb_true_iff. intros [Hd _].
           rewrite Z.shiftr_div_pow2 in Hd by lia.
           change (2 ^ 18) with 262144 in Hd.
           assert (Hy : 0 <= page / 262144 < 32).
           { split; [apply Z.div_pos; lia | apply Z.div_lt_upper_bound; lia]. }
           rewrite (proj2 (proj2 (lead_byte_no_digit (page / 262144) Hy))) in Hd.
           discriminate.
  - destruct (Z.ltb_spec page 0) as [_|?]; [|lia]. discriminate.
Qed.

(** The owner an endpoint puts into its path: the one given, or the login
    of the client when none is given or it is blank. *)
Lemma owner_in_path (urlData : gmap string string) (w : World) :
  let urlData' :=
    if negb (AssertMapString "owner" urlData)
    then <["owner" := Login (github w)]> urlData else urlData in
  mapIndex urlData' "owner"
  = (if AssertMapString "owner" urlData then mapIndex urlData "owner"
     else Login (github w))
  /\ forall k, k <> "owner" -> mapIndex urlData' k = mapIndex urlData k.
Proof.
  cbn zeta. destruct (AssertMapString "owner" urlData); cbn [negb].
  - split; reflexivity.
  - split.
    + unfold mapIndex. rewrite lookup_insert_eq. reflexivity.
    + intros k Hk. apply mapIndex_insert_ne. congruence.
Qed.

(** X8: [ListIssueEvents] always makes one GET, and the page it asks for
    is [string(page)], the UTF-8 text of the code point [page], not its
    decimal numeral: a page from 0 to 127 is sent as the one byte of that
    value, and the text sent is made of decimal digits only for the pages
    48 to 57, for which it is the one digit with that code. *)
Theorem ListIssueEvents_page {Events : Type} {D : json.Decodable Events}
    (client : http.Client) (urlData : gmap string string) (page : Z)
    (w : World) :
  let owner :=
    if AssertMapString "owner" urlData then mapIndex urlData "owner"
    else Login (github w) in
  calls (worldAfter (ListIssueEvents (Events := Events) client urlData page w))
  = calls w
    ++ [GET (createUrl (github w)
               ("/repos/" +:+ owner +:+ "/" +:+ mapIndex urlData "repo"
                +:+ "/issues/" +:+ mapIndex urlData "issueNumber"
                +:+ "/events?page=" +:+ utf8.intstring page))]
  /\ (0 <= page <= 127 ->
      utf8.intstring page = String (utf8.byteOf page) EmptyString)
  /\ (allDigits (utf8.intstring page) = true ->
      48 <= page <= 57
      /\ utf8.intstring page = String (utf8.byteOf page) EmptyString).
Proof.
  intros owner. split; [|split].
  - unfold ListIssueEvents, worldAfter.
    rewrite AssertMapStrings_true. cbn [negb].
    destruct (owner_in_path urlData w) as [Howner Hother].
    cbn zeta in Howner, Hother. rewrite Howner, !Hother by discriminate.
    unfold ClientGet, Do. cbn [github calls].
    destruct (client _ _) as [res|err]; [|reflexivity].
    destruct (http.StatusCode res =? 200); [|reflexivity].
    destruct (http.Body res) as [data|err]; [|reflexivity].
    destruct (json.Unmarshal data _); reflexivity.
  - intros [H0 H1]. unfold utf8.intstring, utf8.encoderune.
    destruct (Z.leb_spec (- 2 ^ 31) page) as [_|?]; [|lia].
    destruct (Z.ltb_spec page (2 ^ 31)) as [_|?]; [|lia]. cbn [andb].
    destruct (Z.leb_spec 0 page) as [_|?]; [|lia].
    destruct (Z.leb_spec page 127) as [_|?]; [|lia]. reflexivity.
  - apply intstring_digits.
Qed.

(** Page 50 is asked for as page 2, and page 2 as the byte 2. *)
Lemma ListIssueEvents_page_witness :
  let urlData : gmap string string :=
    <["owner" := "octocat"]> (<["repo" := "hello"]>
      {["issueNumber" := "7"]}) in
  let w := {| github := NewGitHubClient "t" "me"; calls := [] |} in
  calls (worldAfter (ListIssueEvents (Events := json.value) (D := inl)
                       (stub noContent) urlData 50 w))
  = [GET "https://api.github.com/repos/octocat/hello/issues/7/events?page=2&access_token=t"]
  /\ utf8.intstring 2 = String (ascii_of_N 2) EmptyString
  /\ 48 <= 50 <= 57.
Proof.
  intros urlData w.
  destruct (ListIssueEvents_page (Events := json.value) (D := inl)
              (stub noContent) urlData 50 w) as (Hcalls & _ & Hdigits).
  split; [exact Hcalls|].
  split.
  - exact (proj1 (proj2 (ListIssueEvents_page (Events := json.value)
                           (D := inl) (stub noContent) urlData 2 w))
             ltac:(lia)).
  - exact (proj1 (Hdigits eq_refl)).
Defined.

(** ** Comments and keys without quotes *)

(** X9: [CreateIssueComment] reaches the client exactly when the comment
    is not blank; a blank comment gives its validation error and leaves
    the map and the world as they are. *)
Theorem CreateIssueComment_blank_gate {Comment : Type}
    {D : json.Decodable Comment} (client : http.Client)
    (urlData : gmap string string) (commentBody : string) (w : World) :
  (calls (worldAfter
            (CreateIssueComment (Comment := Comment) client urlData
               commentBody w)) = calls w
     <-> strings.TrimSpace commentBody = EmptyString)
  /\ (strings.TrimSpace commentBody = EmptyString ->
      CreateIssueComment (Comment := Comment) client urlData commentBody w
      = ((None,
          Some (errorString
                  "The comment body does not contain any non-whitespace content.")),
         urlData, w)).
Proof.
  assert (Hblank : strings.TrimSpace commentBody = EmptyString ->
    CreateIssueComment (Comment := Comment) client urlData commentBody w
    = ((None,
        Some (errorString
                "The comment body does not contain any non-whitespace content.")),
       urlData, w)).
  { intros H. unfold CreateIssueComment. rewrite H. reflexivity. }
  split; [|exact Hblank]. split.
  - intros Hcalls.
    destruct (decide (strings.TrimSpace commentBody = EmptyString))
      as [H|H]; [exact H|].
    destruct (CreateIssueComment_posts (Comment := Comment) client urlData
                commentBody w H) as [u Hu].
    rewrite Hu in Hcalls. apply calls_grow in Hcalls. contradiction.
  - intros H. rewrite (Hblank H). reflexivity.
Qed.

(** Tabs and line feeds only. *)
Lemma CreateIssueComment_blank_gate_witness :
  let blank := String (ascii_of_N 9) (String (ascii_of_N 10) " ") in
  let w := {| github := NewGitHubClient "t" "me"; calls := [] |} in
  CreateIssueComment (Comment := json.value) (D := inl) (stub noContent)
    ∅ blank w
  = ((None,
      Some (errorString
              "The comment body does not contain any non-whitespace content.")),
     ∅, w).
Proof.
  intros blank w.
  exact (proj2 (CreateIssueComment_blank_gate (Comment := json.value)
                  (D := inl) (stub noContent) ∅ blank w) eq_refl).
Defined.

Lemma rev_onto_rev_onto (s a b : string) :
  strings.rev_onto (strings.rev_onto s a) b = strings.rev_onto a (s +:+ b).
Proof.
  revert a b. induction s as [|c s IH]; intros a b; [reflexivity|].
  cbn [strings.rev_onto]. rewrite IH. cbn [strings.rev_onto].
  rewrite append_cons. reflexivity.
Qed.

Lemma reverse_rev_onto (s acc : string) :
  strings.reverse (strings.rev_onto s acc) = strings.reverse acc +:+ s.
Proof.
  unfold strings.reverse. rewrite rev_onto_rev_onto, append_nil_r.
  revert s. induction acc as [|c acc IH]; intros s; [reflexivity|].
  cbn [strings.rev_onto].
  rewrite (IH (String c s)), (IH (String c EmptyString)), append_assoc.
  reflexivity.
Qed.

Lemma lexFrom_app (m : json.mode) (s t : string) :
  json.lexFrom m (s +:+ t)
  = match lexRun m s with
    | Some (ts, m') => (fun rest => ts ++ rest) <$> json.lexFrom m' t
    | None => None
    end.
Proof.
  revert m. induction s as [|c s IH]; intros m.
  - rewrite append_nil_l. cbn [lexRun app]. destruct (json.lexFrom m t); reflexivity.
  - rewrite append_cons. cbn [json.lexFrom lexRun].
    destruct (json.step m c) as [[ts m']|]; [|reflexivity].
    rewrite IH. destruct (lexRun m' s) as [[ts' m'']|]; [|reflexivity].
    destruct (json.lexFrom m'' t) as [rest|]; [|reflexivity].
    cbn. rewrite app_assoc. reflexivity.
Qed.

(** Inside a string, plain text is taken as it is. *)
Lemma lexRun_plain (s acc : string) :
  plainText s = true ->
  lexRun (json.InString acc) s
  = Some ([], json.InString (strings.rev_onto s acc)).
Proof.
  revert acc. induction s as [|c s IH]; intros acc; [reflexivity|].
  cbn [plainText]. rewrite !andb_true_iff, !negb_true_iff.
  intros [[[Hq Hb] Hc] Hs]. cbn [lexRun json.step].
  rewrite Hq, Hb, Hc, (IH _ Hs). reflexivity.
Qed.

(** A plain text and the quote that ends it are one string token. *)
Lemma lexFrom_plain_string (s rest acc : string) :
  plainText s = true ->
  json.lexFrom (json.InString acc) (s +:+ String Bytes.quote rest)
  = (fun ts => json.TString (strings.reverse acc +:+ s) :: ts)
      <$> json.lexFrom json.Top rest.
Proof.
  intros Hs. rewrite lexFrom_app, (lexRun_plain s acc Hs).
  cbn [json.lexFrom json.step].
  change (Bytes.eqb Bytes.quote Bytes.quote) with true. cbn match.
  rewrite reverse_rev_onto.
  destruct (json.lexFrom json.Top rest); reflexivity.
Qed.

(** The comment template around a plain text is the object with that
    text as its body. *)
Lemma commentJsonText_plain (c : string) :
  plainText c = true ->
  json.parse (commentJsonText c)
  = Some (json.Object [("body", json.Str c)]).
Proof.
  intros Hc. unfold json.parse, json.lex, commentJsonText.
  change ("{ " +:+ q +:+ "body" +:+ q +:+ ": " +:+ q +:+ c +:+ q +:+ " }")
    with (("{ " +:+ q +:+ "body" +:+ q +:+ ": " +:+ q)
          +:+ c +:+ String Bytes.quote " }").
  rewrite lexFrom_app.
  change (lexRun json.Top ("{ " +:+ q +:+ "body" +:+ q +:+ ": " +:+ q))
    with (Some ([json.TLBrace; json.TString "body"; json.TColon],
                json.InString EmptyString)).
  cbv beta iota.
  rewrite (lexFrom_plain_string c " }" EmptyString Hc). reflexivity.
Qed.

(** The key template around two plain texts is the object with the two
    as its key and its title. *)
Lemma keyJsonText_plain (key : gmap string string) :
  plainText (mapIndex key "key") = true ->
  plainText (mapIndex key "title") = true ->
  json.parse (keyJsonText key)
  = Some (json.Object [("key", json.Str (mapIndex key "key"));
                       ("title", json.Str (mapIndex key "title"))]).
Proof.
  intros Hk Ht. unfold json.parse, json.lex, keyJsonText.
  change ("{ " +:+ q +:+ "key" +:+ q +:+ ": " +:+ q +:+ mapIndex key "key"
          +:+ q +:+ ", " +:+ q +:+ "title" +:+ q +:+ ": " +:+ q
          +:+ mapIndex key "title" +:+ q +:+ " }")
    with (("{ " +:+ q +:+ "key" +:+ q +:+ ": " +:+ q)
          +:+ mapIndex key "key"
          +:+ String Bytes.quote
                ((", " +:+ q +:+ "title" +:+ q +:+ ": " +:+ q)
                 +:+ mapIndex key "title" +:+ String Bytes.quote " }")).
  rewrite lexFrom_app.
  change (lexRun json.Top ("{ " +:+ q +:+ "key" +:+ q +:+ ": " +:+ q))
    with (Some ([json.TLBrace; json.TString "key"; json.TColon],
                json.InString EmptyString)).
  cbv beta iota.
  rewrite (lexFrom_plain_string _ _ EmptyString Hk).
  rewrite lexFrom_app.
  change (lexRun json.Top (", " +:+ q +:+ "title" +:+ q +:+ ": " +:+ q))
    with (Some ([json.TComma; json.TString "title"; json.TColon],
                json.InString EmptyString)).
  cbv beta iota.
  rewrite (lexFrom_plain_string _ " }" EmptyString Ht). reflexivity.
Qed.

(** X10: when the trimmed comment has no double quote, no backslash and
    no control byte, the body [CreateIssueComment] posts is the JSON
    object whose one member, body, is that comment; when the key and the
    title have none, the body [CreateRepoKey] posts is the JSON object
    with exactly these two as key and title. *)
Theorem hand_built_bodies_of_plain_text {Comment Key : Type}
    {DC : json.Decodable Comment} {DK : json.Decodable Key}
    (client : http.Client) (urlData : gmap string string) (w : World) :
  (forall commentBody,
      strings.TrimSpace commentBody <> EmptyString ->
      plainText (strings.TrimSpace commentBody) = true ->
      carries (lastPayload (worldAfter
                 (CreateIssueComment (Comment := Comment) client urlData
                    commentBody w)))
        [("body", json.Str (strings.TrimSpace commentBody))])
  /\ (forall key : gmap string string,
      plainText (mapIndex key "key") = true ->
      plainText (mapIndex key "title") = true ->
      carries (lastPayload (worldAfter
                 (CreateRepoKey (Key := Key) client urlData key w)))
        [("key", json.Str (mapIndex key "key"));
         ("title", json.Str (mapIndex key "title"))]).
Proof.
  split.
  - intros commentBody Hne Hplain. eexists. split.
    + apply lastPayload_comment, Hne.
    + apply commentJsonText_plain, Hplain.
  - intros key Hk Ht. eexists. split.
    + apply lastPayload_key.
    + apply keyJsonText_plain; assumption.
Qed.

(** A comment with white space around it, and an SSH key. *)
Lemma hand_built_bodies_of_plain_text_witness :
  let w := {| github := NewGitHubClient "t" "me"; calls := [] |} in
  let key : gmap string string :=
    <["key" := "ssh-rsa AAAA"]> {["title" := "laptop"]} in
  carries (lastPayload (worldAfter
             (CreateIssueComment (Comment := json.value) (D := inl)
                (stub noContent) ∅ "  looks good to me " w)))
    [("body", json.Str "looks good to me")]
  /\ carries (lastPayload (worldAfter
                (CreateRepoKey (Key := json.value) (D := inl)
                   (stub noContent) ∅ key w)))
       [("key", json.Str "ssh-rsa AAAA"); ("title", json.Str "laptop")].
Proof.
  intros w key.
  destruct (hand_built_bodies_of_plain_text (Comment := json.value)
              (Key := json.value) (DC := inl) (DK := inl)
              (stub noContent) ∅ w) as [Hc Hk].
  split.
  - apply (Hc "  looks good to me "); [discriminate | reflexivity].
  - apply (Hk key); reflexivity.
Defined.

(** ** The command *)

Lemma createUrl_token (g1 g2 : GitHubClient) (path : string) :
  Token g1 = Token g2 -> createUrl g1 path = createUrl g2 path.
Proof. intros H. unfold createUrl. rewrite H. reflexivity. Qed.

Lemma getLimits_identity (res : http.Response) (gh : GitHubClient) :
  Token (getLimits res gh) = Token gh /\ Login (getLimits res gh) = Login gh.
Proof.
  rewrite getLimits_rateLimit. destruct (rateLimit res); split; reflexivity.
Qed.

(** What one turn of the loop does with a dependency that has a slash. *)
Lemma GetRepoKeys_of_dependency {Keys : Type} {D : json.Decodable Keys}
    (client : http.Client) (dep token : string) (w : World) :
  Token (github w) = token -> Login (github w) = "qiniu" ->
  let urlData : gmap string string :=
    <["owner" := (url.Cut dep "/").1]> (<["repo" := (url.Cut dep "/").2]> ∅) in
  let out := GetRepoKeys (Keys := Keys) client urlData w in
  if named dep then
    calls (worldAfter out) = calls w ++ [keysRequest token dep]
    /\ Token (github (worldAfter out)) = token
    /\ Login (github (worldAfter out)) = "qiniu"
    /\ returned out = decoded200 (client (calls w) (keysRequest token dep))
  else
    worldAfter out = w /\ (returned out).2 <> None.
Proof.
  intros Htoken Hlogin urlData out. subst out. unfold GetRepoKeys, named.
  assert (Hrepo : AssertMapString "repo" urlData
                  = negb (strings.len (strings.TrimSpace (url.Cut dep "/").2) =? 0)).
  { unfold AssertMapString, urlData.
    rewrite lookup_insert_ne by discriminate. rewrite lookup_insert_eq.
    reflexivity. }
  assert (Howner : AssertMapString "owner" urlData
                   = negb (strings.len (strings.TrimSpace (url.Cut dep "/").1) =? 0)).
  { unfold AssertMapString, urlData. rewrite lookup_insert_eq. reflexivity. }
  rewrite Hrepo.
  destruct (strings.len (strings.TrimSpace (url.Cut dep "/").2) =? 0);
    cbn [negb]; [split; [reflexivity | discriminate]|].
  destruct (owner_in_path urlData w) as [Hown Hother]. cbn zeta in Hown, Hother.
  rewrite Hown, (Hother "repo") by discriminate. rewrite Howner.
  assert (Hreq :
    GET (createUrl (github w)
           ("/repos/"
            +:+ (if negb (strings.len (strings.TrimSpace (url.Cut dep "/").1) =? 0)
                 then mapIndex urlData "owner" else Login (github w))
            +:+ "/" +:+ mapIndex urlData "repo" +:+ "/keys"))
    = keysRequest token dep).
  { unfold keysRequest. destruct (url.Cut dep "/") as [owner name] eqn:Hcut.
    cbn [fst snd] in *. rewrite Hlogin.
    rewrite (createUrl_token (github w) (NewGitHubClient token "qiniu"))
      by exact Htoken.
    unfold mapIndex, urlData. rewrite lookup_insert_eq.
    rewrite lookup_insert_ne by discriminate. rewrite lookup_insert_eq.
    cbn [default from_option id].
    destruct (strings.len (strings.TrimSpace owner) =? 0); reflexivity. }
  unfold ClientGet, Do. cbn [github calls].
  fold (GET (createUrl (github w)
           ("/repos/"
            +:+ (if negb (strings.len (strings.TrimSpace (url.Cut dep "/").1) =? 0)
                 then mapIndex urlData "owner" else Login (github w))
            +:+ "/" +:+ mapIndex urlData "repo" +:+ "/keys"))).
  rewrite Hreq. unfold decoded200.
  destruct (client (calls w) (keysRequest token dep)) as [res|err].
  - destruct (http.StatusCode res =? 200).
    + destruct (http.Body res) as [data|err].
      * destruct (json.Unmarshal data _) as [keys|err];
          unfold worldAfter, returned; cbn [fst snd github calls withLimits].
        -- destruct (getLimits_identity res (github w)) as [-> ->].
           repeat split; assumption.
        -- repeat split; assumption.
      * unfold worldAfter, returned; cbn [fst snd github calls].
        repeat split; assumption.
    + unfold worldAfter, returned; cbn [fst snd github calls].
      repeat split; assumption.
  - unfold worldAfter, returned; cbn [fst snd github calls].
    repeat split; assumption.
Qed.

Lemma SplitN_two (dep : string) :
  SplitN dep "/" 2
  = if strings.hasByte "/" dep
    then [(url.Cut dep "/").1; (url.Cut dep "/").2] else [dep].
Proof.
  cbn [SplitN]. destruct (strings.hasByte "/" dep); [|reflexivity].
  destruct (url.Cut dep "/"). reflexivity.
Qed.

(** The loop calls the client for dependencies with a slash only, in
    their order, and stops for good at some point. *)
Lemma download_calls {Keys : Type} {D : json.Decodable Keys}
    (client : http.Client) (token : string) (deps : list string) :
  forall (w : World) (log : list (travis_deps.LogLine Keys)),
    Token (github w) = token -> Login (github w) = "qiniu" ->
    (exists n,
        calls (travis_deps.download client deps w log).1
        = calls w
          ++ take n (keysRequest token
                       <$> List.filter (strings.hasByte "/") deps))
    /\ Token (github (travis_deps.download client deps w log).1) = token
    /\ Login (github (travis_deps.download client deps w log).1) = "qiniu".
Proof.
  induction deps as [|dep deps IH]; intros w log Htoken Hlogin.
  - cbn. split; [exists O; rewrite app_nil_r; reflexivity | tauto].
  - cbn [travis_deps.download List.filter]. rewrite SplitN_two.
    destruct (strings.hasByte "/" dep) eqn:Hslash; [|apply IH; assumption].
    pose proof (GetRepoKeys_of_dependency (Keys := Keys) client dep token w
                  Htoken Hlogin) as Hturn.
    cbn zeta in Hturn. unfold worldAfter, returned in Hturn.
    destruct (GetRepoKeys client _ w) as [[[keys err] urlData'] w1].
    cbn [fst snd] in Hturn. cbn [fmap list_fmap].
    destruct (named dep).
    + destruct Hturn as (Hcalls & Htok & Hlog & _).
      destruct err as [err|].
      * cbn [fst]. split; [|tauto]. exists 1%nat. exact Hcalls.
      * lazymatch goal with
        | |- context [travis_deps.download client deps w1 ?l] =>
            destruct (IH w1 l Htok Hlog) as ((n & Hn) & Htok' & Hlog')
        end.
        split; [|tauto].
        exists (S n). rewrite Hn, Hcalls, <- app_assoc. reflexivity.
    + destruct Hturn as (-> & Herr). destruct err as [err|]; [|contradiction].
      cbn [fst]. split; [|tauto]. exists O. rewrite app_nil_r. reflexivity.
Qed.

(** With a client that answers every call with a list of keys, every
    dependency with a slash and a name is looked up. *)
Lemma download_all {Keys : Type} {D : json.Decodable Keys}
    (ok : http.Response) (data : string) (keys : Keys) (token : string)
    (deps : list string) :
  http.StatusCode ok = 200 -> http.Body ok = inl data ->
  json.Unmarshal data (json.pointer D) = inl keys ->
  (forall dep, dep ∈ deps -> strings.hasByte "/" dep = true ->
               named dep = true) ->
  forall (w : World) (log : list (travis_deps.LogLine Keys)),
    Token (github w) = token -> Login (github w) = "qiniu" ->
    calls (travis_deps.download (stub ok) deps w log).1
    = calls w
      ++ (keysRequest token <$> List.filter (strings.hasByte "/") deps).
Proof.
  intros Hst Hbody Hdec. induction deps as [|dep deps IH];
    intros Hnamed w log Htoken Hlogin.
  - cbn. rewrite app_nil_r. reflexivity.
  - assert (Hrest : forall d, d ∈ deps -> strings.hasByte "/" d = true ->
                              named d = true).
    { intros d Hd. apply Hnamed. apply list_elem_of_further, Hd. }
    cbn [travis_deps.download List.filter]. rewrite SplitN_two.
    destruct (strings.hasByte "/" dep) eqn:Hslash; [|apply IH; assumption].
    pose proof (GetRepoKeys_of_dependency (Keys := Keys) (stub ok) dep token w
                  Htoken Hlogin) as Hturn.
    cbn zeta in Hturn. unfold worldAfter, returned in Hturn.
    rewrite (Hnamed dep (list_elem_of_here _ _) Hslash) in Hturn.
    destruct (GetRepoKeys (stub ok) _ w) as [[ret urlData'] w1].
    cbn [fst snd] in Hturn. destruct Hturn as (Hcalls & Htok & Hlog & Hret).
    unfold decoded200, stub in Hret. rewrite Hst, Hbody, Hdec in Hret.
    cbn in Hret. subst ret. cbn [fmap list_fmap].
    rewrite <- app_assoc, IH by assumption.
    rewrite Hcalls, <- app_assoc. reflexivity.
Qed.

(** X11: [main] calls the client only for dependencies that contain a
    slash: its calls are, in order, the key requests of the first few of
    them, each made with the token of the configuration and, for a blank
    owner, the login qiniu; a dependency without a slash is passed over.
    When the client answers every call with keys and every such dependency
    names a repository, all of them are looked up; when the client fails,
    the run stops after its first call. *)
Theorem main_calls {Keys : Type} {D : json.Decodable Keys}
    (client : http.Client) (conf : travis_deps.Config) :
  let requests :=
    keysRequest (travis_deps.Token conf)
      <$> List.filter (strings.hasByte "/") (travis_deps.Deps conf) in
  (exists n,
      calls (travis_deps.main (Keys := Keys) client conf).1 = take n requests)
  /\ (forall ok data keys,
        client = stub ok ->
        http.StatusCode ok = 200 -> http.Body ok = inl data ->
        json.Unmarshal data (json.pointer D) = inl keys ->
        (forall dep, dep ∈ travis_deps.Deps conf ->
                     strings.hasByte "/" dep = true -> named dep = true) ->
        calls (travis_deps.main (Keys := Keys) client conf).1 = requests)
  /\ (forall err,
        client = (fun _ _ => inr err) ->
        (length (calls (travis_deps.main (Keys := Keys) client conf).1) <= 1)%nat).
Proof.
  intros requests. unfold travis_deps.main.
  set (w := {| github := NewGitHubClient (travis_deps.Token conf) "qiniu";
               calls := [] |}).
  split; [|split].
  - destruct (download_calls (Keys := Keys) client (travis_deps.Token conf)
                (travis_deps.Deps conf) w [] eq_refl eq_refl) as [[n Hn] _].
    exists n. exact Hn.
  - intros ok data keys -> Hst Hbody Hdec Hnamed.
    exact (download_all ok data keys (travis_deps.Token conf)
             (travis_deps.Deps conf) Hst Hbody Hdec Hnamed w [] eq_refl eq_refl).
  - intros err ->. generalize (@nil (travis_deps.LogLine Keys)).
    assert (Hw : calls w = []) by reflexivity.
    assert (Htok : Token (github w) = travis_deps.Token conf) by reflexivity.
    assert (Hlog : Login (github w) = "qiniu") by reflexivity.
    revert Hw Htok Hlog. generalize w. clear w.
    induction (travis_deps.Deps conf) as [|dep deps IH];
      intros w Hw Htok Hlog log.
    + cbn. rewrite Hw. cbn. lia.
    + cbn [travis_deps.download]. rewrite SplitN_two.
      destruct (strings.hasByte "/" dep) eqn:Hslash; [|apply IH; assumption].
      pose proof (GetRepoKeys_of_dependency (Keys := Keys)
                    (fun _ _ => inr err) dep (travis_deps.Token conf) w
                    Htok Hlog) as Hturn.
      cbn zeta in Hturn. unfold worldAfter, returned in Hturn.
      destruct (GetRepoKeys _ _ w) as [[[keys e] urlData'] w1].
      cbn [fst snd] in Hturn. destruct (named dep).
      * destruct Hturn as (Hcalls & _ & _ & Hret).
        cbn in Hret. injection Hret as -> ->. cbn [fst].
        rewrite Hcalls, Hw. cbn. lia.
      * destruct Hturn as (-> & Herr). destruct e as [e|]; [|contradiction].
        cbn [fst]. rewrite Hw. cbn. lia.
Qed.

(** Three dependencies: one as it should be, one without a slash, one
    with a blank owner. *)
Lemma main_calls_witness :
  let conf :=
    {| travis_deps.Token := "t";
       travis_deps.Deps := ["qiniu/errors"; "log"; "/rpc"] |} in
  let ok :=
    {| http.StatusCode := 200; http.Status := "200 OK"; http.Header := ∅;
       http.Body := inl "[]" |} in
  calls (travis_deps.main (Keys := json.value) (D := inl) (stub ok) conf).1
  = [GET "https://api.github.com/repos/qiniu/errors/keys?access_token=t";
     GET "https://api.github.com/repos/qiniu/rpc/keys?access_token=t"].
Proof.
  intros conf ok.
  refine (proj1 (proj2 (main_calls (Keys := json.value) (D := inl)
                          (stub ok) conf))
            ok "[]" (json.Array []) eq_refl eq_refl eq_refl eq_refl _).
  intros dep Hdep Hslash. subst conf. cbn in Hdep.
  repeat (apply elem_of_cons in Hdep as [->|Hdep];
          [first [reflexivity | discriminate Hslash]|]).
  apply elem_of_nil in Hdep. contradiction.
Defined.

(** ** Gates that hold *)

(** X12: the endpoints that test the repository with the single-key
    validator do stop: when the map has no repo, or a blank one,
    [GetRepoKeys], [DeleteRepo], [GetZip], [CreateFork] and [Merge] return
    the validation error, call nothing, create no file and leave the map
    as it is. *)
Theorem repo_gates_hold {Keys Fork Commit : Type}
    {DK : json.Decodable Keys} {DF : json.Decodable Fork}
    {DC : json.Decodable Commit} {E : json.Encodable (gmap string string)}
    (encode : gmap string string -> string) (fs : FileSystem)
    (client : http.Client) (urlData postData : gmap string string)
    (org : string) (w : World) :
  (forall v, urlData !! "repo" = Some v -> strings.TrimSpace v = EmptyString) ->
  let stopped := Some (errorString "There is missing data in urlData") in
  GetRepoKeys (Keys := Keys) client urlData w = ((None, stopped), urlData, w)
  /\ DeleteRepo client urlData w = (stopped, urlData, w)
  /\ GetZip fs client urlData w = (((false, stopped), urlData, w), [])
  /\ CreateFork (Fork := Fork) encode client urlData org w
     = Returns ((None, stopped), urlData, w)
  /\ Merge (Commit := Commit) client urlData postData w
     = ((None, stopped), urlData, w).
Proof.
  intros Hblank stopped.
  assert (Hgate : AssertMapString "repo" urlData = false).
  { apply not_true_is_false. intros H.
    apply AssertMapString_spec in H as (v & Hv & Hne).
    apply Hne, Hblank, Hv. }
  unfold GetRepoKeys, DeleteRepo, GetZip, CreateFork, Merge.
  rewrite Hgate. repeat split.
Qed.

(** A repo of white space, and an owner that is given. *)
Lemma repo_gates_hold_witness :
  let urlData : gmap string string :=
    <["owner" := "octocat"]> {["repo" := "  "]} in
  let w := {| github := NewGitHubClient "t" "me"; calls := [] |} in
  DeleteRepo (stub noContent) urlData w
  = (Some (errorString "There is missing data in urlData"), urlData, w).
Proof.
  intros urlData w.
  refine (proj1 (proj2 (repo_gates_hold (Keys := json.value)
            (Fork := json.value) (Commit := json.value) (DK := inl)
            (DF := inl) (DC := inl) (E := fun _ => inl "{}") (fun _ => "{}")
            {| create := fun _ => None; write := fun _ _ => None |}
            (stub noContent) urlData ∅ EmptyString w _))).
  intros v Hv. subst urlData.
  rewrite lookup_insert_ne in Hv by discriminate.
  apply lookup_singleton_Some in Hv as [_ <-]. reflexivity.
Defined.

(** ** Deleting a repository *)



(** ** The repositories of an organization *)




(** ** Merging a pull request *)




(** ** Membership of an organization *)

(** X16: with an organization that is not blank, [CheckOrgMembership]
    asks for /orgs/org/members/user, both trimmed, the user being the login
    when blank.  It never updates the rate limits.  It makes a second call
    only after a 302, to the Location header as it is, with no token added;
    and it answers member exactly on a 204, or on a 302 followed by a 200. *)
Theorem CheckOrgMembership_trace (client : http.Client) (org user : string)
    (w : World) :
  strings.TrimSpace org <> EmptyString ->
  let member :=
    if strings.len (strings.TrimSpace user) =? 0 then Login (github w)
    else strings.TrimSpace user in
  let first :=
    GET (createUrl (github w)
           ("/orgs/" +:+ strings.TrimSpace org +:+ "/members/" +:+ member)) in
  let out := CheckOrgMembership client org user w in
  github out.2 = github w
  /\ (forall res, client (calls w) first = inl res ->
        let second := GET (http.HeaderGet (http.Header res) "Location") in
        calls out.2
        = calls w ++ (if http.StatusCode res =? 302 then [first; second]
                      else [first])
        /\ (out.1 = ("member", None)
            <-> http.StatusCode res = 204
                \/ (http.StatusCode res = 302
                    /\ exists res2,
                         client (calls w ++ [first]) second = inl res2
                         /\ http.StatusCode res2 = 200)))
  /\ (forall err, client (calls w) first = inr err ->
        out.1 = (EmptyString, Some err) /\ calls out.2 = calls w ++ [first]).
Proof.
  intros Horg member first out. unfold out, CheckOrgMembership.
  destruct (Z.eqb_spec (strings.len (strings.TrimSpace org)) 0) as [H|_];
    [apply len_zero in H; contradiction|].
  fold member. unfold ClientGet, Do. cbn [github calls].
  change {| http.Method := "GET";
            http.URL := createUrl (github w)
                          ("/orgs/" +:+ strings.TrimSpace org
                           +:+ "/members/" +:+ member);
            http.ContentType := EmptyString;
            http.Payload := EmptyString |} with first.
  split; [|split].
  - destruct (client (calls w) first) as [res|err]; [|reflexivity].
    destruct (http.StatusCode res =? 204); [reflexivity|].
    destruct (http.StatusCode res =? 404); [reflexivity|].
    destruct (http.StatusCode res =? 302); [|reflexivity].
    destruct (client _ _) as [res2|err]; [|reflexivity].
    destruct (http.StatusCode res2 =? 200); [reflexivity|].
    destruct (http.StatusCode res2 =? 404); reflexivity.
  - intros res ->.
    set (second := GET (http.HeaderGet (http.Header res) "Location")).
    change {| http.Method := "GET";
              http.URL := http.HeaderGet (http.Header res) "Location";
              http.ContentType := EmptyString;
              http.Payload := EmptyString |} with second.
    destruct (Z.eqb_spec (http.StatusCode res) 204) as [H204|H204].
    { rewrite H204. cbn. split; [reflexivity|]. split; [left|]; reflexivity. }
    destruct (Z.eqb_spec (http.StatusCode res) 404) as [H404|H404].
    { rewrite H404. cbn. split; [reflexivity|].
      split; [discriminate | intros [H|[H _]]; lia]. }
    destruct (Z.eqb_spec (http.StatusCode res) 302) as [H302|H302].
    2:{ cbn. split; [reflexivity|].
        split; [discriminate | intros [H|[H _]]; contradiction]. }
    destruct (client (calls w ++ [first]) second) as [res2|err] eqn:Hsecond.
    2:{ cbn. split; [rewrite <- app_assoc; reflexivity|].
        split; [discriminate|].
        intros [H|[_ (res2 & Hres2 & _)]]; [contradiction | discriminate]. }
    destruct (Z.eqb_spec (http.StatusCode res2) 200) as [H200|H200].
    { cbn. split; [rewrite <- app_assoc; reflexivity|].
      split; [|reflexivity]. intros _. right. split; [exact H302|].
      exists res2. split; [reflexivity | exact H200]. }
    destruct (http.StatusCode res2 =? 404); cbn;
      (split; [rewrite <- app_assoc; reflexivity|]);
      (split; [discriminate|]);
      (intros [H|[_ (r & Hr & Hs)]];
         [contradiction | injection Hr as <-; contradiction]).
  - intros err ->. split; reflexivity.
Qed.

(** A redirect that is followed: two calls, the second without the token,
    and the answer is member. *)
Lemma CheckOrgMembership_trace_witness :
  let w := {| github := NewGitHubClient "t" "me"; calls := [] |} in
  let client := firstThen (redirect "https://example.org/m") limitsResponse in
  let out := CheckOrgMembership client " qiniu " EmptyString w in
  calls out.2
  = [GET "https://api.github.com/orgs/qiniu/members/me?access_token=t";
     GET "https://example.org/m"]
  /\ out.1 = ("member", None)
  /\ CallsRemaining (github out.2) = 5000.
Proof.
  intros w client out.
  assert (Horg : strings.TrimSpace " qiniu " <> EmptyString)
    by (vm_compute; discriminate).
  destruct (CheckOrgMembership_trace client " qiniu " EmptyString w Horg)
    as (Hgh & Hres & _).
  destruct (Hres (redirect "https://example.org/m") eq_refl)
    as [Hcalls Hmember].
  split; [exact Hcalls | split].
  - apply Hmember. right. split; [reflexivity|].
    exists limitsResponse. split; reflexivity.
  - unfold out. rewrite Hgh. reflexivity.
Defined.

(** ** Downloading an archive *)

Lemma mapIndex_insert (m : gmap string string) (k v : string) :
  mapIndex (<[k := v]> m) k = v.
Proof. unfold mapIndex. rewrite lookup_insert_eq. reflexivity. Qed.

(** X17: [GetZip] never looks at the status.  With a repo that is not
    blank, the archive file is created first, named after the owner, the
    repo and the branch, with .tar.gz for the format tarball and .zip for
    any other; whatever the status of the response, its body is copied to
    the file and the result is true.  When the client fails the created
    file is left behind.  A missing format is written into the map of the
    caller as zipball. *)
Theorem GetZip_saves_any_response (fs : FileSystem) (client : http.Client)
    (urlData : gmap string string) (w : World) :
  AssertMapString "repo" urlData = true ->
  let owner :=
    if AssertMapString "owner" urlData then mapIndex urlData "owner"
    else Login (github w) in
  let format :=
    if strings.len (mapIndex urlData "format") =? 0 then "zipball"
    else mapIndex urlData "format" in
  let ext :=
    if String.eqb (mapIndex urlData "format") "tarball" then ".tar.gz"
    else ".zip" in
  let zipOut :=
    "github/zip/" +:+ owner +:+ "-" +:+ mapIndex urlData "repo" +:+ "-"
    +:+ mapIndex urlData "branch" +:+ ext in
  let request :=
    GET (createUrl (github w)
           ("/repos/" +:+ owner +:+ "/" +:+ mapIndex urlData "repo" +:+ "/"
            +:+ format +:+ "/" +:+ mapIndex urlData "branch")) in
  create fs zipOut = None ->
  let out := GetZip fs client urlData w in
  (forall res data,
     client (calls w) request = inl res -> http.Body res = inl data ->
     write fs zipOut data = None ->
     returned out.1 = (true, None)
     /\ out.2 = [Created zipOut; Copied zipOut data])
  /\ (forall err,
        client (calls w) request = inr err ->
        returned out.1 = (false, Some err) /\ out.2 = [Created zipOut])
  /\ mapIndex (urlDataAfter out.1) "format" = format.
Proof.
  intros Hrepo owner format ext zipOut request Hcreate out.
  unfold out, GetZip. rewrite Hrepo. cbn [negb].
  destruct (owner_in_path urlData w) as [Hown Hother]. cbn zeta in Hown, Hother.
  set (urlData1 := if negb (AssertMapString "owner" urlData)
                   then <["owner" := Login (github w)]> urlData
                   else urlData) in *.
  fold owner in Hown.
  set (urlData2 := if strings.len (mapIndex urlData1 "format") =? 0
                   then <["format" := "zipball"]> urlData1 else urlData1).
  assert (Hformat : mapIndex urlData2 "format" = format).
  { unfold urlData2, format. rewrite (Hother "format") by discriminate.
    destruct (strings.len (mapIndex urlData "format") =? 0).
    - apply mapIndex_insert.
    - apply Hother. discriminate. }
  assert (Hrest : forall k, k <> "format" ->
                            mapIndex urlData2 k = mapIndex urlData1 k).
  { intros k Hk. unfold urlData2.
    destruct (strings.len (mapIndex urlData1 "format") =? 0);
      [apply mapIndex_insert_ne; congruence | reflexivity]. }
  assert (Hext : (if String.eqb format "tarball" then ".tar.gz" else ".zip")
                 = ext).
  { unfold format, ext.
    destruct (Z.eqb_spec (strings.len (mapIndex urlData "format")) 0) as [H|H];
      [|reflexivity].
    apply len_zero in H. rewrite H. reflexivity. }
  rewrite Hformat, Hext.
  rewrite !(Hrest "owner"), !(Hrest "repo"), !(Hrest "branch") by discriminate.
  rewrite Hown, !(Hother "repo"), !(Hother "branch") by discriminate.
  change (BASEPATH +:+ "github/zip/" +:+ owner +:+ "-"
          +:+ mapIndex urlData "repo" +:+ "-" +:+ mapIndex urlData "branch"
          +:+ ext) with zipOut.
  rewrite Hcreate. unfold ClientGet, Do. cbn [github calls].
  change {| http.Method := "GET";
            http.URL := createUrl (github w)
                          ("/repos/" +:+ owner +:+ "/"
                           +:+ mapIndex urlData "repo" +:+ "/" +:+ format
                           +:+ "/" +:+ mapIndex urlData "branch");
            http.ContentType := EmptyString;
            http.Payload := EmptyString |} with request.
  split; [|split].
  - intros res data -> -> ->. split; reflexivity.
  - intros err ->. split; reflexivity.
  - destruct (client (calls w) request) as [res|err]; [|exact Hformat].
    destruct (http.Body res) as [data|err]; [|exact Hformat].
    destruct (write fs zipOut data); exact Hformat.
Qed.

(** The page of a 404 is saved as the archive. *)
Lemma GetZip_saves_any_response_witness :
  let urlData : gmap string string :=
    {["repo" := "hello"; "branch" := "master"]} in
  let w := {| github := NewGitHubClient "t" "me"; calls := [] |} in
  (GetZip willing (stub notFound) urlData w).1.1.1 = (true, None)
  /\ (GetZip willing (stub notFound) urlData w).2
     = [Created "github/zip/me-hello-master.zip";
        Copied "github/zip/me-hello-master.zip" "Not Found"]
  /\ (GetZip willing (stub notFound) urlData w).1.1.2 !! "format"
     = Some "zipball".
Proof.
  intros urlData w.
  destruct (GetZip_saves_any_response willing (stub notFound) urlData w
              eq_refl eq_refl) as (Hsaved & _ & _).
  destruct (Hsaved notFound "Not Found" eq_refl eq_refl eq_refl)
    as [Hreturned Hevents].
  split; [exact Hreturned | split; [exact Hevents | reflexivity]].
Defined.

(** ** Forking a repository *)

(** X18: with a repo that is not blank and an organization that is not
    empty, [CreateFork] posts the same body whatever the organization is,
    the encoding of organization: org, so that two organizations give the
    same run; the error of the client is lost on the way and the call
    panics where, with no organization, it returns that error. *)
Theorem CreateFork_organization {Fork : Type} {D : json.Decodable Fork}
    (encode : gmap string string -> string) (client : http.Client)
    (urlData : gmap string string) (org : string) (w : World) :
  AssertMapString "repo" urlData = true ->
  org <> EmptyString ->
  let owner :=
    if AssertMapString "owner" urlData then mapIndex urlData "owner"
    else Login (github w) in
  let u :=
    createUrl (github w)
      ("/repos/" +:+ owner +:+ "/" +:+ mapIndex urlData "repo" +:+ "/forks") in
  let request :=
    POST u "application/json" (encode {["organization" := "org"]}) in
  (forall org', org' <> EmptyString ->
     CreateFork (Fork := Fork) encode client urlData org' w
     = CreateFork (Fork := Fork) encode client urlData org w)
  /\ (forall res, client (calls w) request = inl res ->
        exists out,
          CreateFork (Fork := Fork) encode client urlData org w = Returns out
          /\ calls (worldAfter out) = calls w ++ [request])
  /\ (forall err, client (calls w) request = inr err ->
        CreateFork (Fork := Fork) encode client urlData org w = Panics)
  /\ (forall err,
        client (calls w) (POST u "application/json" EmptyString) = inr err ->
        exists out,
          CreateFork (Fork := Fork) encode client urlData EmptyString w
          = Returns out
          /\ (returned out).2 = Some err).
Proof.
  intros Hrepo Horg owner u request.
  assert (Heqb : forall o, o <> EmptyString -> String.eqb o EmptyString = false).
  { intros o Ho. apply String.eqb_neq. exact Ho. }
  unfold CreateFork. rewrite Hrepo. cbn [negb].
  destruct (owner_in_path urlData w) as [Hown Hother]. cbn zeta in Hown, Hother.
  rewrite Hown, (Hother "repo") by discriminate.
  fold owner. fold u. rewrite (Heqb org Horg). cbn [negb].
  unfold ClientPost, Do. cbn [github calls].
  change {| http.Method := "POST"; http.URL := u;
            http.ContentType := "application/json";
            http.Payload := encode {["organization" := "org"]} |}
    with request.
  split; [|split; [|split]].
  - intros org' Horg'. rewrite (Heqb org' Horg'). reflexivity.
  - intros res ->.
    destruct (http.StatusCode res =? 202);
      [|eexists; split; reflexivity].
    destruct (http.Body res) as [data|err];
      [|eexists; split; reflexivity].
    destruct (json.Unmarshal data _); eexists; split; reflexivity.
  - intros err ->. reflexivity.
  - intros err Herr. change (String.eqb EmptyString EmptyString) with true.
    cbn [negb]. unfold POST in Herr. rewrite Herr.
    eexists. split; reflexivity.
Qed.

(** Forking into qiniu posts organization: org, and an unreachable server
    makes the call panic. *)
Lemma CreateFork_organization_witness :
  let urlData : gmap string string := {["repo" := "hello"]} in
  let w := {| github := NewGitHubClient "t" "me"; calls := [] |} in
  let encode : gmap string string -> string :=
    fun _ => "{" +:+ q +:+ "organization" +:+ q +:+ ":" +:+ q +:+ "org"
             +:+ q +:+ "}" in
  CreateFork (Fork := json.value) (D := inl) encode
    (unreachable (foreignError "dial tcp")) urlData "qiniu" w
  = Panics
  /\ CreateFork (Fork := json.value) (D := inl) encode
       (unreachable (foreignError "dial tcp")) urlData "golang" w
     = Panics.
Proof.
  intros urlData w encode.
  assert (Hqiniu : "qiniu" <> EmptyString) by discriminate.
  assert (Hgolang : "golang" <> EmptyString) by discriminate.
  destruct (CreateFork_organization (Fork := json.value) (D := inl) encode
              (unreachable (foreignError "dial tcp")) urlData "qiniu" w
              eq_refl Hqiniu) as (Hsame & _ & Hpanics & _).
  rewrite (Hsame "golang" Hgolang).
  split; exact (Hpanics (foreignError "dial tcp") eq_refl).
Defined.

(** ** The map of the caller is shared *)

(** X19: the owner that [GetIssue] fills in stays in the map of the
    caller.  When the map has no owner and the login of the first client is
    not blank, a later [GetIssue] with the same map on any other client asks
    for the issue of the first login, not of its own. *)
Theorem GetIssue_owner_sticks {Issue : Type} {D : json.Decodable Issue}
    (client1 client2 : http.Client) (urlData : gmap string string)
    (w1 w2 : World) :
  AssertMapString "owner" urlData = false ->
  strings.TrimSpace (Login (github w1)) <> EmptyString ->
  let urlData' := urlDataAfter (GetIssue (Issue := Issue) client1 urlData w1) in
  calls (worldAfter (GetIssue (Issue := Issue) client2 urlData' w2))
  = calls w2
    ++ [GET (createUrl (github w2)
               ("/repos/" +:+ Login (github w1) +:+ "/"
                +:+ mapIndex urlData "repo" +:+ "/issues/"
                +:+ mapIndex urlData "number"))].
Proof.
  intros Hmissing Hlogin urlData'. unfold urlData'.
  rewrite GetIssue_default_owner, Hmissing.
  assert (Hgiven : AssertMapString "owner"
                     (<["owner" := Login (github w1)]> urlData) = true).
  { apply AssertMapString_spec. exists (Login (github w1)).
    split; [apply lookup_insert_eq | exact Hlogin]. }
  unfold GetIssue, worldAfter. rewrite AssertMapStrings_true, Hgiven.
  cbn [negb]. rewrite mapIndex_insert, !mapIndex_insert_ne by discriminate.
  unfold ClientGet, Do. cbn [github calls].
  destruct (client2 _ _) as [res|err]; [|reflexivity].
  destruct (http.StatusCode res =? 200); [|reflexivity].
  destruct (http.Body res) as [data|err]; [|reflexivity].
  destruct (json.Unmarshal data _); reflexivity.
Qed.

(** The map used by alice and then by bob: bob asks for the issue of
    alice, with his own token. *)
Lemma GetIssue_owner_sticks_witness :
  let urlData : gmap string string :=
    {["repo" := "hello"; "number" := "7"]} in
  let alice := {| github := NewGitHubClient "ta" "alice"; calls := [] |} in
  let bob := {| github := NewGitHubClient "tb" "bob"; calls := [] |} in
  calls (worldAfter
           (GetIssue (Issue := json.value) (D := inl) (stub noContent)
              (urlDataAfter
                 (GetIssue (Issue := json.value) (D := inl) (stub noContent)
                    urlData alice))
              bob))
  = [GET "https://api.github.com/repos/alice/hello/issues/7?access_token=tb"].
Proof.
  intros urlData alice bob.
  assert (Hlogin : strings.TrimSpace (Login (github alice)) <> EmptyString)
    by (vm_compute; discriminate).
  exact (GetIssue_owner_sticks (Issue := json.value) (D := inl)
           (stub noContent) (stub noContent) urlData alice bob
           eq_refl Hlogin).
Defined.
